(** * The AEO analysis engine: analyzers, orchestrator and overall score

    A shallow embedding of the scoring pipeline of the platform:
    [shared/src/utils/helpers.ts] and [constants.ts] (weights and overall
    score), [server/src/services/analyzer/analyzers/*.ts] (the category
    analyzers and their base class) and
    [server/src/services/analyzer/AEOAnalyzer.ts] (the orchestrator), with
    the two places of [server/src/routes/analysis.ts] that surround a call of
    the orchestrator: the validation of the request and the dispatch of the
    fixes to [server/src/services/ai/CodeFixGenerator.ts].

    Conventions of the embedding.
    - A JavaScript [number] is an exact rational ([Q]).  The numbers the
      engine computes are small integers, on which the arithmetic of the
      source is exact, except the averages of the readability estimate and
      of the schema analyzer, which are exact here where the source rounds
      to a double.  Lengths, counts, heading levels and the literal
      priorities are kept in [Z].
    - A JavaScript string is a [string] whose characters are UTF-16 code
      units below 256 (the Latin-1 range).
    - A function that can throw returns an [Outcome].
    - An array that the source passes around and pushes to is threaded
      through the calls: the callee returns the extended array.
    - What the JavaScript runtime provides and the repository does not
      (the regular-expression engine, the URL parser, the printing of
      non-integer numbers, the numeric coercion of strings) is a field of
      [Runtime]; everything is stated for an arbitrary runtime.
    - [NaN] and the infinities are not numbers of the embedding; the source
      divides only by a count or a total weight that it has found
      positive.  Numbers so large that a sum of the source would overflow
      are outside the embedding: the theorem on the range of
      [calculateScore] is stated for whole weights and scores up to 100. *)

From Stdlib Require Import ZArith QArith Qround Qminmax Qabs Lqa Lia.
From Stdlib Require Import List String Ascii Bool Permutation Sorted.
From Stdlib Require Import DecimalString.
From stdpp Require Import gmap strings.
Import ListNotations.

#[local] Set Warnings "-register-all".
Local Open Scope string_scope.
Local Open Scope Z_scope.

(** ** JavaScript values and primitives *)

Module JS.

Definition number := Q.
Bind Scope Q_scope with number.

(** [Math.round]: the nearest integer, halves going up. *)
Definition Math_round (x : number) : Z := Qfloor (x + (1 # 2)).

Definition Math_min (x y : number) : number := Qmin x y.
Definition Math_max (x y : number) : number := Qmax x y.

Definition of_int (z : Z) : number := inject_Z z.

Definition ltb (x y : number) : bool := negb (Qle_bool y x).
Definition gtb (x y : number) : bool := ltb y x.
Definition geb (x y : number) : bool := Qle_bool y x.
Definition eqb (x y : number) : bool := Qeq_bool x y.

(** *** Completion of a call: a value, or a thrown error. *)

Inductive Outcome (A : Type) : Type :=
| Returned (a : A)
| Thrown (message : string).
Arguments Returned {A} a.
Arguments Thrown {A} message.

Definition bind {A B} (m : Outcome A) (k : A -> Outcome B) : Outcome B :=
  match m with
  | Returned a => k a
  | Thrown e => Thrown e
  end.

(** [try { body } catch (error) { handler }] *)
Definition try_catch {A} (body : Outcome A) (handler : string -> Outcome A)
  : Outcome A :=
  match body with
  | Returned a => Returned a
  | Thrown e => handler e
  end.

(** [xs.filter(f)] when the callback can throw: the first throw ends the
    traversal. *)
Fixpoint filterM {A} (f : A -> Outcome bool) (xs : list A) : Outcome (list A) :=
  match xs with
  | [] => Returned []
  | x :: xs' =>
      bind (f x) (fun b =>
      bind (filterM f xs') (fun ys => Returned (if b then x :: ys else ys)))
  end.

(** *** Strings *)

Definition length (s : string) : Z := Z.of_nat (String.length s).

(** White space of [\s] and of [trim] among the code units below 256. *)
Definition isWhiteSpace (c : ascii) : bool :=
  let n := N_of_ascii c in
  (((9 <=? n) && (n <=? 13)) || (n =? 32) || (n =? 160))%N.

Definition lower_unit (c : ascii) : ascii :=
  let n := N_of_ascii c in
  if (((65 <=? n) && (n <=? 90))
      || ((192 <=? n) && (n <=? 222) && negb (n =? 215)))%N
  then ascii_of_N (n + 32) else c.

Fixpoint toLowerCase (s : string) : string :=
  match s with
  | EmptyString => EmptyString
  | String c s' => String (lower_unit c) (toLowerCase s')
  end.

Definition startsWith (s p : string) : bool := String.prefix p s.

Fixpoint includes (s sub : string) : bool :=
  String.prefix sub s
  || match s with
     | EmptyString => false
     | String _ s' => includes s' sub
     end.

Fixpoint endsWith (s suffix : string) : bool :=
  String.eqb s suffix
  || match s with
     | EmptyString => false
     | String _ s' => endsWith s' suffix
     end.

Fixpoint trimStart (s : string) : string :=
  match s with
  | EmptyString => EmptyString
  | String c s' => if isWhiteSpace c then trimStart s' else s
  end.

Fixpoint trimEnd (s : string) : string :=
  match s with
  | EmptyString => EmptyString
  | String c s' =>
      match trimEnd s' with
      | EmptyString => if isWhiteSpace c then EmptyString else String c EmptyString
      | t => String c t
      end
  end.

Definition trim (s : string) : string := trimEnd (trimStart s).

(** [s.split(/[...]+/)] for a class of separator characters: the pieces
    between the maximal runs of separators.  A run at either end leaves an
    empty piece there, and the empty string splits into one empty piece.
    [in_run] tells that the previous character was a separator. *)
Fixpoint split_runs (sep : ascii -> bool) (in_run : bool) (s : string)
  : list string :=
  match s with
  | EmptyString => [EmptyString]
  | String c s' =>
      if sep c then
        if in_run then split_runs sep true s'
        else EmptyString :: split_runs sep true s'
      else
        match split_runs sep false s' with
        | piece :: pieces => String c piece :: pieces
        | [] => [String c EmptyString]
        end
  end.

(** [s.split(/\s+/)] *)
Definition split_whitespace (s : string) : list string :=
  split_runs isWhiteSpace false s.

Definition isSentenceEnd (c : ascii) : bool :=
  let n := N_of_ascii c in ((n =? 46) || (n =? 33) || (n =? 63))%N.

(** [s.split(/[.!?]+/)] *)
Definition split_sentences (s : string) : list string :=
  split_runs isSentenceEnd false s.

(** [xs.join(sep)] *)
Fixpoint join (sep : string) (xs : list string) : string :=
  match xs with
  | [] => EmptyString
  | [x] => x
  | x :: xs' => x ++ sep ++ join sep xs'
  end.

(** [s.substr(0, length)] for an integer [length]: the first [length]
    characters, none when [length] is not positive. *)
Definition substr_0 (s : string) (length : Z) : string :=
  String.substring 0 (Z.to_nat length) s.

(** [s.substring(0, end)] for an integer [end], likewise. *)
Definition substring_0 (s : string) (stop : Z) : string :=
  String.substring 0 (Z.to_nat stop) s.

(** A template literal, given by its parts. *)
Definition template (parts : list string) : string := String.concat EmptyString parts.

(** Printing of an integer, as template literals do. *)
Definition int_toString (z : Z) : string := NilZero.string_of_int (Z.to_int z).

(** *** JSON trees: the [any] of a structured-data block *)

Inductive value : Type :=
| Null
| Bool (b : bool)
| Number (n : number)
| Str (s : string)
| Array (items : list value)
| Object (properties : list (string * value)).

(** [o[key]] on the properties of an object; [None] is [undefined]. *)
Fixpoint lookup_property (key : string) (properties : list (string * value))
  : option value :=
  match properties with
  | [] => None
  | (k, v) :: rest => if String.eqb k key then Some v else lookup_property key rest
  end.

(** [v[key]] for a key that is not built in; reading a property of [null]
    throws, primitives and arrays have no such property. *)
Definition get (v : value) (key : string) : Outcome (option value) :=
  match v with
  | Null =>
      Thrown (template ["TypeError: Cannot read properties of null (reading '";
                        key; "')"])
  | Object properties => Returned (lookup_property key properties)
  | _ => Returned None
  end.

(** Truthiness; [undefined] is falsy. *)
Definition truthy (v : option value) : bool :=
  match v with
  | None => false
  | Some Null => false
  | Some (Bool b) => b
  | Some (Number n) => negb (eqb n 0%Q)
  | Some (Str s) => negb (String.eqb s EmptyString)
  | Some (Array _) => true
  | Some (Object _) => true
  end.

(** [Object.keys(o)]: the distinct keys, in order of first appearance. *)
Fixpoint Object_keys (properties : list (string * value)) : list string :=
  match properties with
  | [] => []
  | (k, _) :: rest =>
      k :: List.filter (fun k' => negb (String.eqb k' k)) (Object_keys rest)
  end.

(** [v.length]: arrays and strings have one, an object may carry a property
    of that name, the other values have none. *)
Definition get_length (v : value) : option value :=
  match v with
  | Array items => Some (Number (of_int (Z.of_nat (List.length items))))
  | Str s => Some (Number (of_int (length s)))
  | Object properties => lookup_property "length" properties
  | _ => None
  end.

(** *** [Array.prototype.sort]

    [xs.sort(compare)] is stable: [x] is put before the first later element
    that it does not exceed, so elements that compare equal keep their
    order.  [compare x y] is the number returned by the callback. *)
Fixpoint sort_insert {A} (compare : A -> A -> Z) (x : A) (sorted : list A) : list A :=
  match sorted with
  | [] => [x]
  | y :: rest =>
      if compare x y <=? 0 then x :: y :: rest
      else y :: sort_insert compare x rest
  end.

Definition sort {A} (compare : A -> A -> Z) (xs : list A) : list A :=
  List.fold_right (sort_insert compare) [] xs.

(** *** What the runtime provides

    [RegExp_test source s] is [/source/.test(s)] and [String_match source s]
    is [s.match(/source/g)] with [null] read as the empty array; the
    pattern is named by its source text, flags included.  [URL_valid s]
    tells whether [new URL(s)] succeeds.  [Number_toString] prints a number
    that is not an integer, and [StringToNumber] is the numeric reading of a
    string, [None] being [NaN]. *)
Record Runtime : Type := {
  RegExp_test : string -> string -> bool;
  String_match : string -> string -> list string;
  URL_valid : string -> bool;
  Number_toString : number -> string;
  StringToNumber : string -> option number
}.

(** Printing of a number in a template literal: the digits of an integer
    below 10^21, what the runtime prints otherwise. *)
Definition number_toString (rt : Runtime) (n : number) : string :=
  let r := Qred n in
  if Pos.eqb (Qden r) 1 && (Z.abs (Qnum r) <? 10 ^ 21)
  then int_toString (Qnum r)
  else Number_toString rt n.

(** [x.toFixed(1)]: one decimal, the nearest, halves away from zero; from
    10^21 on the number is printed as in a template literal. *)
Definition toFixed1 (rt : Runtime) (x : number) : string :=
  if Qle_bool (inject_Z (10 ^ 21)) (Qabs x) then number_toString rt x
  else
    let tenths := Qfloor (Qabs x * 10 + (1 # 2)) in
    let body :=
      template [int_toString (tenths / 10); "."; int_toString (tenths mod 10)] in
    if Qle_bool 0 x then body else template ["-"; body].

(** [String(v)], the printing of a value in a template literal. *)
Fixpoint ToString (rt : Runtime) (v : value) : string :=
  match v with
  | Null => "null"
  | Bool true => "true"
  | Bool false => "false"
  | Number n => number_toString rt n
  | Str s => s
  | Array items =>
      join "," (List.map (fun item => match item with
                                      | Null => EmptyString
                                      | _ => ToString rt item
                                      end) items)
  | Object _ => "[object Object]"
  end.

(** [Number(v)], the coercion applied by [<]; [None] is [NaN]. *)
Definition ToNumber (rt : Runtime) (v : option value) : option number :=
  match v with
  | None => None
  | Some Null => Some 0%Q
  | Some (Bool b) => Some (if b then 1%Q else 0%Q)
  | Some (Number n) => Some n
  | Some (Str s) => StringToNumber rt s
  | Some w => StringToNumber rt (ToString rt w)
  end.

(** [v < n] for a number [n]. *)
Definition less_than (rt : Runtime) (v : option value) (n : number) : bool :=
  match ToNumber rt v with
  | Some m => ltb m n
  | None => false
  end.

(** [v === n] for a number [n]. *)
Definition strict_equal (v : option value) (n : number) : bool :=
  match v with
  | Some (Number m) => eqb m n
  | _ => false
  end.

End JS.

Notation "'let*' x ':=' m 'in' k" := (JS.bind m (fun x => k))
  (at level 10, x name, m at level 100, k at level 200).

(** ** Shared types ([shared/src/types/index.ts]) *)

Inductive AnalysisStatus : Type := PENDING | IN_PROGRESS | COMPLETED | FAILED.

Inductive AEOCategory : Type :=
| FAQ_SCHEMA
| SCHEMA_MARKUP
| CONTENT_STRUCTURE
| FEATURED_SNIPPETS
| ENTITY_OPTIMIZATION
| META_TAGS
| SEMANTIC_HTML
| VOICE_SEARCH
| KNOWLEDGE_GRAPH
| TECHNICAL_SEO.

(** The string value of each member of the enum. *)
Definition category_value (c : AEOCategory) : string :=
  match c with
  | FAQ_SCHEMA => "faq_schema"
  | SCHEMA_MARKUP => "schema_markup"
  | CONTENT_STRUCTURE => "content_structure"
  | FEATURED_SNIPPETS => "featured_snippets"
  | ENTITY_OPTIMIZATION => "entity_optimization"
  | META_TAGS => "meta_tags"
  | SEMANTIC_HTML => "semantic_html"
  | VOICE_SEARCH => "voice_search"
  | KNOWLEDGE_GRAPH => "knowledge_graph"
  | TECHNICAL_SEO => "technical_seo"
  end.

(** [Object.values(AEOCategory)] *)
Definition AEOCategory_values : list AEOCategory :=
  [FAQ_SCHEMA; SCHEMA_MARKUP; CONTENT_STRUCTURE; FEATURED_SNIPPETS;
   ENTITY_OPTIMIZATION; META_TAGS; SEMANTIC_HTML; VOICE_SEARCH;
   KNOWLEDGE_GRAPH; TECHNICAL_SEO].

Inductive Severity : Type := CRITICAL | HIGH | MEDIUM | LOW.


Record CategoryScores : Type := {
  faqSchema : JS.number;
  schemaMarkup : JS.number;
  contentStructure : JS.number;
  featuredSnippets : JS.number;
  entityOptimization : JS.number;
  metaTags : JS.number;
  semanticHtml : JS.number;
  voiceSearch : JS.number;
  knowledgeGraph : JS.number;
  technicalSeo : JS.number
}.

Module Heading.
Record t : Type := make { level : Z; text : string; id : option string }.
End Heading.

Module SchemaMarkup.
Record t : Type := make {
  type : string;
  data : list (string * JS.value);
  isValid : bool;
  errors : option (list string)
}.
End SchemaMarkup.

Module MetaTag.
Record t : Type := make {
  name : option string;
  property : option string;
  content : string
}.
End MetaTag.

Module OpenGraphTag.
Record t : Type := make { property : string; content : string }.
End OpenGraphTag.

Module ImageData.
Record t : Type := make {
  src : string;
  alt : option string;
  title : option string;
  width : option JS.number;
  height : option JS.number
}.
End ImageData.

Module LinkData.
Record t : Type := make {
  href : string;
  text : string;
  isInternal : bool;
  rel : option string
}.
End LinkData.

Module PerformanceMetrics.
Record vitals : Type := make_vitals {
  lcp : option JS.number;
  fid : option JS.number;
  cls : option JS.number
}.
Record t : Type := make {
  loadTime : JS.number;
  pageSize : JS.number;
  coreWebVitals : option vitals
}.
End PerformanceMetrics.

Module ScrapedData.
Record t : Type := make {
  url : string;
  title : string;
  metaDescription : string;
  headings : list Heading.t;
  content : string;
  schemas : list SchemaMarkup.t;
  metaTags : list MetaTag.t;
  openGraphTags : list OpenGraphTag.t;
  images : list ImageData.t;
  links : list LinkData.t;
  performance : PerformanceMetrics.t
}.
End ScrapedData.


(** ** The analyzer base class ([analyzers/BaseAnalyzer.ts]) *)

Module AnalyzerIssue.
Record t : Type := make {
  severity : Severity;
  title : string;
  description : string;
  impact : string;
  fixable : bool
}.
End AnalyzerIssue.

Module AnalyzerRecommendation.
Record t : Type := make {
  priority : Z;
  title : string;
  description : string;
  estimatedImpact : Z;
  implementationTime : Z
}.
End AnalyzerRecommendation.

Module AnalyzerResult.
Record t : Type := make {
  score : JS.number;
  issues : list AnalyzerIssue.t;
  recommendations : list AnalyzerRecommendation.t
}.
End AnalyzerResult.

(** [analyze(data, quick?)]: the second argument may be left out. *)
Definition Analyzer : Type :=
  ScrapedData.t -> option bool -> JS.Outcome AnalyzerResult.t.

(** A default parameter [quick: boolean = false]. *)
Definition default_false (quick : option bool) : bool :=
  match quick with Some b => b | None => false end.

Module BaseAnalyzer.

Definition sum_numbers (xs : list JS.number) : JS.number :=
  List.fold_left Qplus xs 0%Q.

(** [calculateScore(factors)], a factor being the pair of its weight and its
    score. *)
Definition calculateScore (factors : list (JS.number * JS.number)) : Z :=
  let totalWeight := sum_numbers (List.map fst factors) in
  let weightedSum := sum_numbers (List.map (fun f => snd f * fst f)%Q factors) in
  if JS.gtb totalWeight 0 then JS.Math_round (weightedSum / totalWeight) else 0.

Definition getSeverityFromScore (score : JS.number) : Severity :=
  if JS.geb score 80 then LOW
  else if JS.geb score 60 then MEDIUM
  else if JS.geb score 40 then HIGH
  else CRITICAL.

Definition nonempty (s : string) : bool := 0 <? JS.length s.

Definition countWords (text : string) : Z :=
  Z.of_nat (List.length (List.filter nonempty (JS.split_whitespace (JS.trim text)))).

Definition isValidUrl (rt : JS.Runtime) (url : string) : bool := JS.URL_valid rt url.

Definition isSnippetOptimized (text : string) : bool :=
  let wordCount := countWords text in (40 <=? wordCount) && (wordCount <=? 60).

Definition findSnippetCandidates (text : string) : list string :=
  let sentences :=
    List.filter (fun s => 0 <? JS.length (JS.trim s)) (JS.split_sentences text) in
  List.filter (fun sentence =>
                 let wordCount := countWords sentence in
                 (40 <=? wordCount) && (wordCount <=? 60)) sentences.

(** The loop of [validateHeadingStructure] over the headings after the
    first, [previous] being [headings[i - 1]]; the state is the pair of
    [isValid] and [issues]. *)
Fixpoint check_hierarchy (previous : Heading.t) (rest : list Heading.t)
  (state : bool * list string) : bool * list string :=
  match rest with
  | [] => state
  | current :: rest' =>
      check_hierarchy current rest'
        (if Heading.level current >? Heading.level previous + 1
         then (false,
               (snd state
                ++ [JS.template ["Heading level jumps from H";
                                 JS.int_toString (Heading.level previous);
                                 " to H";
                                 JS.int_toString (Heading.level current)]])%list)
         else state)
  end.

(** The result is the pair of [isValid] and [issues]. *)
Definition validateHeadingStructure (headings : list Heading.t)
  : bool * list string :=
  match headings with
  | [] => (false, ["No headings found"])
  | first :: rest =>
      let h1Count :=
        Z.of_nat (List.length (List.filter (fun h => Heading.level h =? 1) headings)) in
      let state :=
        if h1Count =? 0 then (false, ["Missing H1 tag"])
        else if h1Count >? 1 then (false, ["Multiple H1 tags found"])
        else (true, []) in
      check_hierarchy first rest state
  end.

Definition isVowel (c : ascii) : bool := JS.includes "aeiouy" (String c EmptyString).

(** The loop of [countSyllables]: a syllable at every vowel that does not
    follow a vowel. *)
Fixpoint vowel_groups (previousWasVowel : bool) (word : string) : Z :=
  match word with
  | EmptyString => 0
  | String c word' =>
      (if isVowel c && negb previousWasVowel then 1 else 0)
      + vowel_groups (isVowel c) word'
  end.

Definition countSyllables (word0 : string) : Z :=
  let word := JS.toLowerCase word0 in
  if JS.length word <=? 3 then 1
  else
    let syllables := vowel_groups false word in
    let syllables := if JS.endsWith word "e" then syllables - 1 else syllables in
    Z.max 1 syllables.

Module Readability.
Record t : Type := {
  score : JS.number;
  avgWordsPerSentence : JS.number;
  avgSyllablesPerWord : JS.number
}.
End Readability.

Definition analyzeReadability (text : string) : Readability.t :=
  let sentences :=
    List.filter (fun s => 0 <? JS.length (JS.trim s)) (JS.split_sentences text) in
  let words := List.filter nonempty (JS.split_whitespace text) in
  let n_sentences := JS.of_int (Z.of_nat (List.length sentences)) in
  let n_words := JS.of_int (Z.of_nat (List.length words)) in
  let avgWordsPerSentence :=
    if JS.gtb n_sentences 0 then (n_words / n_sentences)%Q else 0%Q in
  let syllables :=
    List.fold_left (fun sum word => sum + countSyllables word) words 0 in
  let avgSyllablesPerWord :=
    if JS.gtb n_words 0 then (JS.of_int syllables / n_words)%Q else 0%Q in
  let score :=
    if JS.gtb n_sentences 0 && JS.gtb n_words 0
    then ((206835 # 1000) - (1015 # 1000) * avgWordsPerSentence
          - (846 # 10) * avgSyllablesPerWord)%Q
    else 0%Q in
  {| Readability.score := JS.Math_max 0 (JS.Math_min 100 score);
     Readability.avgWordsPerSentence := avgWordsPerSentence;
     Readability.avgSyllablesPerWord := avgSyllablesPerWord |}.

Definition answersCommonQuestions (content : string) : bool :=
  let questionWords := ["what"; "how"; "why"; "when"; "where"; "who"] in
  let lowerContent := JS.toLowerCase content in
  List.existsb (fun word =>
                  JS.includes lowerContent (word ++ " is")
                  || JS.includes lowerContent (word ++ " are")
                  || JS.includes lowerContent (word ++ " to")
                  || JS.includes lowerContent (word ++ " can")) questionWords.

Definition containsKeywords (text : string) (keywords : list string) : bool :=
  let lowerText := JS.toLowerCase text in
  List.existsb (fun keyword => JS.includes lowerText (JS.toLowerCase keyword)) keywords.

(** [calculateKeywordDensity(text, keyword)].  The loop runs [i] from 0 to
    [words.length - keywordWords.length]; [matches] counts the turns where
    [words.slice(i, i + keywordWords.length).join(' ')] is the keyword in
    lower case. *)
Definition keyword_matches (text keyword : string) : nat :=
  let words := JS.split_whitespace (JS.toLowerCase text) in
  let keywordWords := JS.split_whitespace (JS.toLowerCase keyword) in
  let k := List.length keywordWords in
  List.length
    (List.filter
       (fun i =>
          let phrase := JS.join " " (List.firstn k (List.skipn i words)) in
          String.eqb phrase (JS.toLowerCase keyword))
       (List.seq 0 (S (List.length words) - k))).

Definition calculateKeywordDensity (text keyword : string) : JS.number :=
  let words := JS.split_whitespace (JS.toLowerCase text) in
  let matches := keyword_matches text keyword in
  if Z.of_nat (List.length words) >? 0
  then (JS.of_int (Z.of_nat matches) / JS.of_int (Z.of_nat (List.length words))
        * 100)%Q
  else 0%Q.

End BaseAnalyzer.

(** ** The category analyzers

    Issues and recommendations are built with the constructors of their
    records, the fields in the order of the source: severity, title,
    description, impact, fixable; and priority, title, description,
    estimatedImpact, implementationTime. *)

Module SemanticHTMLAnalyzer.

Definition hasSemanticStructure (data : ScrapedData.t) : bool :=
  (Z.of_nat (List.length (ScrapedData.headings data)) >? 0)
  && (JS.length (ScrapedData.content data) >? 300).

Definition analyze (data : ScrapedData.t) (quick : option bool)
  : JS.Outcome AnalyzerResult.t :=
  let poor := negb (hasSemanticStructure data) in
  let issues :=
    if poor
    then [AnalyzerIssue.make MEDIUM "Poor Semantic HTML Structure"
            "Content lacks proper semantic HTML elements"
            "Reduced accessibility and AI comprehension" true]
    else [] in
  let score := if poor then 40%Q else 60%Q in
  let recommendations :=
    [AnalyzerRecommendation.make 2 "Improve Semantic HTML"
       "Use proper semantic elements like <article>, <section>, <nav>" 15 30] in
  JS.Returned (AnalyzerResult.make score issues recommendations).

End SemanticHTMLAnalyzer.

Module VoiceSearchAnalyzer.

Definition analyze (data : ScrapedData.t) (quick : option bool)
  : JS.Outcome AnalyzerResult.t :=
  let hasConversationalContent :=
    BaseAnalyzer.answersCommonQuestions (ScrapedData.content data) in
  let score := if hasConversationalContent then 70%Q else 30%Q in
  let issues :=
    if negb hasConversationalContent
    then [AnalyzerIssue.make MEDIUM "Not Optimized for Voice Search"
            "Content lacks conversational, question-answering format"
            "Reduced visibility in voice search results" true]
    else [] in
  let recommendations :=
    [AnalyzerRecommendation.make 3 "Optimize for Voice Search"
       "Add natural language answers to common questions" 12 25] in
  JS.Returned (AnalyzerResult.make score issues recommendations).

End VoiceSearchAnalyzer.

Module FeaturedSnippetsAnalyzer.

Definition analyze (data : ScrapedData.t) (quick : option bool)
  : JS.Outcome AnalyzerResult.t :=
  let snippetCandidates :=
    BaseAnalyzer.findSnippetCandidates (ScrapedData.content data) in
  let n := Z.of_nat (List.length snippetCandidates) in
  let score := if n >? 0 then 60%Q else 20%Q in
  let issues :=
    if n =? 0
    then [AnalyzerIssue.make MEDIUM "No Featured Snippet Optimization"
            "Content not optimized for featured snippets"
            "Missing opportunities for position zero rankings" true]
    else [] in
  let recommendations :=
    [AnalyzerRecommendation.make 1 "Optimize for Featured Snippets"
       "Create 40-60 word answers to common questions" 25 30] in
  JS.Returned (AnalyzerResult.make score issues recommendations).

End FeaturedSnippetsAnalyzer.

Module EntityOptimizationAnalyzer.

Definition entityPatterns : list string :=
  ["/[A-Z][a-z]+ [A-Z][a-z]+/";
   "/\b[A-Z][a-z]+(?:\s+[A-Z][a-z]+)*\s+(?:Inc|Corp|LLC|Ltd)\b/";
   "/\b[A-Z][a-z]+(?:\s+[A-Z][a-z]+)*\s+(?:University|College|School)\b/"].

Definition hasEntityMentions (rt : JS.Runtime) (content : string) : bool :=
  List.existsb (fun pattern => JS.RegExp_test rt pattern content) entityPatterns.

Definition analyze (rt : JS.Runtime) (data : ScrapedData.t) (quick : option bool)
  : JS.Outcome AnalyzerResult.t :=
  let limited := negb (hasEntityMentions rt (ScrapedData.content data)) in
  let issues :=
    if limited
    then [AnalyzerIssue.make MEDIUM "Limited Entity Coverage"
            "Content lacks clear entity mentions and relationships"
            "Reduced semantic understanding by AI systems" true]
    else [] in
  let score := if limited then 30%Q else 50%Q in
  let recommendations :=
    [AnalyzerRecommendation.make 2 "Enhance Entity Coverage"
       "Add relevant entity mentions and semantic relationships" 15 25] in
  JS.Returned (AnalyzerResult.make score issues recommendations).

End EntityOptimizationAnalyzer.

Module KnowledgeGraphAnalyzer.

Definition hasAuthoritySignals (data : ScrapedData.t) : bool :=
  let authorityDomains := ["wikipedia.org"; "gov"; "edu"] in
  List.existsb (fun link =>
                  List.existsb (fun domain => JS.includes (LinkData.href link) domain)
                    authorityDomains)
    (ScrapedData.links data).

Definition analyze (data : ScrapedData.t) (quick : option bool)
  : JS.Outcome AnalyzerResult.t :=
  let limited := negb (hasAuthoritySignals data) in
  let issues :=
    if limited
    then [AnalyzerIssue.make LOW "Limited Knowledge Graph Signals"
            "Content lacks clear authority and entity relationship signals"
            "Reduced knowledge graph visibility" true]
    else [] in
  let score := if limited then 30%Q else 50%Q in
  let recommendations :=
    [AnalyzerRecommendation.make 4 "Enhance Knowledge Graph Signals"
       "Add author profiles, entity relationships, and authority links" 10 20] in
  JS.Returned (AnalyzerResult.make score issues recommendations).

End KnowledgeGraphAnalyzer.

Module TechnicalSEOAnalyzer.

(** [cwv.lcp && cwv.lcp > 2500] *)
Definition poor_lcp (lcp : option JS.number) : bool :=
  match lcp with
  | Some v => negb (JS.eqb v 0) && JS.gtb v 2500
  | None => false
  end.

Definition analyze (rt : JS.Runtime) (data : ScrapedData.t) (quick : option bool)
  : JS.Outcome AnalyzerResult.t :=
  let perf := ScrapedData.performance data in
  let issues := [] in
  let score := 60%Q in
  let slow := JS.gtb (PerformanceMetrics.loadTime perf) 3000 in
  let issues :=
    if slow
    then (issues ++
          [AnalyzerIssue.make HIGH "Slow Page Load Time"
             (JS.template ["Page loads in ";
                           JS.number_toString rt (PerformanceMetrics.loadTime perf);
                           "ms. Target: <3000ms"])
             "Poor user experience and search rankings" true])%list
    else issues in
  let score := if slow then (score - 20)%Q else score in
  let large := JS.gtb (PerformanceMetrics.pageSize perf) 3000000 in
  let issues :=
    if large
    then (issues ++
          [AnalyzerIssue.make MEDIUM "Large Page Size"
             (JS.template ["Page size: ";
                           JS.toFixed1 rt (PerformanceMetrics.pageSize perf / 1024 / 1024);
                           "MB"])
             "Slower loading, especially on mobile" true])%list
    else issues in
  let score := if large then (score - 10)%Q else score in
  let lcp :=
    match PerformanceMetrics.coreWebVitals perf with
    | Some cwv => if poor_lcp (PerformanceMetrics.lcp cwv)
                  then PerformanceMetrics.lcp cwv else None
    | None => None
    end in
  let issues :=
    match lcp with
    | Some v =>
        (issues ++
         [AnalyzerIssue.make MEDIUM "Poor Largest Contentful Paint"
            (JS.template ["LCP: "; JS.number_toString rt v; "ms. Target: <2500ms"])
            "Poor Core Web Vitals score" true])%list
    | None => issues
    end in
  let score := match lcp with Some _ => (score - 15)%Q | None => score end in
  let recommendations :=
    [AnalyzerRecommendation.make 2 "Optimize Technical Performance"
       "Improve page speed, Core Web Vitals, and mobile optimization" 20 60] in
  JS.Returned (AnalyzerResult.make score issues recommendations).

End TechnicalSEOAnalyzer.

Module ContentStructureAnalyzer.

(** Each sub-check returns its score and the issues array it extended. *)
Definition analyzeHeadingStructure (headings : list Heading.t)
  (issues : list AnalyzerIssue.t) : JS.number * list AnalyzerIssue.t :=
  let validation := BaseAnalyzer.validateHeadingStructure headings in
  if negb (fst validation)
  then (30%Q,
        (issues ++
         [AnalyzerIssue.make MEDIUM "Poor Heading Structure"
            (JS.join ", " (snd validation))
            "Reduced content comprehension for AI systems" true])%list)
  else (80%Q, issues).

Definition analyzeContentReadability (rt : JS.Runtime) (content : string)
  (issues : list AnalyzerIssue.t) : JS.number * list AnalyzerIssue.t :=
  let readability := BaseAnalyzer.analyzeReadability content in
  if JS.ltb (BaseAnalyzer.Readability.score readability) 60
  then (40%Q,
        (issues ++
         [AnalyzerIssue.make MEDIUM "Poor Content Readability"
            (JS.template ["Readability score: ";
                          JS.toFixed1 rt (BaseAnalyzer.Readability.score readability)])
            "Difficult for AI systems to understand and extract information"
            true])%list)
  else (80%Q, issues).

Definition analyzeContentStructure (content : string)
  (issues : list AnalyzerIssue.t) : JS.number * list AnalyzerIssue.t :=
  let wordCount := BaseAnalyzer.countWords content in
  if wordCount <? 300
  then (20%Q,
        (issues ++
         [AnalyzerIssue.make HIGH "Insufficient Content Length"
            (JS.template ["Content has "; JS.int_toString wordCount;
                          " words. Recommended: 300+ words"])
            "Limited information for AI systems to process" true])%list)
  else (70%Q, issues).

Definition addContentRecommendations (data : ScrapedData.t)
  (recommendations : list AnalyzerRecommendation.t)
  : list AnalyzerRecommendation.t :=
  (recommendations ++
   [AnalyzerRecommendation.make 1 "Optimize Content Structure"
      "Restructure content with clear headings and concise paragraphs" 20 45])%list.

Definition analyze (rt : JS.Runtime) (data : ScrapedData.t) (quick : option bool)
  : JS.Outcome AnalyzerResult.t :=
  let quick := default_false quick in
  let issues := [] in
  let recommendations := [] in
  let '(headingScore, issues) :=
    analyzeHeadingStructure (ScrapedData.headings data) issues in
  let '(readabilityScore, issues) :=
    analyzeContentReadability rt (ScrapedData.content data) issues in
  let '(structureScore, issues) :=
    analyzeContentStructure (ScrapedData.content data) issues in
  let score :=
    BaseAnalyzer.calculateScore
      [(40%Q, headingScore); (30%Q, readabilityScore); (30%Q, structureScore)] in
  let recommendations :=
    if negb quick then addContentRecommendations data recommendations
    else recommendations in
  JS.Returned (AnalyzerResult.make (JS.of_int score) issues recommendations).

End ContentStructureAnalyzer.

Module FAQSchemaAnalyzer.

Definition questionWords : list string :=
  ["what"; "how"; "why"; "when"; "where"; "who"; "which"; "can"; "is"; "are";
   "do"; "does"].

Definition not_a_function (method : string) : string :=
  JS.template ["TypeError: "; method; " is not a function"].

(** [isGoodQuestion(question)]; the argument is whatever [entry.name || '']
    gave. *)
Definition isGoodQuestion (rt : JS.Runtime) (question : JS.value) : JS.Outcome bool :=
  if negb (JS.truthy (Some question))
     || JS.less_than rt (JS.get_length question) 10
  then JS.Returned false
  else
    match question with
    | JS.Str q =>
        let lowerQuestion := JS.toLowerCase q in
        JS.Returned
          (List.existsb (fun word => JS.includes lowerQuestion word) questionWords
           && JS.endsWith q "?")
    | _ => JS.Thrown (not_a_function "question.toLowerCase")
    end.

(** [isGoodAnswer(answer)] *)
Definition isGoodAnswer (answer : JS.value) : JS.Outcome bool :=
  if negb (JS.truthy (Some answer)) then JS.Returned false
  else
    match answer with
    | JS.Str a =>
        let wordCount := Z.of_nat (List.length (JS.split_whitespace a)) in
        JS.Returned ((20 <=? wordCount) && (wordCount <=? 80))
    | _ => JS.Thrown (not_a_function "answer.split")
    end.

(** [v || ''] *)
Definition or_empty (v : option JS.value) : JS.value :=
  match v with
  | Some w => if JS.truthy v then w else JS.Str EmptyString
  | None => JS.Str EmptyString
  end.

(** [entry.acceptedAnswer?.text] *)
Definition acceptedAnswer_text (entry : JS.value) : JS.Outcome (option JS.value) :=
  let* acceptedAnswer := JS.get entry "acceptedAnswer" in
  match acceptedAnswer with
  | None | Some JS.Null => JS.Returned None
  | Some a => JS.get a "text"
  end.

(** The body of the loop of [evaluateFAQQuality]. *)
Definition evaluate_entry (rt : JS.Runtime) (qualityScore : JS.number)
  (entry : JS.value) : JS.Outcome JS.number :=
  let* name := JS.get entry "name" in
  let question := or_empty name in
  let* text := acceptedAnswer_text entry in
  let answer := or_empty text in
  let* goodQuestion := isGoodQuestion rt question in
  let qualityScore := if goodQuestion then (qualityScore + 3)%Q else qualityScore in
  let* goodAnswer := isGoodAnswer answer in
  let qualityScore := if goodAnswer then (qualityScore + 2)%Q else qualityScore in
  JS.Returned qualityScore.

Fixpoint evaluate_entries (rt : JS.Runtime) (qualityScore : JS.number)
  (entries : list JS.value) : JS.Outcome JS.number :=
  match entries with
  | [] => JS.Returned qualityScore
  | entry :: rest =>
      let* qualityScore := evaluate_entry rt qualityScore entry in
      evaluate_entries rt qualityScore rest
  end.

(** The values [for (const entry of faqEntries)] goes through: the items of
    an array, the characters of a string; nothing else is iterable. *)
Definition iterate (faqEntries : JS.value) : JS.Outcome (list JS.value) :=
  match faqEntries with
  | JS.Array items => JS.Returned items
  | JS.Str s =>
      JS.Returned (List.map (fun c => JS.Str (String c EmptyString))
                     (list_ascii_of_string s))
  | _ => JS.Thrown "TypeError: faqEntries is not iterable"
  end.

Definition evaluateFAQQuality (rt : JS.Runtime) (faqEntries : JS.value)
  : JS.Outcome JS.number :=
  let* entries := iterate faqEntries in
  let* qualityScore := evaluate_entries rt 70%Q entries in
  JS.Returned (JS.Math_min 100 qualityScore).

Definition isQuestionHeading (heading : string) : bool :=
  List.existsb (fun word => JS.startsWith heading word) questionWords
  && JS.includes heading "?".

Definition questionPatterns : list string :=
  ["/what is .+\?/gi"; "/how to .+\?/gi"; "/why .+\?/gi"; "/when .+\?/gi";
   "/where .+\?/gi"].

Definition findFAQIndicators (rt : JS.Runtime) (data : ScrapedData.t) : list string :=
  let content := JS.toLowerCase (ScrapedData.content data) in
  let from_headings :=
    List.map Heading.text
      (List.filter (fun heading =>
                      let headingText := JS.toLowerCase (Heading.text heading) in
                      JS.includes headingText "faq"
                      || JS.includes headingText "frequently asked"
                      || JS.includes headingText "common questions"
                      || isQuestionHeading headingText)
         (ScrapedData.headings data)) in
  let from_content :=
    List.flat_map (fun pattern => List.firstn 3 (JS.String_match rt pattern content))
      questionPatterns in
  (from_headings ++ from_content)%list.

(** The test of the filter on [data.schemas]:
    [schema.type === 'FAQPage' ||
     (schema.data['@type'] && schema.data['@type'].includes('FAQPage'))]. *)
Definition isFAQSchema (schema : SchemaMarkup.t) : JS.Outcome bool :=
  if String.eqb (SchemaMarkup.type schema) "FAQPage" then JS.Returned true
  else
    let at_type := JS.lookup_property "@type" (SchemaMarkup.data schema) in
    if negb (JS.truthy at_type) then JS.Returned false
    else
      match at_type with
      | Some (JS.Str s) => JS.Returned (JS.includes s "FAQPage")
      | Some (JS.Array items) =>
          JS.Returned
            (List.existsb (fun item => match item with
                                       | JS.Str s => String.eqb s "FAQPage"
                                       | _ => false
                                       end) items)
      | _ => JS.Thrown (not_a_function "schema.data['@type'].includes")
      end.

(** The branch taken when some FAQ schema is valid; the result is the score
    with the issues and recommendations pushed. *)
Definition validate_quality (rt : JS.Runtime) (faqData : list (string * JS.value))
  : JS.Outcome (JS.number * list AnalyzerIssue.t * list AnalyzerRecommendation.t) :=
  let found := JS.lookup_property "mainEntity" faqData in
  let mainEntity :=
    match found with
    | Some v => if JS.truthy found then v else JS.Array []
    | None => JS.Array []
    end in
  if JS.strict_equal (JS.get_length mainEntity) 0 then
    JS.Returned
      (30%Q,
       [AnalyzerIssue.make MEDIUM "Empty FAQ Schema"
          "FAQ schema exists but contains no questions"
          "No benefit from FAQ schema implementation" true],
       [])
  else if JS.less_than rt (JS.get_length mainEntity) 3 then
    JS.Returned
      (50%Q,
       [AnalyzerIssue.make MEDIUM "Insufficient FAQ Content"
          (JS.template ["Only ";
                        match JS.get_length mainEntity with
                        | Some n => JS.ToString rt n
                        | None => "undefined"
                        end;
                        " FAQ entries found. Recommended: 5-8 entries"])
          "Limited coverage for voice search queries" true],
       [AnalyzerRecommendation.make 2 "Expand FAQ Content"
          "Add more relevant FAQ entries to improve coverage" 15 20])
  else
    let* score := evaluateFAQQuality rt mainEntity in
    JS.Returned
      (score, [],
       if JS.ltb score 80
       then [AnalyzerRecommendation.make 3 "Optimize FAQ Content"
               "Improve FAQ answers for better voice search optimization" 10 15]
       else []).

Definition analyze (rt : JS.Runtime) (data : ScrapedData.t) (quick : option bool)
  : JS.Outcome AnalyzerResult.t :=
  let quick := default_false quick in
  let* faqSchemas := JS.filterM isFAQSchema (ScrapedData.schemas data) in
  let* outcome :=
    match faqSchemas with
    | [] =>
        JS.Returned
          (0%Q,
           [AnalyzerIssue.make HIGH "Missing FAQ Schema"
              "No FAQ schema markup found on the page"
              "Reduced visibility in voice search and featured snippets" true],
           [AnalyzerRecommendation.make 1 "Add FAQ Schema Markup"
              "Generate and implement FAQ schema based on page content" 25 30])
    | _ =>
        match List.filter SchemaMarkup.isValid faqSchemas with
        | [] =>
            JS.Returned
              (20%Q,
               [AnalyzerIssue.make HIGH "Invalid FAQ Schema"
                  "FAQ schema markup contains errors"
                  "Schema may not be recognized by search engines" true],
               [])
        | first :: _ => validate_quality rt (SchemaMarkup.data first)
        end
    end in
  let '(score, issues, recommendations) := outcome in
  let recommendations :=
    if negb quick then
      let faqIndicators := findFAQIndicators rt data in
      if (Z.of_nat (List.length faqIndicators) >? 0)
         && (Z.of_nat (List.length faqSchemas) =? 0)
      then (recommendations ++
            [AnalyzerRecommendation.make 1 "Convert Existing FAQ Content"
               (JS.template ["Found ";
                             JS.int_toString (Z.of_nat (List.length faqIndicators));
                             " potential FAQ sections that could be structured as schema"])
               20 25])%list
      else recommendations
    else recommendations in
  JS.Returned (AnalyzerResult.make (JS.Math_min 100 score) issues recommendations).

End FAQSchemaAnalyzer.

Module MetaTagsAnalyzer.

Definition IMPORTANT_META_TAGS : list string :=
  ["description"; "keywords"; "author"; "viewport"; "robots"].

Definition IMPORTANT_OG_TAGS : list string :=
  ["og:title"; "og:description"; "og:image"; "og:url"; "og:type"].

Definition IMPORTANT_TWITTER_TAGS : list string :=
  ["twitter:card"; "twitter:title"; "twitter:description"; "twitter:image"].

(** [map.has(key)] *)
Definition has (map : gmap string string) (key : string) : bool :=
  match map !! key with Some _ => true | None => false end.

(** The fourth indicator of the source, the bullet U+2022, is not a code
    unit below 256 and so occurs in no string of the embedding. *)
Definition containsBrandName (title : string) : bool :=
  let brandIndicators := ["|"; "-"; ":"] in
  List.existsb (fun indicator => JS.includes title indicator) brandIndicators.

Definition hasCallToAction (description : string) : bool :=
  let ctaWords :=
    ["learn"; "discover"; "find"; "get"; "download"; "buy"; "shop";
     "read"; "explore"; "try"; "start"; "join"; "sign up"; "contact"] in
  let lowerDesc := JS.toLowerCase description in
  List.existsb (fun word => JS.includes lowerDesc word) ctaWords.

Definition hasDuplicateContent (description : string) : bool :=
  let genericPhrases :=
    ["welcome to our website"; "this is the homepage"; "default description";
     "lorem ipsum"] in
  let lowerDesc := JS.toLowerCase description in
  List.existsb (fun phrase => JS.includes lowerDesc phrase) genericPhrases.

(** [!text || text.trim().length === 0] *)
Definition missing (text : string) : bool :=
  String.eqb text EmptyString || (JS.length (JS.trim text) =? 0).

(** The three branches of a length check. *)
Inductive LengthBranch : Type := TooShort | TooLong | GoodLength.

(** [if (titleLength < 30) ... else if (titleLength > 60) ... else ...] *)
Definition title_length_branch (titleLength : Z) : LengthBranch :=
  if titleLength <? 30 then TooShort
  else if titleLength >? 60 then TooLong
  else GoodLength.

(** [analyzeTitleTag] after its length check: duplicate words, brand name
    and the final [Math.max(0, score)]. *)
Definition title_after_length (title : string) (score : Z)
  (issues : list AnalyzerIssue.t) : Z * list AnalyzerIssue.t :=
  let words := JS.split_whitespace (JS.toLowerCase title) in
  let uniqueWords : gset string := list_to_set words in
  let duplicated :=
    Z.of_nat (List.length words) >? Z.of_nat (size uniqueWords) in
  let issues :=
    if duplicated
    then (issues ++
          [AnalyzerIssue.make LOW "Duplicate Words in Title"
             "Title contains repeated words" "Reduces title effectiveness" true])%list
    else issues in
  let score := if duplicated then score - 5 else score in
  let score := if containsBrandName title then score + 10 else score in
  (Z.max 0 score, issues).

Definition analyzeTitleTag (title : string) (issues : list AnalyzerIssue.t)
  : Z * list AnalyzerIssue.t :=
  if missing title
  then (0,
        (issues ++
         [AnalyzerIssue.make CRITICAL "Missing Title Tag"
            "No title tag found on the page"
            "Severely impacts search engine rankings and click-through rates"
            true])%list)
  else
    let score := 50 in
    let titleLength := JS.length title in
    match title_length_branch titleLength with
    | TooShort =>
        title_after_length title (score - 15)
          (issues ++
           [AnalyzerIssue.make MEDIUM "Title Too Short"
              (JS.template ["Title is "; JS.int_toString titleLength;
                            " characters. Recommended: 50-60 characters"])
              "May not fully utilize search result space" true])%list
    | TooLong =>
        title_after_length title (score - 10)
          (issues ++
           [AnalyzerIssue.make MEDIUM "Title Too Long"
              (JS.template ["Title is "; JS.int_toString titleLength;
                            " characters. Recommended: 50-60 characters"])
              "Title may be truncated in search results" true])%list
    | GoodLength => title_after_length title (score + 20) issues
    end.

(** [if (descLength < 120) ... else if (descLength > 160) ... else ...] *)
Definition description_length_branch (descLength : Z) : LengthBranch :=
  if descLength <? 120 then TooShort
  else if descLength >? 160 then TooLong
  else GoodLength.

(** [analyzeMetaDescription] after its length check: call to action,
    generic phrases and the final [Math.max(0, score)]. *)
Definition description_after_length (description : string) (score : Z)
  (issues : list AnalyzerIssue.t) : Z * list AnalyzerIssue.t :=
  let cta := hasCallToAction description in
  let score := if cta then score + 15 else score in
  let issues :=
    if cta then issues
    else (issues ++
          [AnalyzerIssue.make LOW "No Call-to-Action in Description"
             "Meta description lacks compelling call-to-action"
             "May reduce click-through rates" true])%list in
  let generic := hasDuplicateContent description in
  let issues :=
    if generic
    then (issues ++
          [AnalyzerIssue.make LOW "Generic Meta Description"
             "Meta description appears to be generic or duplicated"
             "Reduces uniqueness and effectiveness" true])%list
    else issues in
  let score := if generic then score - 10 else score in
  (Z.max 0 score, issues).

Definition analyzeMetaDescription (description : string)
  (issues : list AnalyzerIssue.t) : Z * list AnalyzerIssue.t :=
  if missing description
  then (0,
        (issues ++
         [AnalyzerIssue.make HIGH "Missing Meta Description"
            "No meta description found"
            "Search engines will generate description, reducing click-through rates"
            true])%list)
  else
    let score := 50 in
    let descLength := JS.length description in
    match description_length_branch descLength with
    | TooShort =>
        description_after_length description (score - 15)
          (issues ++
           [AnalyzerIssue.make MEDIUM "Meta Description Too Short"
              (JS.template ["Description is "; JS.int_toString descLength;
                            " characters. Recommended: 150-160 characters"])
              "Not fully utilizing search result space" true])%list
    | TooLong =>
        description_after_length description (score - 10)
          (issues ++
           [AnalyzerIssue.make MEDIUM "Meta Description Too Long"
              (JS.template ["Description is "; JS.int_toString descLength;
                            " characters. Recommended: 150-160 characters"])
              "Description may be truncated in search results" true])%list
    | GoodLength => description_after_length description (score + 25) issues
    end.

(** [if (tag.name)]: the name is there and not empty. *)
Definition named (tag : MetaTag.t) : option string :=
  match MetaTag.name tag with
  | Some n => if String.eqb n EmptyString then None else Some n
  | None => None
  end.

Definition count_present (map : gmap string string) (important : list string) : Z :=
  Z.of_nat (List.length (List.filter (has map) important)).

Definition analyzeMetaTags (metaTags : list MetaTag.t)
  (issues : list AnalyzerIssue.t) : Z * list AnalyzerIssue.t :=
  let tagMap : gmap string string :=
    List.fold_left (fun map tag =>
                      match named tag with
                      | Some n => <[JS.toLowerCase n := MetaTag.content tag]> map
                      | None => map
                      end) metaTags ∅ in
  let score := 15 * count_present tagMap IMPORTANT_META_TAGS in
  let issues :=
    match tagMap !! "robots" with
    | Some robots =>
        let robotsContent := JS.toLowerCase robots in
        if JS.includes robotsContent "noindex" || JS.includes robotsContent "nofollow"
        then (issues ++
              [AnalyzerIssue.make MEDIUM "Restrictive Robots Meta Tag"
                 (JS.template ["Robots tag contains: "; robotsContent])
                 "May prevent search engine indexing" true])%list
        else issues
    | None =>
        (issues ++
         [AnalyzerIssue.make LOW "Missing Robots Meta Tag"
            "No robots meta tag specified"
            "Search engines use default behavior" true])%list
    end in
  let issues :=
    if negb (has tagMap "viewport")
    then (issues ++
          [AnalyzerIssue.make MEDIUM "Missing Viewport Meta Tag"
             "No viewport meta tag for mobile optimization"
             "Poor mobile user experience" true])%list
    else issues in
  (Z.min 100 score, issues).

Definition analyzeOpenGraphTags (rt : JS.Runtime) (ogTags : list OpenGraphTag.t)
  (issues : list AnalyzerIssue.t) : Z * list AnalyzerIssue.t :=
  let ogMap : gmap string string :=
    List.fold_left (fun map tag =>
                      <[JS.toLowerCase (OpenGraphTag.property tag)
                        := OpenGraphTag.content tag]> map) ogTags ∅ in
  if Z.of_nat (List.length ogTags) =? 0
  then (0,
        (issues ++
         [AnalyzerIssue.make MEDIUM "Missing Open Graph Tags"
            "No Open Graph tags found for social media sharing"
            "Poor social media sharing appearance" true])%list)
  else
    let score := 20 * count_present ogMap IMPORTANT_OG_TAGS in
    let invalid_image :=
      match ogMap !! "og:image" with
      | Some imageUrl => negb (BaseAnalyzer.isValidUrl rt imageUrl)
      | None => false
      end in
    let issues :=
      if invalid_image
      then (issues ++
            [AnalyzerIssue.make LOW "Invalid OG Image URL"
               "Open Graph image URL is not valid"
               "Image may not display in social shares" true])%list
      else issues in
    let score := if invalid_image then score - 10 else score in
    (Z.min 100 score, issues).

(** [tag.name && tag.name.startsWith('twitter:')] *)
Definition isTwitterTag (tag : MetaTag.t) : bool :=
  match named tag with
  | Some n => JS.startsWith n "twitter:"
  | None => false
  end.

Definition analyzeTwitterTags (metaTags : list MetaTag.t)
  (issues : list AnalyzerIssue.t) : Z * list AnalyzerIssue.t :=
  let twitterMap : gmap string string :=
    List.fold_left (fun map tag =>
                      match named tag with
                      | Some n =>
                          if JS.startsWith n "twitter:"
                          then <[JS.toLowerCase n := MetaTag.content tag]> map
                          else map
                      | None => map
                      end) metaTags ∅ in
  if Z.of_nat (size twitterMap) =? 0
  then (0,
        (issues ++
         [AnalyzerIssue.make LOW "Missing Twitter Card Tags"
            "No Twitter Card tags found"
            "Suboptimal Twitter sharing appearance" true])%list)
  else (Z.min 100 (25 * count_present twitterMap IMPORTANT_TWITTER_TAGS), issues).

(** [!text || text.length < low || text.length > high] *)
Definition outside (text : string) (low high : Z) : bool :=
  String.eqb text EmptyString || (JS.length text <? low) || (JS.length text >? high).

Definition addRecommendations (data : ScrapedData.t)
  (recommendations : list AnalyzerRecommendation.t)
  : list AnalyzerRecommendation.t :=
  let recommendations :=
    if outside (ScrapedData.title data) 50 60
    then (recommendations ++
          [AnalyzerRecommendation.make 1 "Optimize Title Tag"
             "Create compelling 50-60 character title with target keywords" 25 10])%list
    else recommendations in
  let recommendations :=
    if outside (ScrapedData.metaDescription data) 150 160
    then (recommendations ++
          [AnalyzerRecommendation.make 1 "Optimize Meta Description"
             "Write compelling 150-160 character description with call-to-action"
             20 15])%list
    else recommendations in
  let recommendations :=
    if Z.of_nat (List.length (ScrapedData.openGraphTags data)) <? 4
    then (recommendations ++
          [AnalyzerRecommendation.make 2 "Add Complete Open Graph Tags"
             "Implement full set of OG tags for social media optimization" 15 20])%list
    else recommendations in
  let hasTwitterCards := List.existsb isTwitterTag (ScrapedData.metaTags data) in
  if negb hasTwitterCards
  then (recommendations ++
        [AnalyzerRecommendation.make 3 "Add Twitter Card Tags"
           "Implement Twitter Card markup for better Twitter sharing" 10 15])%list
  else recommendations.

Definition analyze (rt : JS.Runtime) (data : ScrapedData.t) (quick : option bool)
  : JS.Outcome AnalyzerResult.t :=
  let quick := default_false quick in
  let issues := [] in
  let recommendations := [] in
  let '(titleScore, issues) := analyzeTitleTag (ScrapedData.title data) issues in
  let '(descriptionScore, issues) :=
    analyzeMetaDescription (ScrapedData.metaDescription data) issues in
  let '(metaTagsScore, issues) := analyzeMetaTags (ScrapedData.metaTags data) issues in
  let '(ogScore, issues) :=
    analyzeOpenGraphTags rt (ScrapedData.openGraphTags data) issues in
  let '(twitterScore, issues) := analyzeTwitterTags (ScrapedData.metaTags data) issues in
  let score :=
    BaseAnalyzer.calculateScore
      [(30%Q, JS.of_int titleScore); (25%Q, JS.of_int descriptionScore);
       (20%Q, JS.of_int metaTagsScore); (15%Q, JS.of_int ogScore);
       (10%Q, JS.of_int twitterScore)] in
  let recommendations :=
    if negb quick then addRecommendations data recommendations else recommendations in
  JS.Returned
    (AnalyzerResult.make (JS.Math_min 100 (JS.of_int score)) issues recommendations).

End MetaTagsAnalyzer.

Module SchemaMarkupAnalyzer.

Definition IMPORTANT_SCHEMA_TYPES : list string :=
  ["Article"; "BlogPosting"; "Product"; "LocalBusiness"; "Organization";
   "Person"; "WebSite"; "WebPage"; "BreadcrumbList"; "HowTo"; "Recipe"; "Event"].

(** [if (data.key)] on the data of a schema *)
Definition present (data : list (string * JS.value)) (key : string) : bool :=
  JS.truthy (JS.lookup_property key data).

(** [if (data.k1) score += p1; if (data.k2) score += p2; ...] from 0 *)
Definition points (data : list (string * JS.value)) (table : list (string * Z)) : Z :=
  List.fold_left (fun score entry =>
                    if present data (fst entry) then score + snd entry else score)
    table 0.

Definition evaluateArticleSchema (data : list (string * JS.value)) : Z :=
  points data
    [("headline", 3); ("author", 3); ("datePublished", 3); ("image", 2);
     ("publisher", 2); ("description", 2); ("mainEntityOfPage", 2);
     ("dateModified", 1); ("wordCount", 1); ("articleSection", 1)].

Definition evaluateOrganizationSchema (data : list (string * JS.value)) : Z :=
  points data
    [("name", 4); ("url", 3); ("logo", 3); ("address", 3); ("telephone", 2);
     ("email", 2); ("sameAs", 2); ("description", 1)].

Definition evaluateLocalBusinessSchema (data : list (string * JS.value)) : Z :=
  points data
    [("name", 3); ("address", 4); ("telephone", 3); ("openingHours", 3);
     ("geo", 3); ("url", 2); ("priceRange", 1); ("image", 1)].

Definition evaluateProductSchema (data : list (string * JS.value)) : Z :=
  points data
    [("name", 4); ("description", 3); ("image", 3); ("offers", 4); ("brand", 2);
     ("sku", 2); ("aggregateRating", 2)].

Definition evaluateGenericSchema (data : list (string * JS.value)) : Z :=
  let properties := JS.Object_keys data in
  Z.min 10 (Z.of_nat (List.length properties))
  + points data [("name", 2); ("description", 2); ("url", 1); ("image", 1)].

Definition is_in (types : list string) (type : string) : bool :=
  List.existsb (String.eqb type) types.

(** The [switch (schema.type)] of [evaluateSchemaCompleteness]. *)
Definition schemaScore (schema : SchemaMarkup.t) : Z :=
  let data := SchemaMarkup.data schema in
  let type := SchemaMarkup.type schema in
  if is_in ["Article"; "BlogPosting"] type then evaluateArticleSchema data
  else if String.eqb type "Organization" then evaluateOrganizationSchema data
  else if String.eqb type "LocalBusiness" then evaluateLocalBusinessSchema data
  else if String.eqb type "Product" then evaluateProductSchema data
  else evaluateGenericSchema data.

Definition evaluateSchemaCompleteness (schemas : list SchemaMarkup.t) : JS.number :=
  let completenessScore :=
    List.fold_left (fun total schema => total + schemaScore schema) schemas 0 in
  JS.Math_min 20
    (JS.of_int completenessScore / JS.of_int (Z.of_nat (List.length schemas)))%Q.

Definition types_of (schemas : list SchemaMarkup.t) : gset string :=
  list_to_set (List.map SchemaMarkup.type schemas).

Definition calculateSchemaScore (schemas : list SchemaMarkup.t) (data : ScrapedData.t)
  : JS.number :=
  let baseScore := 30 in
  let uniqueTypes := types_of schemas in
  let baseScore := baseScore + Z.min 30 (Z.of_nat (size uniqueTypes) * 10) in
  let hasImportantSchema :=
    List.existsb (fun s => is_in IMPORTANT_SCHEMA_TYPES (SchemaMarkup.type s)) schemas in
  let baseScore := if hasImportantSchema then baseScore + 20 else baseScore in
  let completenessScore := evaluateSchemaCompleteness schemas in
  JS.Math_min 100 (JS.of_int baseScore + completenessScore)%Q.

Definition contains_any (text : string) (indicators : list string) : bool :=
  List.existsb (fun indicator => JS.includes text indicator) indicators.

Definition isArticleContent (content : string) (headings : list Heading.t) : bool :=
  let hasIndicators :=
    contains_any content
      ["published"; "author"; "article"; "blog"; "post"; "written by";
       "published on"; "updated"] in
  let hasGoodStructure := Z.of_nat (List.length headings) >=? 3 in
  let wordCount := BaseAnalyzer.countWords content in
  let hasGoodLength := wordCount >=? 300 in
  hasIndicators && hasGoodStructure && hasGoodLength.

Definition hasOrganizationInfo (data : ScrapedData.t) : bool :=
  let content := JS.toLowerCase (ScrapedData.content data) in
  contains_any content
    ["company"; "corporation"; "organization"; "business"; "founded";
     "headquarters"; "contact us"; "about us"].

Definition hasBreadcrumbs (data : ScrapedData.t) : bool :=
  let content := JS.toLowerCase (ScrapedData.content data) in
  contains_any content ["home >"; "home /"; "breadcrumb"; "navigation"]
  || List.existsb (fun link => JS.includes (LinkData.text link) ">"
                               || JS.includes (LinkData.text link) "/")
       (ScrapedData.links data).

Definition isHowToContent (rt : JS.Runtime) (content : string)
  (headings : list Heading.t) : bool :=
  let hasIndicators :=
    contains_any (JS.toLowerCase content)
      ["how to"; "step"; "steps"; "tutorial"; "guide"; "instructions"; "method";
       "process"] in
  let hasStepHeadings :=
    List.existsb (fun h =>
                    JS.RegExp_test rt
                      "/step \d+|^\d+\.|first|second|third|next|finally/i"
                      (Heading.text h)) headings in
  hasIndicators && hasStepHeadings.

Definition isLocalBusiness (content : string) (data : ScrapedData.t) : bool :=
  contains_any (JS.toLowerCase content)
    ["address"; "phone"; "hours"; "location"; "visit us"; "directions"; "map";
     "contact"; "call us"].

Definition findMissingSchemas (rt : JS.Runtime) (existingSchemas : list SchemaMarkup.t)
  (data : ScrapedData.t) : list string :=
  let existingTypes := types_of existingSchemas in
  let has type := bool_decide (type ∈ existingTypes) in
  let content := JS.toLowerCase (ScrapedData.content data) in
  let headings := ScrapedData.headings data in
  ((if negb (has "Article") && negb (has "BlogPosting")
       && isArticleContent content headings then ["Article"] else [])
   ++ (if negb (has "Organization") && hasOrganizationInfo data
       then ["Organization"] else [])
   ++ (if negb (has "WebSite") then ["WebSite"] else [])
   ++ (if negb (has "BreadcrumbList") && hasBreadcrumbs data
       then ["BreadcrumbList"] else [])
   ++ (if negb (has "HowTo") && isHowToContent rt content headings
       then ["HowTo"] else [])
   ++ (if negb (has "LocalBusiness") && isLocalBusiness content data
       then ["LocalBusiness"] else []))%list.

(** [if (!data.k1) missing.push(k1); ...] *)
Definition absent (data : list (string * JS.value)) (keys : list string) : list string :=
  List.filter (fun key => negb (present data key)) keys.

Definition findMissingProperties (schema : SchemaMarkup.t) : list string :=
  let data := SchemaMarkup.data schema in
  let type := SchemaMarkup.type schema in
  if is_in ["Article"; "BlogPosting"] type
  then absent data ["headline"; "author"; "datePublished"; "image"]
  else if String.eqb type "Organization" then absent data ["name"; "url"; "logo"]
  else if String.eqb type "LocalBusiness"
  then absent data ["address"; "telephone"; "openingHours"]
  else [].

Definition checkSchemaCompleteness (schemas : list SchemaMarkup.t)
  : list AnalyzerIssue.t :=
  List.flat_map (fun schema =>
                   let missingProps := findMissingProperties schema in
                   if Z.of_nat (List.length missingProps) >? 0
                   then [AnalyzerIssue.make LOW
                           (JS.template ["Incomplete "; SchemaMarkup.type schema;
                                         " Schema"])
                           (JS.template ["Missing recommended properties: ";
                                         JS.join ", " missingProps])
                           "Reduced schema effectiveness" true]
                   else []) schemas.

Definition analyze (rt : JS.Runtime) (data : ScrapedData.t) (quick : option bool)
  : JS.Outcome AnalyzerResult.t :=
  let quick := default_false quick in
  let schemas := ScrapedData.schemas data in
  if Z.of_nat (List.length schemas) =? 0
  then
    JS.Returned
      (AnalyzerResult.make 0%Q
         [AnalyzerIssue.make CRITICAL "No Schema Markup Found"
            "No structured data markup detected on the page"
            "Reduced visibility in search results and AI platforms" true]
         [AnalyzerRecommendation.make 1 "Implement Basic Schema Markup"
            "Add appropriate schema types based on content type" 30 45])
  else
    let validSchemas := List.filter SchemaMarkup.isValid schemas in
    let invalidSchemas := List.filter (fun s => negb (SchemaMarkup.isValid s)) schemas in
    let none_valid := Z.of_nat (List.length validSchemas) =? 0 in
    let score := if none_valid then 10%Q else calculateSchemaScore validSchemas data in
    let issues :=
      if none_valid
      then [AnalyzerIssue.make HIGH "Invalid Schema Markup"
              "All schema markup contains errors and may not be recognized"
              "Schema benefits not realized due to validation errors" true]
      else [] in
    let some_invalid := Z.of_nat (List.length invalidSchemas) >? 0 in
    let issues :=
      if some_invalid
      then (issues ++
            [AnalyzerIssue.make MEDIUM
               (JS.template [JS.int_toString (Z.of_nat (List.length invalidSchemas));
                             " Invalid Schema(s)"])
               "Some schema markup contains validation errors"
               "Partial loss of structured data benefits" true])%list
      else issues in
    let recommendations :=
      if some_invalid
      then [AnalyzerRecommendation.make 2 "Fix Schema Validation Errors"
              "Correct errors in existing schema markup" 15 20]
      else [] in
    let missingSchemas := findMissingSchemas rt validSchemas data in
    let recommendations :=
      if Z.of_nat (List.length missingSchemas) >? 0
      then (recommendations ++
            [AnalyzerRecommendation.make 1 "Add Missing Schema Types"
               (JS.template ["Consider adding: "; JS.join ", " missingSchemas])
               20 30])%list
      else recommendations in
    let issues :=
      if negb quick then (issues ++ checkSchemaCompleteness validSchemas)%list
      else issues in
    JS.Returned (AnalyzerResult.make (JS.Math_min 100 score) issues recommendations).

End SchemaMarkupAnalyzer.

(** ** Weights and overall score ([shared/src/utils]) *)

Module Config.
Record t : Type := make {
  name : string;
  description : string;
  weight : JS.number;
  maxScore : JS.number
}.
End Config.

(** [AEO_CATEGORY_CONFIG]: an object keyed by the values of [AEOCategory]. *)
Definition AEO_CATEGORY_CONFIG : list (string * Config.t) :=
  [(category_value FAQ_SCHEMA,
    Config.make "FAQ Schema"
      "Structured FAQ data for voice search and featured snippets" 15%Q 100%Q);
   (category_value SCHEMA_MARKUP,
    Config.make "Schema Markup Suite"
      "Complete structured data implementation" 20%Q 100%Q);
   (category_value CONTENT_STRUCTURE,
    Config.make "AI-Optimized Content Structure"
      "Content formatted for LLM comprehension" 15%Q 100%Q);
   (category_value FEATURED_SNIPPETS,
    Config.make "Featured Snippet Optimization"
      "Content optimized for snippet capture" 12%Q 100%Q);
   (category_value ENTITY_OPTIMIZATION,
    Config.make "Entity & Keyword Optimization"
      "Semantic entity coverage and relationships" 10%Q 100%Q);
   (category_value META_TAGS,
    Config.make "Meta & Open Graph Tags"
      "Optimized meta tags for AI platforms" 8%Q 100%Q);
   (category_value SEMANTIC_HTML,
    Config.make "Semantic HTML Enhancement"
      "Proper HTML structure and accessibility" 8%Q 100%Q);
   (category_value VOICE_SEARCH,
    Config.make "Voice Search Optimization"
      "Conversational query optimization" 5%Q 100%Q);
   (category_value KNOWLEDGE_GRAPH,
    Config.make "Knowledge Graph Enhancement"
      "Entity relationships and authority signals" 4%Q 100%Q);
   (category_value TECHNICAL_SEO,
    Config.make "Technical SEO for AI Crawlers"
      "Technical optimization for AI systems" 3%Q 100%Q)].

(** [Object.fromEntries(Object.entries(AEO_CATEGORY_CONFIG).map(
      ([key, config]) => [key, config.weight]))] *)
Definition DEFAULT_CATEGORY_WEIGHTS : list (string * JS.number) :=
  List.map (fun entry => (fst entry, Config.weight (snd entry))) AEO_CATEGORY_CONFIG.

(** [Object.entries(categoryScores)]: the keys are the field names. *)
Definition Object_entries (scores : CategoryScores) : list (string * JS.number) :=
  [("faqSchema", faqSchema scores);
   ("schemaMarkup", schemaMarkup scores);
   ("contentStructure", contentStructure scores);
   ("featuredSnippets", featuredSnippets scores);
   ("entityOptimization", entityOptimization scores);
   ("metaTags", metaTags scores);
   ("semanticHtml", semanticHtml scores);
   ("voiceSearch", voiceSearch scores);
   ("knowledgeGraph", knowledgeGraph scores);
   ("technicalSeo", technicalSeo scores)].

(** [table[key]] on an object of numbers *)
Fixpoint weight_of (table : list (string * JS.number)) (key : string)
  : option JS.number :=
  match table with
  | [] => None
  | (k, w) :: rest => if String.eqb k key then Some w else weight_of rest key
  end.

(** [DEFAULT_CATEGORY_WEIGHTS[category] || 1] *)
Definition weight_or_1 (category : string) : JS.number :=
  match weight_of DEFAULT_CATEGORY_WEIGHTS category with
  | Some w => if JS.eqb w 0 then 1%Q else w
  | None => 1%Q
  end.

Definition calculateOverallScore (categoryScores : CategoryScores) : Z :=
  let scores := Object_entries categoryScores in
  let weightedSum :=
    List.fold_left (fun sum entry =>
                      let weight := weight_or_1 (fst entry) in
                      (sum + snd entry * weight)%Q) scores 0%Q in
  let totalWeight :=
    List.fold_left (fun sum weight => (sum + weight)%Q)
      (List.map snd DEFAULT_CATEGORY_WEIGHTS) 0%Q in
  JS.Math_round (weightedSum / totalWeight).

(** [getSeverityFromScore] of [helpers.ts] *)
Definition getSeverityFromScore (score : JS.number) : Severity :=
  if JS.geb score 80 then LOW
  else if JS.geb score 60 then MEDIUM
  else if JS.geb score 40 then HIGH
  else CRITICAL.

Module Complexity.
Inductive t : Type := simple | medium | complex.
End Complexity.

Definition estimateImplementationTime (severity : Severity) (complexity : Complexity.t)
  : Z :=
  let baseTime :=
    match severity with
    | CRITICAL => 60%Q
    | HIGH => 45%Q
    | MEDIUM => 30%Q
    | LOW => 15%Q
    end in
  let multiplier :=
    match complexity with
    | Complexity.simple => 1%Q
    | Complexity.medium => (3 # 2)%Q
    | Complexity.complex => (5 # 2)%Q
    end in
  JS.Math_round (baseTime * multiplier).

(** [truncateText(text, maxLength)] for an integer [maxLength]. *)
Definition truncateText (text : string) (maxLength : Z) : string :=
  if JS.length text <=? maxLength then text
  else JS.template [JS.substr_0 text (maxLength - 3); "..."].

Definition getScoreColor (score : JS.number) : string :=
  if JS.geb score 80 then "#10B981"
  else if JS.geb score 60 then "#F59E0B"
  else if JS.geb score 40 then "#EF4444"
  else "#DC2626".

(** [urlSchema = z.string().url().min(1)]: the format check of the URL
    parser, then at least one character. *)
Definition urlSchema (rt : JS.Runtime) (url : string) : bool :=
  JS.URL_valid rt url && (JS.length url >=? 1).

(** ** The orchestrator ([services/analyzer/AEOAnalyzer.ts])

    The calls to the logger, which returns nothing, are left out. *)

Module CategoryIssue.
Record t : Type := make {
  category : AEOCategory;
  severity : Severity;
  title : string;
  description : string;
  impact : string;
  fixable : bool
}.
End CategoryIssue.

Module CategoryRecommendation.
Record t : Type := make {
  category : AEOCategory;
  priority : Z;
  title : string;
  description : string;
  estimatedImpact : Z;
  implementationTime : Z
}.
End CategoryRecommendation.

Module AnalysisResult.
Record t : Type := make {
  overallScore : Z;
  categoryScores : CategoryScores;
  issues : list CategoryIssue.t;
  recommendations : list CategoryRecommendation.t;
  status : AnalysisStatus
}.
End AnalysisResult.

Module AnalysisOptions.
Record t : Type := make {
  categories : option (list AEOCategory);
  quick : option bool;
  includeRecommendations : option bool
}.
End AnalysisOptions.

Module CategorySummary.
Record t : Type := make {
  score : JS.number;
  severity : Severity;
  issues : list CategoryIssue.t;
  recommendations : list CategoryRecommendation.t
}.
End CategorySummary.

Module AEOAnalyzer.

(** [{ ...issue, category }] and [{ ...rec, category }] *)
Definition tag_issue (category : AEOCategory) (issue : AnalyzerIssue.t)
  : CategoryIssue.t :=
  CategoryIssue.make category (AnalyzerIssue.severity issue)
    (AnalyzerIssue.title issue) (AnalyzerIssue.description issue)
    (AnalyzerIssue.impact issue) (AnalyzerIssue.fixable issue).

Definition tag_recommendation (category : AEOCategory)
  (rec : AnalyzerRecommendation.t) : CategoryRecommendation.t :=
  CategoryRecommendation.make category (AnalyzerRecommendation.priority rec)
    (AnalyzerRecommendation.title rec) (AnalyzerRecommendation.description rec)
    (AnalyzerRecommendation.estimatedImpact rec)
    (AnalyzerRecommendation.implementationTime rec).

Definition getCategoryScoreKey (category : AEOCategory) : string :=
  match category with
  | FAQ_SCHEMA => "faqSchema"
  | SCHEMA_MARKUP => "schemaMarkup"
  | CONTENT_STRUCTURE => "contentStructure"
  | FEATURED_SNIPPETS => "featuredSnippets"
  | ENTITY_OPTIMIZATION => "entityOptimization"
  | META_TAGS => "metaTags"
  | SEMANTIC_HTML => "semanticHtml"
  | VOICE_SEARCH => "voiceSearch"
  | KNOWLEDGE_GRAPH => "knowledgeGraph"
  | TECHNICAL_SEO => "technicalSeo"
  end.

(** [scores.key ?? 0] *)
Definition or_zero (scores : gmap string JS.number) (key : string) : JS.number :=
  match scores !! key with Some s => s | None => 0%Q end.

Definition fillMissingScores (scores : gmap string JS.number) : CategoryScores :=
  {| faqSchema := or_zero scores "faqSchema";
     schemaMarkup := or_zero scores "schemaMarkup";
     contentStructure := or_zero scores "contentStructure";
     featuredSnippets := or_zero scores "featuredSnippets";
     entityOptimization := or_zero scores "entityOptimization";
     metaTags := or_zero scores "metaTags";
     semanticHtml := or_zero scores "semanticHtml";
     voiceSearch := or_zero scores "voiceSearch";
     knowledgeGraph := or_zero scores "knowledgeGraph";
     technicalSeo := or_zero scores "technicalSeo" |}.

Definition getSeverityPriority (severity : Severity) : Z :=
  match severity with
  | CRITICAL => 1
  | HIGH => 2
  | MEDIUM => 3
  | LOW => 4
  end.

(** What the loop of [analyzeWebpage] builds: [categoryScores], [issues]
    and [recommendations]. *)
Module Collected.
Record t : Type := make {
  categoryScores : gmap string JS.number;
  issues : list CategoryIssue.t;
  recommendations : list CategoryRecommendation.t
}.
End Collected.

Section Instance.

(** [this.analyzers]: [analyzers category] is [this.analyzers.get(category)]. *)
Variable analyzers : AEOCategory -> option Analyzer.

(** One turn of the loop over [categoriesToAnalyze], with its [try] and
    [catch].  Only the call of the analyzer can throw, and it comes before
    anything is stored. *)
Definition analyze_category (scrapedData : ScrapedData.t) (options : AnalysisOptions.t)
  (collected : Collected.t) (category : AEOCategory) : JS.Outcome Collected.t :=
  JS.try_catch
    (match analyzers category with
     | None => JS.Returned collected
     | Some analyzer =>
         let* result := analyzer scrapedData (AnalysisOptions.quick options) in
         JS.Returned
           (Collected.make
              (<[getCategoryScoreKey category := AnalyzerResult.score result]>
                 (Collected.categoryScores collected))
              (Collected.issues collected
               ++ List.map (tag_issue category) (AnalyzerResult.issues result))%list
              (match AnalysisOptions.includeRecommendations options with
               | Some true =>
                   (Collected.recommendations collected
                    ++ List.map (tag_recommendation category)
                         (AnalyzerResult.recommendations result))%list
               | _ => Collected.recommendations collected
               end))
     end)
    (fun error =>
       JS.Returned
         (Collected.make
            (<[getCategoryScoreKey category := 0%Q]>
               (Collected.categoryScores collected))
            (Collected.issues collected)
            (Collected.recommendations collected))).

(** [for (const category of categoriesToAnalyze) { ... }] *)
Fixpoint analyze_categories (scrapedData : ScrapedData.t) (options : AnalysisOptions.t)
  (categoriesToAnalyze : list AEOCategory) (collected : Collected.t)
  : JS.Outcome Collected.t :=
  match categoriesToAnalyze with
  | [] => JS.Returned collected
  | category :: rest =>
      let* next := analyze_category scrapedData options collected category in
      analyze_categories scrapedData options rest next
  end.

(** [options.categories || Object.values(AEOCategory)] *)
Definition categoriesToAnalyze (options : AnalysisOptions.t) : list AEOCategory :=
  match AnalysisOptions.categories options with
  | Some categories => categories
  | None => AEOCategory_values
  end.

Definition collect (scrapedData : ScrapedData.t) (options : AnalysisOptions.t)
  : JS.Outcome Collected.t :=
  analyze_categories scrapedData options (categoriesToAnalyze options)
    (Collected.make ∅ [] []).

Definition analyzeWebpage (scrapedData : ScrapedData.t) (options : AnalysisOptions.t)
  : JS.Outcome AnalysisResult.t :=
  JS.try_catch
    (let* collected := collect scrapedData options in
     let fullCategoryScores := fillMissingScores (Collected.categoryScores collected) in
     let overallScore := calculateOverallScore fullCategoryScores in
     let issues :=
       JS.sort (fun a b => getSeverityPriority (CategoryIssue.severity a)
                           - getSeverityPriority (CategoryIssue.severity b))
         (Collected.issues collected) in
     let recommendations :=
       JS.sort (fun a b => CategoryRecommendation.priority a
                           - CategoryRecommendation.priority b)
         (Collected.recommendations collected) in
     JS.Returned
       (AnalysisResult.make overallScore fullCategoryScores issues recommendations
          COMPLETED))
    (fun error => JS.Thrown (JS.template ["Analysis failed: "; error])).

Definition quickAnalyze (scrapedData : ScrapedData.t) : JS.Outcome AnalysisResult.t :=
  analyzeWebpage scrapedData (AnalysisOptions.make None (Some true) (Some false)).

Definition analyzeCategoriesOnly (scrapedData : ScrapedData.t)
  (categories : list AEOCategory) : JS.Outcome AnalysisResult.t :=
  analyzeWebpage scrapedData (AnalysisOptions.make (Some categories) None (Some true)).

Definition getCategorySummary (scrapedData : ScrapedData.t) (category : AEOCategory)
  : JS.Outcome CategorySummary.t :=
  match analyzers category with
  | None =>
      JS.Thrown (JS.template ["No analyzer found for category: ";
                              category_value category])
  | Some analyzer =>
      let* result := analyzer scrapedData (Some false) in
      let severity := getSeverityFromScore (AnalyzerResult.score result) in
      JS.Returned
        (CategorySummary.make (AnalyzerResult.score result) severity
           (List.map (tag_issue category) (AnalyzerResult.issues result))
           (List.map (tag_recommendation category)
              (AnalyzerResult.recommendations result)))
  end.

(** [getHealthStatus()]: [status[category]] for a category of the map, [true]
    unless its analyzer throws on the test page in quick mode; a category
    outside the map has no entry. *)
Definition getHealthStatus (category : AEOCategory) : option bool :=
  match analyzers category with
  | None => None
  | Some analyzer =>
      let testData :=
        ScrapedData.make "https://example.com" "Test" "Test description" []
          "Test content" [] [] [] [] []
          (PerformanceMetrics.make 0%Q 0%Q None) in
      match analyzer testData (Some true) with
      | JS.Returned _ => Some true
      | JS.Thrown _ => Some false
      end
  end.

End Instance.

Definition out_of_range (score : JS.number) : bool :=
  JS.ltb score 0 || JS.gtb score 100.

Definition validateAnalysisResult (result : AnalysisResult.t) : bool :=
  if out_of_range (JS.of_int (AnalysisResult.overallScore result)) then false
  else
    negb (List.existsb out_of_range
            (List.map snd (Object_entries (AnalysisResult.categoryScores result)))).

(** The map built by the constructor. *)
Definition constructor (rt : JS.Runtime) (category : AEOCategory) : option Analyzer :=
  Some match category with
       | FAQ_SCHEMA => FAQSchemaAnalyzer.analyze rt
       | SCHEMA_MARKUP => SchemaMarkupAnalyzer.analyze rt
       | CONTENT_STRUCTURE => ContentStructureAnalyzer.analyze rt
       | FEATURED_SNIPPETS => FeaturedSnippetsAnalyzer.analyze
       | ENTITY_OPTIMIZATION => EntityOptimizationAnalyzer.analyze rt
       | META_TAGS => MetaTagsAnalyzer.analyze rt
       | SEMANTIC_HTML => SemanticHTMLAnalyzer.analyze
       | VOICE_SEARCH => VoiceSearchAnalyzer.analyze
       | KNOWLEDGE_GRAPH => KnowledgeGraphAnalyzer.analyze
       | TECHNICAL_SEO => TechnicalSEOAnalyzer.analyze rt
       end.

End AEOAnalyzer.

(** ** The dispatch of fixes ([routes/analysis.ts] and
    [services/ai/CodeFixGenerator.ts]) *)

Inductive FixType : Type :=
| FAQ_GENERATION
| SCHEMA_GENERATION
| CONTENT_REWRITE
| META_OPTIMIZATION
| HTML_RESTRUCTURE
| TECHNICAL_FIX.

Definition fixType_value (fixType : FixType) : string :=
  match fixType with
  | FAQ_GENERATION => "faq_generation"
  | SCHEMA_GENERATION => "schema_generation"
  | CONTENT_REWRITE => "content_rewrite"
  | META_OPTIMIZATION => "meta_optimization"
  | HTML_RESTRUCTURE => "html_restructure"
  | TECHNICAL_FIX => "technical_fix"
  end.

Module CodeFixGenerator.

(** [mapping[key]] on an object literal, [None] being [undefined]. *)
Fixpoint entry_of {A} (mapping : list (string * A)) (key : string) : option A :=
  match mapping with
  | [] => None
  | (k, v) :: rest => if String.eqb k key then Some v else entry_of rest key
  end.

(** The argument is the string the caller passes for the category. *)
Definition getFixTypesForCategory (category : string) : list FixType :=
  let mapping :=
    [(category_value FAQ_SCHEMA, [FAQ_GENERATION]);
     (category_value SCHEMA_MARKUP, [SCHEMA_GENERATION]);
     (category_value META_TAGS, [META_OPTIMIZATION]);
     (category_value CONTENT_STRUCTURE, [CONTENT_REWRITE]);
     (category_value FEATURED_SNIPPETS, [CONTENT_REWRITE]);
     (category_value ENTITY_OPTIMIZATION, [CONTENT_REWRITE]);
     (category_value SEMANTIC_HTML, [HTML_RESTRUCTURE]);
     (category_value VOICE_SEARCH, [CONTENT_REWRITE]);
     (category_value KNOWLEDGE_GRAPH, [SCHEMA_GENERATION]);
     (category_value TECHNICAL_SEO, [TECHNICAL_FIX])] in
  match entry_of mapping category with
  | Some fixTypes => fixTypes
  | None => [TECHNICAL_FIX]
  end.

Definition determineSeverity (category : string) : Severity :=
  let severityMap :=
    [(category_value FAQ_SCHEMA, HIGH);
     (category_value SCHEMA_MARKUP, CRITICAL);
     (category_value META_TAGS, HIGH);
     (category_value CONTENT_STRUCTURE, MEDIUM);
     (category_value FEATURED_SNIPPETS, MEDIUM);
     (category_value ENTITY_OPTIMIZATION, MEDIUM);
     (category_value SEMANTIC_HTML, MEDIUM);
     (category_value VOICE_SEARCH, LOW);
     (category_value KNOWLEDGE_GRAPH, LOW);
     (category_value TECHNICAL_SEO, HIGH)] in
  match entry_of severityMap category with
  | Some severity => severity
  | None => MEDIUM
  end.

Definition estimateImpact (category : string) (fixType : FixType) : Z :=
  let key c f := JS.template [category_value c; "_"; fixType_value f] in
  let impactMap :=
    [(key FAQ_SCHEMA FAQ_GENERATION, 25);
     (key SCHEMA_MARKUP SCHEMA_GENERATION, 30);
     (key META_TAGS META_OPTIMIZATION, 20);
     (key CONTENT_STRUCTURE CONTENT_REWRITE, 18)] in
  match entry_of impactMap (JS.template [category; "_"; fixType_value fixType]) with
  | Some impact => if impact =? 0 then 15 else impact
  | None => 15
  end.

(** [truncateContent(content, maxLength)] for an integer [maxLength]. *)
Definition truncateContent (content : string) (maxLength : Z) : string :=
  if JS.length content >? maxLength
  then JS.template [JS.substring_0 content maxLength; "..."]
  else content.

End CodeFixGenerator.

Module AnalysisRoute.

(** [performAnalysis]: the keys of the score card whose score is below 60,
    in the order of the card. *)
Definition criticalCategories (categoryScores : CategoryScores) : list string :=
  List.map fst
    (List.filter (fun entry => JS.ltb (snd entry) 60) (Object_entries categoryScores)).

(** The categories the loop over [criticalCategories.slice(0, 3)] asks fixes
    for, each with the fix types [generateCategoryFixes] goes through. *)
Definition dispatched (categoryScores : CategoryScores)
  : list (string * list FixType) :=
  List.map (fun category =>
              (category, CodeFixGenerator.getFixTypesForCategory category))
    (List.firstn 3 (criticalCategories categoryScores)).

End AnalysisRoute.

(** ** The request of an analysis ([routes/analysis.ts], [POST /analyze])

    The handler validates the body of the request with
    [schemas.analyzeRequest] of the server's types before anything else:

    [z.object({ url: z.string().url(), clientId: z.string().uuid(),
                options: z.object({ quick: z.boolean().optional() }).optional() })]

    The validation library is not part of the sources.  Its [url()] check is
    the URL parser of the runtime ([new URL(s)] succeeds); its [uuid()] check
    is a parameter.  A body is a JSON tree, and a property that is absent is
    [undefined]. *)
Module AnalyzeRequest.

(** [validation.data] *)
Record t : Type := make {
  url : string;
  clientId : string;
  options : option (option bool)
}.

Section Validation.

Variable rt : JS.Runtime.

(** The test [z.string().uuid()] makes of a string. *)
Variable uuid : string -> bool.

(** [z.string().url()] *)
Definition url_field (v : option JS.value) : option string :=
  match v with
  | Some (JS.Str s) => if JS.URL_valid rt s then Some s else None
  | _ => None
  end.

(** [z.string().uuid()] *)
Definition clientId_field (v : option JS.value) : option string :=
  match v with
  | Some (JS.Str s) => if uuid s then Some s else None
  | _ => None
  end.

(** [z.boolean().optional()] *)
Definition quick_field (v : option JS.value) : option (option bool) :=
  match v with
  | None => Some None
  | Some (JS.Bool b) => Some (Some b)
  | Some _ => None
  end.

(** [z.object({ quick: z.boolean().optional() }).optional()] *)
Definition options_field (v : option JS.value) : option (option (option bool)) :=
  match v with
  | None => Some None
  | Some (JS.Object properties) =>
      match quick_field (JS.lookup_property "quick" properties) with
      | Some quick => Some (Some quick)
      | None => None
      end
  | Some _ => None
  end.

(** [schemas.analyzeRequest.safeParse(req.body)]: the data when [success] is
    true, nothing otherwise. *)
Definition safeParse (body : JS.value) : option t :=
  match body with
  | JS.Object properties =>
      match url_field (JS.lookup_property "url" properties),
            clientId_field (JS.lookup_property "clientId" properties),
            options_field (JS.lookup_property "options" properties) with
      | Some url, Some clientId, Some options => Some (make url clientId options)
      | _, _, _ => None
      end
  | _ => None
  end.

(** The first statement of the handler:

    [const validation = schemas.analyzeRequest.safeParse(req.body);
     if (!validation.success) {
       return res.status(400).json({ error: 'Invalid request', details: ... });
     }]

    The result is the status and the error of the response the handler
    returns with, or the validated data the rest of the handler goes on
    with: the lookup of the client, the record of the analysis and the start
    of [performAnalysis], which scrapes the url and calls [analyzeWebpage]. *)
Definition validate (body : JS.value) : (Z * string) + t :=
  match safeParse body with
  | None => inl (400, "Invalid request")
  | Some data => inr data
  end.

End Validation.

End AnalyzeRequest.

(** ** Vocabulary of the statements *)

(** [categoryScores[getCategoryScoreKey(category)]] on a full score card. *)
Definition score_of (scores : CategoryScores) (category : AEOCategory) : JS.number :=
  match category with
  | FAQ_SCHEMA => faqSchema scores
  | SCHEMA_MARKUP => schemaMarkup scores
  | CONTENT_STRUCTURE => contentStructure scores
  | FEATURED_SNIPPETS => featuredSnippets scores
  | ENTITY_OPTIMIZATION => entityOptimization scores
  | META_TAGS => metaTags scores
  | SEMANTIC_HTML => semanticHtml scores
  | VOICE_SEARCH => voiceSearch scores
  | KNOWLEDGE_GRAPH => knowledgeGraph scores
  | TECHNICAL_SEO => technicalSeo scores
  end.

Definition in_range (score : JS.number) : Prop := (0 <= score /\ score <= 100)%Q.

(** An analyzer whose score, when it returns one, is between 0 and 100. *)
Definition bounded (analyzer : Analyzer) : Prop :=
  forall scrapedData quick result,
    analyzer scrapedData quick = JS.Returned result ->
    in_range (AnalyzerResult.score result).

(** The weighting table of the specification, by category. *)
Definition table_weight (category : AEOCategory) : JS.number :=
  match category with
  | FAQ_SCHEMA => 15
  | SCHEMA_MARKUP => 20
  | CONTENT_STRUCTURE => 15
  | FEATURED_SNIPPETS => 12
  | ENTITY_OPTIMIZATION => 10
  | META_TAGS => 8
  | SEMANTIC_HTML => 8
  | VOICE_SEARCH => 5
  | KNOWLEDGE_GRAPH => 4
  | TECHNICAL_SEO => 3
  end%Q.

(** The overall score as the specification words it:
    round(sum of weight_c * score_c / sum of weight_c) over the ten
    categories. *)
Definition weighted_mean (scores : CategoryScores) : Z :=
  JS.Math_round
    (BaseAnalyzer.sum_numbers
       (List.map (fun c => table_weight c * score_of scores c)%Q AEOCategory_values)
     / BaseAnalyzer.sum_numbers (List.map table_weight AEOCategory_values)).

(** What one turn of the loop of [analyzeWebpage] stores for a category:
    nothing without an analyzer, the score of the result, or 0 after a
    throw. *)
Definition recorded (analyzers : AEOCategory -> option Analyzer)
  (scrapedData : ScrapedData.t) (options : AnalysisOptions.t)
  (category : AEOCategory) : option JS.number :=
  match analyzers category with
  | None => None
  | Some analyzer =>
      match analyzer scrapedData (AnalysisOptions.quick options) with
      | JS.Returned result => Some (AnalyzerResult.score result)
      | JS.Thrown _ => Some 0%Q
      end
  end.

(** The issues and the recommendations one turn of the loop collects. *)
Definition emitted_issues (analyzers : AEOCategory -> option Analyzer)
  (scrapedData : ScrapedData.t) (options : AnalysisOptions.t)
  (category : AEOCategory) : list CategoryIssue.t :=
  match analyzers category with
  | None => []
  | Some analyzer =>
      match analyzer scrapedData (AnalysisOptions.quick options) with
      | JS.Returned result =>
          List.map (AEOAnalyzer.tag_issue category) (AnalyzerResult.issues result)
      | JS.Thrown _ => []
      end
  end.

Definition emitted_recommendations (analyzers : AEOCategory -> option Analyzer)
  (scrapedData : ScrapedData.t) (options : AnalysisOptions.t)
  (category : AEOCategory) : list CategoryRecommendation.t :=
  match analyzers category, AnalysisOptions.includeRecommendations options with
  | Some analyzer, Some true =>
      match analyzer scrapedData (AnalysisOptions.quick options) with
      | JS.Returned result =>
          List.map (AEOAnalyzer.tag_recommendation category)
            (AnalyzerResult.recommendations result)
      | JS.Thrown _ => []
      end
  | _, _ => []
  end.

(** The state of the loop after a turn. *)
Definition after_category (analyzers : AEOCategory -> option Analyzer)
  (scrapedData : ScrapedData.t) (options : AnalysisOptions.t)
  (collected : AEOAnalyzer.Collected.t) (category : AEOCategory)
  : AEOAnalyzer.Collected.t :=
  AEOAnalyzer.Collected.make
    (match recorded analyzers scrapedData options category with
     | Some s =>
         <[AEOAnalyzer.getCategoryScoreKey category := s]>
           (AEOAnalyzer.Collected.categoryScores collected)
     | None => AEOAnalyzer.Collected.categoryScores collected
     end)
    (AEOAnalyzer.Collected.issues collected
     ++ emitted_issues analyzers scrapedData options category)%list
    (AEOAnalyzer.Collected.recommendations collected
     ++ emitted_recommendations analyzers scrapedData options category)%list.

(** What the loop has collected when it ends. *)
Definition gathered (analyzers : AEOCategory -> option Analyzer)
  (scrapedData : ScrapedData.t) (options : AnalysisOptions.t)
  : AEOAnalyzer.Collected.t :=
  List.fold_left (after_category analyzers scrapedData options)
    (AEOAnalyzer.categoriesToAnalyze options)
    (AEOAnalyzer.Collected.make ∅ [] []).

Definition severity_rank (issue : CategoryIssue.t) : Z :=
  AEOAnalyzer.getSeverityPriority (CategoryIssue.severity issue).

(** *** Headings *)

Definition h1_count (headings : list Heading.t) : Z :=
  Z.of_nat (List.length (List.filter (fun h => Heading.level h =? 1) headings)).

(** Some heading has a level that exceeds the level of the heading right
    before it by more than 1. *)
Definition skips_level (headings : list Heading.t) : Prop :=
  exists before previous current after,
    headings = (before ++ previous :: current :: after)%list
    /\ Heading.level current > Heading.level previous + 1.

(** The three conditions the specification lists for an invalid
    hierarchy. *)
Definition listed_condition (headings : list Heading.t) : Prop :=
  headings = [] \/ h1_count headings > 1 \/ skips_level headings.

(** *** Blank texts *)

(** A text made of white space only; the empty text is one. *)
Fixpoint blank (s : string) : bool :=
  match s with
  | EmptyString => true
  | String c s' => JS.isWhiteSpace c && blank s'
  end.

(** *** FAQ entries *)

(** The words of an answer as the analyzer counts them: the pieces between
    the runs of white space. *)
Definition answer_words (text : string) : Z :=
  Z.of_nat (List.length (JS.split_whitespace text)).




(** *** Inputs of the examples *)

Definition heading (level : Z) (text : string) : Heading.t :=
  Heading.make level text None.

(** Fifty-five spaces, and a title of fifty-five characters. *)
Definition blank_55 : string :=
  "                                                       ".

Definition title_55 : string :=
  "Answer engine optimization for small business websites.".

(** A description of one hundred and fifty-five characters. *)
Definition description_155 : string :=
  "Learn how answer engines pick the passages they quote and how to structure the pages of a small business website so that its answers are the ones they pick".

(** A runtime to run examples with: its engine finds no match, its URL
    parser accepts every string.  Nothing is proved about it: the theorems
    hold for every runtime. *)
Definition sample_runtime : JS.Runtime :=
  {| JS.RegExp_test := fun _ _ => false;
     JS.String_match := fun _ _ => [];
     JS.URL_valid := fun _ => true;
     JS.Number_toString := fun _ => "NaN";
     JS.StringToNumber := fun _ => None |}.

(** The page [getHealthStatus] tests the analyzers with. *)
Definition testData : ScrapedData.t :=
  ScrapedData.make "https://example.com" "Test" "Test description" []
    "Test content" [] [] [] [] [] (PerformanceMetrics.make 0%Q 0%Q None).

(** [testData] with other structured-data blocks. *)
Definition with_schemas (schemas : list SchemaMarkup.t) : ScrapedData.t :=
  ScrapedData.make "https://example.com" "Test" "Test description" []
    "Test content" schemas [] [] [] [] (PerformanceMetrics.make 0%Q 0%Q None).

(** [testData] without its url. *)
Definition no_url : ScrapedData.t :=
  ScrapedData.make "" "Test" "Test description" []
    "Test content" [] [] [] [] [] (PerformanceMetrics.make 0%Q 0%Q None).

(** A document with another url. *)
Definition with_url (url : string) (d : ScrapedData.t) : ScrapedData.t :=
  ScrapedData.make url (ScrapedData.title d) (ScrapedData.metaDescription d)
    (ScrapedData.headings d) (ScrapedData.content d) (ScrapedData.schemas d)
    (ScrapedData.metaTags d) (ScrapedData.openGraphTags d) (ScrapedData.images d)
    (ScrapedData.links d) (ScrapedData.performance d).

(** [analyzeWebpage(scrapedData)]: the default [options = {}]. *)
Definition no_options : AnalysisOptions.t := AnalysisOptions.make None None None.

(** An analyzer that returns a given score and nothing else. *)
Definition constant_analyzer (score : JS.number) : Analyzer :=
  fun _ _ => JS.Returned (AnalyzerResult.make score [] []).

Definition AEOCategory_eqb (a b : AEOCategory) : bool :=
  String.eqb (category_value a) (category_value b).

(** A map of analyzers with the entry of one category replaced. *)
Definition replaced (analyzers : AEOCategory -> option Analyzer)
  (category : AEOCategory) (entry : option Analyzer)
  : AEOCategory -> option Analyzer :=
  fun c => if AEOCategory_eqb c category then entry else analyzers c.

(** A question of an FAQ block with its answer. *)
Definition question (name text : string) : JS.value :=
  JS.Object
    [("@type", JS.Str "Question");
     ("name", JS.Str name);
     ("acceptedAnswer", JS.Object [("@type", JS.Str "Answer"); ("text", JS.Str text)])].

Definition twenty_words : string :=
  "Answer engines read the page and quote the part that answers the question in a few short and clear sentences".

(** A valid FAQ block with the given [mainEntity]. *)
Definition faq_block (mainEntity : JS.value) : SchemaMarkup.t :=
  SchemaMarkup.make "FAQPage"
    [("@context", JS.Str "https://schema.org"); ("@type", JS.Str "FAQPage");
     ("mainEntity", mainEntity)]
    true None.

(** A text without white space at its start or its end. *)
Definition unpadded (text : string) : Prop :=
  JS.trimStart text = text /\ JS.trimEnd text = text.



(** *** Requests *)

(** A body without a url that the URL parser accepts: the url is missing,
    is not a string, or is malformed. *)
Definition url_missing_or_malformed (rt : JS.Runtime) (body : JS.value) : Prop :=
  forall properties url,
    body = JS.Object properties ->
    JS.lookup_property "url" properties = Some (JS.Str url) ->
    JS.URL_valid rt url = false.

(** A request that names a client and no url. *)
Definition request_without_url : JS.value :=
  JS.Object [("clientId", JS.Str "0b9d6f3e-5c1a-4e2b-9f7d-3a8c2e1b4d6f")].

(** *** Ceilings *)

(** The highest score the analyzer of a category can return. *)
Definition ceiling (category : AEOCategory) : JS.number :=
  match category with
  | FAQ_SCHEMA => 100
  | SCHEMA_MARKUP => 100
  | CONTENT_STRUCTURE => 77
  | FEATURED_SNIPPETS => 60
  | ENTITY_OPTIMIZATION => 50
  | META_TAGS => 87
  | SEMANTIC_HTML => 60
  | VOICE_SEARCH => 70
  | KNOWLEDGE_GRAPH => 50
  | TECHNICAL_SEO => 60
  end%Q.

(** * Properties *)

(** ** The stable sort *)

Section Sorting.

Context {A : Type} (key : A -> Z).

Abbreviation by_key := (fun a b : A => key a - key b).
Abbreviation ordered := (StronglySorted (fun a b : A => key a <= key b)).

Lemma sort_insert_perm (x : A) (l : list A) :
  Permutation (JS.sort_insert by_key x l) (x :: l).
Proof.
  induction l as [|y l IH]; simpl; [reflexivity|].
  destruct (key x - key y <=? 0); [reflexivity|].
  rewrite IH. apply perm_swap.
Qed.

Lemma sort_perm (l : list A) : Permutation (JS.sort by_key l) l.
Proof.
  induction l as [|x l IH]; simpl; [constructor|].
  unfold JS.sort in *. simpl. rewrite sort_insert_perm. now constructor.
Qed.





End Sorting.

(** ** The loop of the orchestrator *)

Import AEOAnalyzer.

Lemma AEOCategory_eq_dec (a b : AEOCategory) : {a = b} + {a <> b}.
Proof. decide equality. Defined.

Lemma getCategoryScoreKey_inj (a b : AEOCategory) :
  getCategoryScoreKey a = getCategoryScoreKey b -> a = b.
Proof. destruct a, b; simpl; intros H; try reflexivity; discriminate H. Qed.

Lemma score_of_fill (scores : gmap string JS.number) (c : AEOCategory) :
  score_of (fillMissingScores scores) c = or_zero scores (getCategoryScoreKey c).
Proof. destruct c; reflexivity. Qed.

Section Loop.

Variable analyzers : AEOCategory -> option Analyzer.
Variable scrapedData : ScrapedData.t.
Variable options : AnalysisOptions.t.

Abbreviation turn := (after_category analyzers scrapedData options).

Lemma analyze_category_returns (collected : Collected.t) (c : AEOCategory) :
  analyze_category analyzers scrapedData options collected c
  = JS.Returned (turn collected c).
Proof.
  unfold analyze_category, after_category, recorded, emitted_issues,
    emitted_recommendations.
  destruct collected as [scores issues recs]; simpl.
  destruct (analyzers c) as [analyzer|]; simpl.
  - destruct (analyzer scrapedData (AnalysisOptions.quick options)) as [result|e];
      simpl.
    + destruct (AnalysisOptions.includeRecommendations options) as [[|]|];
        simpl; rewrite ?app_nil_r; reflexivity.
    + destruct (AnalysisOptions.includeRecommendations options) as [[|]|];
        simpl; rewrite ?app_nil_r; reflexivity.
  - rewrite !app_nil_r. reflexivity.
Qed.

Lemma analyze_categories_returns (cats : list AEOCategory) (collected : Collected.t) :
  analyze_categories analyzers scrapedData options cats collected
  = JS.Returned (List.fold_left turn cats collected).
Proof.
  revert collected. induction cats as [|c cats IH]; intros collected; simpl.
  - reflexivity.
  - rewrite analyze_category_returns. simpl. apply IH.
Qed.

Lemma loop_issues (cats : list AEOCategory) (collected : Collected.t) :
  Collected.issues (List.fold_left turn cats collected)
  = (Collected.issues collected
     ++ List.flat_map (emitted_issues analyzers scrapedData options) cats)%list.
Proof.
  revert collected. induction cats as [|c cats IH]; intros collected; simpl.
  - now rewrite app_nil_r.
  - rewrite IH. simpl. now rewrite <- app_assoc.
Qed.

Lemma loop_recommendations (cats : list AEOCategory) (collected : Collected.t) :
  Collected.recommendations (List.fold_left turn cats collected)
  = (Collected.recommendations collected
     ++ List.flat_map (emitted_recommendations analyzers scrapedData options) cats)%list.
Proof.
  revert collected. induction cats as [|c cats IH]; intros collected; simpl.
  - now rewrite app_nil_r.
  - rewrite IH. simpl. now rewrite <- app_assoc.
Qed.

Lemma loop_scores_skipped (cats : list AEOCategory) (collected : Collected.t)
  (c : AEOCategory) :
  (~ In c cats \/ recorded analyzers scrapedData options c = None) ->
  Collected.categoryScores (List.fold_left turn cats collected)
    !! getCategoryScoreKey c
  = Collected.categoryScores collected !! getCategoryScoreKey c.
Proof.
  revert collected. induction cats as [|d cats IH]; intros collected H; simpl.
  - reflexivity.
  - rewrite IH.
    + simpl. destruct (AEOCategory_eq_dec d c) as [->|Hne].
      * destruct H as [H|H]; [exfalso; apply H; now left|]. now rewrite H.
      * destruct (recorded analyzers scrapedData options d); [|reflexivity].
        apply lookup_insert_ne. intros Heq. apply Hne.
        now apply getCategoryScoreKey_inj.
    + destruct H as [H|H]; [left|now right]. intros Hin. apply H. now right.
Qed.

Lemma loop_scores_recorded (cats : list AEOCategory) (collected : Collected.t)
  (c : AEOCategory) (s : JS.number) :
  In c cats ->
  recorded analyzers scrapedData options c = Some s ->
  Collected.categoryScores (List.fold_left turn cats collected)
    !! getCategoryScoreKey c = Some s.
Proof.
  revert collected. induction cats as [|d cats IH]; intros collected Hin Hrec.
  - destruct Hin.
  - simpl. destruct (in_dec AEOCategory_eq_dec c cats) as [Hc|Hc].
    + now apply IH.
    + destruct Hin as [->|Hin]; [|contradiction].
      rewrite loop_scores_skipped by now left.
      simpl. rewrite Hrec. apply lookup_insert_eq.
Qed.

End Loop.

(** ** The result of the orchestrator *)

Section Result.

Variable analyzers : AEOCategory -> option Analyzer.
Variable scrapedData : ScrapedData.t.
Variable options : AnalysisOptions.t.

Abbreviation final := (gathered analyzers scrapedData options).

Lemma collect_returns :
  collect analyzers scrapedData options = JS.Returned final.
Proof. apply analyze_categories_returns. Qed.

Lemma analyzeWebpage_returns :
  analyzeWebpage analyzers scrapedData options
  = JS.Returned
      (AnalysisResult.make
         (calculateOverallScore (fillMissingScores (Collected.categoryScores final)))
         (fillMissingScores (Collected.categoryScores final))
         (JS.sort (fun a b => severity_rank a - severity_rank b)
            (Collected.issues final))
         (JS.sort (fun a b => CategoryRecommendation.priority a
                              - CategoryRecommendation.priority b)
            (Collected.recommendations final))
         COMPLETED).
Proof. unfold analyzeWebpage. rewrite collect_returns. reflexivity. Qed.

Lemma gathered_issues :
  Collected.issues final
  = List.flat_map (emitted_issues analyzers scrapedData options)
      (categoriesToAnalyze options).
Proof. unfold gathered. now rewrite loop_issues. Qed.

Lemma gathered_recommendations :
  Collected.recommendations final
  = List.flat_map (emitted_recommendations analyzers scrapedData options)
      (categoriesToAnalyze options).
Proof. unfold gathered. now rewrite loop_recommendations. Qed.

(** The score of a category on the score card: what its turn recorded when
    it was requested, and 0 otherwise. *)
Lemma final_score_recorded (c : AEOCategory) (s : JS.number) :
  In c (categoriesToAnalyze options) ->
  recorded analyzers scrapedData options c = Some s ->
  score_of (fillMissingScores (Collected.categoryScores final)) c = s.
Proof.
  intros Hin Hrec. rewrite score_of_fill. unfold or_zero, gathered.
  now rewrite (loop_scores_recorded _ _ _ _ _ c s Hin Hrec).
Qed.

Lemma final_score_skipped (c : AEOCategory) :
  (~ In c (categoriesToAnalyze options)
   \/ recorded analyzers scrapedData options c = None) ->
  score_of (fillMissingScores (Collected.categoryScores final)) c = 0%Q.
Proof.
  intros H. rewrite score_of_fill. unfold or_zero, gathered.
  now rewrite loop_scores_skipped.
Qed.

Lemma emitted_issue_category (c : AEOCategory) (i : CategoryIssue.t) :
  In i (emitted_issues analyzers scrapedData options c) ->
  CategoryIssue.category i = c.
Proof.
  unfold emitted_issues.
  destruct (analyzers c) as [a|]; [|intros []].
  destruct (a scrapedData (AnalysisOptions.quick options)); [|intros []].
  rewrite in_map_iff. intros (x & <- & _). reflexivity.
Qed.

Lemma emitted_recommendation_category (c : AEOCategory) (x : CategoryRecommendation.t) :
  In x (emitted_recommendations analyzers scrapedData options c) ->
  CategoryRecommendation.category x = c.
Proof.
  unfold emitted_recommendations.
  destruct (analyzers c) as [a|]; [|intros []].
  destruct (AnalysisOptions.includeRecommendations options) as [[|]|];
    try (intros []).
  destruct (a scrapedData (AnalysisOptions.quick options)); [|intros []].
  rewrite in_map_iff. intros (y & <- & _). reflexivity.
Qed.

(** A category that recorded no result contributes nothing. *)
Lemma silent_category_issues (c : AEOCategory) (i : CategoryIssue.t) :
  emitted_issues analyzers scrapedData options c = [] ->
  In i (JS.sort (fun a b => severity_rank a - severity_rank b)
          (Collected.issues final)) ->
  CategoryIssue.category i <> c.
Proof.
  intros Hnone Hin Heq.
  apply (Permutation_in _ (sort_perm severity_rank _)) in Hin.
  rewrite gathered_issues, in_flat_map in Hin.
  destruct Hin as (d & _ & Hd).
  pose proof (emitted_issue_category _ _ Hd) as Hcat.
  rewrite Heq in Hcat. subst d. rewrite Hnone in Hd. destruct Hd.
Qed.

Lemma silent_category_recommendations (c : AEOCategory)
  (x : CategoryRecommendation.t) :
  emitted_recommendations analyzers scrapedData options c = [] ->
  In x (JS.sort (fun a b => CategoryRecommendation.priority a
                            - CategoryRecommendation.priority b)
          (Collected.recommendations final)) ->
  CategoryRecommendation.category x <> c.
Proof.
  intros Hnone Hin Heq.
  apply (Permutation_in _ (sort_perm CategoryRecommendation.priority _)) in Hin.
  rewrite gathered_recommendations, in_flat_map in Hin.
  destruct Hin as (d & _ & Hd).
  pose proof (emitted_recommendation_category _ _ Hd) as Hcat.
  rewrite Heq in Hcat. subst d. rewrite Hnone in Hd. destruct Hd.
Qed.

End Result.

(** ** The overall score *)

Lemma weight_or_1_entries (scores : CategoryScores) :
  List.Forall (fun entry => weight_or_1 (fst entry) = 1%Q) (Object_entries scores).
Proof. repeat constructor. Qed.

(** The keys of the score card are not the keys of the weighting table, so
    every weight falls back to 1: the overall score is the plain sum of the
    scores over the total weight, 100. *)
Lemma calculateOverallScore_unweighted (scores : CategoryScores) :
  calculateOverallScore scores
  = JS.Math_round
      ((faqSchema scores + schemaMarkup scores + contentStructure scores
        + featuredSnippets scores + entityOptimization scores + metaTags scores
        + semanticHtml scores + voiceSearch scores + knowledgeGraph scores
        + technicalSeo scores) / 100)%Q.
Proof.
  unfold calculateOverallScore, JS.Math_round. apply Qfloor_comp.
  cbn -[Qplus Qmult Qdiv]. field.
Qed.

(** The weighting table of the code is the table of the specification, under
    the values of [AEOCategory]; under the keys of the score card it has
    nothing. *)
Lemma weights_by_category_value (c : AEOCategory) :
  weight_of DEFAULT_CATEGORY_WEIGHTS (category_value c) = Some (table_weight c).
Proof. destruct c; reflexivity. Qed.

Lemma weights_by_score_key (c : AEOCategory) :
  weight_of DEFAULT_CATEGORY_WEIGHTS (getCategoryScoreKey c) = None.
Proof. destruct c; reflexivity. Qed.

(** C1 (the code departs from the specification).  In a run where every
    analyzer returns the score 100, every category score is 100 and the
    overall score is 10, where the weighted mean of the specification is
    100; in a run where every analyzer returns 0 the overall score is 0, as
    specified.  On the test page of the health check the instance of the
    constructor returns the overall score 3, where the weighted mean is
    21. *)
Theorem C1_overall_score_of_all_100_is_10 :
  (forall (scrapedData : ScrapedData.t) (quick includeRecommendations : option bool),
     (exists result,
        analyzeWebpage (fun _ => Some (constant_analyzer 100%Q)) scrapedData
          (AnalysisOptions.make None quick includeRecommendations)
        = JS.Returned result
        /\ (forall c, score_of (AnalysisResult.categoryScores result) c = 100%Q)
        /\ AnalysisResult.overallScore result = 10
        /\ weighted_mean (AnalysisResult.categoryScores result) = 100)
     /\ (exists result,
           analyzeWebpage (fun _ => Some (constant_analyzer 0%Q)) scrapedData
             (AnalysisOptions.make None quick includeRecommendations)
           = JS.Returned result
           /\ (forall c, score_of (AnalysisResult.categoryScores result) c = 0%Q)
           /\ AnalysisResult.overallScore result = 0
           /\ weighted_mean (AnalysisResult.categoryScores result) = 0))
  /\ (exists result,
        analyzeWebpage (constructor sample_runtime) testData no_options
        = JS.Returned result
        /\ AnalysisResult.categoryScores result
           = {| faqSchema := 0%Q; schemaMarkup := 0%Q; contentStructure := 42%Q;
                featuredSnippets := 20%Q; entityOptimization := 30%Q;
                metaTags := 19%Q; semanticHtml := 40%Q; voiceSearch := 30%Q;
                knowledgeGraph := 30%Q; technicalSeo := 60%Q |}
        /\ AnalysisResult.overallScore result = 3
        /\ weighted_mean (AnalysisResult.categoryScores result) = 21).
Proof.
  split.
  - intros scrapedData quick includeRecommendations.
    rewrite !analyzeWebpage_returns. split.
    + eexists. split; [reflexivity|].
      cbn [AnalysisResult.categoryScores AnalysisResult.overallScore].
      assert (Hfull : fillMissingScores
                        (Collected.categoryScores
                           (gathered (fun _ => Some (constant_analyzer 100%Q))
                              scrapedData
                              (AnalysisOptions.make None quick includeRecommendations)))
                      = {| faqSchema := 100%Q; schemaMarkup := 100%Q;
                           contentStructure := 100%Q; featuredSnippets := 100%Q;
                           entityOptimization := 100%Q; metaTags := 100%Q;
                           semanticHtml := 100%Q; voiceSearch := 100%Q;
                           knowledgeGraph := 100%Q; technicalSeo := 100%Q |}).
      { destruct includeRecommendations as [[|]|]; vm_compute; reflexivity. }
      rewrite Hfull. repeat split.
      intros c. destruct c; reflexivity.
    + eexists. split; [reflexivity|].
      cbn [AnalysisResult.categoryScores AnalysisResult.overallScore].
      assert (Hfull : fillMissingScores
                        (Collected.categoryScores
                           (gathered (fun _ => Some (constant_analyzer 0%Q))
                              scrapedData
                              (AnalysisOptions.make None quick includeRecommendations)))
                      = {| faqSchema := 0%Q; schemaMarkup := 0%Q;
                           contentStructure := 0%Q; featuredSnippets := 0%Q;
                           entityOptimization := 0%Q; metaTags := 0%Q;
                           semanticHtml := 0%Q; voiceSearch := 0%Q;
                           knowledgeGraph := 0%Q; technicalSeo := 0%Q |}).
      { destruct includeRecommendations as [[|]|]; vm_compute; reflexivity. }
      rewrite Hfull. repeat split.
      intros c. destruct c; reflexivity.
  - rewrite analyzeWebpage_returns. eexists. split; [reflexivity|].
    cbn [AnalysisResult.categoryScores AnalysisResult.overallScore].
    assert (Hfull : fillMissingScores
                      (Collected.categoryScores
                         (gathered (constructor sample_runtime) testData no_options))
                    = {| faqSchema := 0%Q; schemaMarkup := 0%Q;
                         contentStructure := 42%Q; featuredSnippets := 20%Q;
                         entityOptimization := 30%Q; metaTags := 19%Q;
                         semanticHtml := 40%Q; voiceSearch := 30%Q;
                         knowledgeGraph := 30%Q; technicalSeo := 60%Q |}).
    { vm_compute. reflexivity. }
    rewrite Hfull. repeat split.
Qed.

(** ** Validation, failures and missing analyzers *)

(** The empty url fails [urlSchema] in every runtime. *)
Lemma urlSchema_rejects_empty (rt : JS.Runtime) : urlSchema rt EmptyString = false.
Proof. unfold urlSchema. apply andb_false_r. Qed.

(** C3, refuted as stated: a document whose url fails the url schema does
    not make [analyzeWebpage] fail.  The page without url is analysed to a
    completed result. *)
Lemma C3_invalid_document_does_not_fail :
  ~ (forall (rt : JS.Runtime) (analyzers : AEOCategory -> option Analyzer)
            (scrapedData : ScrapedData.t) (options : AnalysisOptions.t),
        urlSchema rt (ScrapedData.url scrapedData) = false ->
        exists message,
          analyzeWebpage analyzers scrapedData options = JS.Thrown message).
Proof.
  intros claim.
  destruct (claim sample_runtime (constructor sample_runtime) no_url no_options
              (urlSchema_rejects_empty sample_runtime)) as [message H].
  rewrite analyzeWebpage_returns in H. discriminate H.
Qed.

(** No analyzer of the constructor reads the url of the document. *)
Lemma constructor_ignores_url (rt : JS.Runtime) (c : AEOCategory) (analyzer : Analyzer)
  (url : string) (scrapedData : ScrapedData.t) (quick : option bool) :
  constructor rt c = Some analyzer ->
  analyzer (with_url url scrapedData) quick = analyzer scrapedData quick.
Proof. intros Hc. injection Hc as <-. destruct c; reflexivity. Qed.

Lemma analyze_categories_same (analyzers : AEOCategory -> option Analyzer)
  (d1 d2 : ScrapedData.t) (options : AnalysisOptions.t) :
  (forall c analyzer quick, analyzers c = Some analyzer ->
                            analyzer d1 quick = analyzer d2 quick) ->
  forall cats collected,
    analyze_categories analyzers d1 options cats collected
    = analyze_categories analyzers d2 options cats collected.
Proof.
  intros Hsame cats. induction cats as [|c cats IH]; intros collected; simpl.
  - reflexivity.
  - assert (Hturn : analyze_category analyzers d1 options collected c
                    = analyze_category analyzers d2 options collected c).
    { unfold analyze_category.
      destruct (analyzers c) as [analyzer|] eqn:Hc; [|reflexivity].
      now rewrite (Hsame c analyzer _ Hc). }
    rewrite Hturn.
    destruct (analyze_category analyzers d2 options collected c); simpl;
      [apply IH | reflexivity].
Qed.

(** The handler of the route turns down a request without a valid url at its
    first statement. *)
Lemma validate_rejects_url (rt : JS.Runtime) (uuid : string -> bool)
  (body : JS.value) :
  url_missing_or_malformed rt body ->
  AnalyzeRequest.validate rt uuid body = inl (400, "Invalid request").
Proof.
  intros Hurl. unfold AnalyzeRequest.validate, AnalyzeRequest.safeParse.
  destruct body as [| | | |items|properties]; try reflexivity.
  unfold AnalyzeRequest.url_field.
  destruct (JS.lookup_property "url" properties) as [[| | |url| |]|] eqn:Hfound;
    try reflexivity.
  now rewrite (Hurl properties url eq_refl Hfound).
Qed.

(** C3, amended: [analyzeWebpage] validates nothing.  For every document,
    whatever its url, and all options it returns a completed result: it
    throws nothing, and every requested category that has an analyzer has had
    it run on the document, the score it returned (0 if it threw) being on
    the score card.  The instance of the constructor returns the same for a
    document whatever url is put in it.  The url is checked before, on the
    request: the handler of the route answers 400, "Invalid request", to a
    body whose url is missing, is not a string or is malformed, and goes no
    further. *)
Theorem C3_analyzeWebpage_validates_nothing :
  (forall (analyzers : AEOCategory -> option Analyzer)
          (scrapedData : ScrapedData.t) (options : AnalysisOptions.t),
   exists result,
     analyzeWebpage analyzers scrapedData options = JS.Returned result
     /\ AnalysisResult.status result = COMPLETED
     /\ (forall c analyzer,
           In c (categoriesToAnalyze options) ->
           analyzers c = Some analyzer ->
           score_of (AnalysisResult.categoryScores result) c
           = match analyzer scrapedData (AnalysisOptions.quick options) with
             | JS.Returned r => AnalyzerResult.score r
             | JS.Thrown _ => 0%Q
             end))
  /\ (forall (rt : JS.Runtime) (scrapedData : ScrapedData.t) (url : string)
             (options : AnalysisOptions.t),
        analyzeWebpage (constructor rt) (with_url url scrapedData) options
        = analyzeWebpage (constructor rt) scrapedData options)
  /\ (forall (rt : JS.Runtime) (uuid : string -> bool) (body : JS.value),
        url_missing_or_malformed rt body ->
        AnalyzeRequest.validate rt uuid body = inl (400, "Invalid request")).
Proof.
  split; [|split].
  - intros analyzers scrapedData options.
    rewrite analyzeWebpage_returns. eexists. split; [reflexivity|].
    split; [reflexivity|].
    intros c analyzer Hin Hc. cbn [AnalysisResult.categoryScores].
    apply final_score_recorded; [exact Hin|].
    unfold recorded. rewrite Hc.
    now destruct (analyzer scrapedData (AnalysisOptions.quick options)).
  - intros rt scrapedData url options.
    unfold analyzeWebpage, collect.
    rewrite (analyze_categories_same (constructor rt)
               (with_url url scrapedData) scrapedData options); [reflexivity|].
    intros c analyzer quick Hc. exact (constructor_ignores_url rt c _ _ _ _ Hc).
  - exact validate_rejects_url.
Qed.

(** The witness of C3: a request that names a client and no url. *)
Lemma C3_analyzeWebpage_validates_nothing_witness :
  AnalyzeRequest.validate sample_runtime (fun _ => true) request_without_url
  = inl (400, "Invalid request").
Proof.
  apply (proj2 (proj2 C3_analyzeWebpage_validates_nothing)
           sample_runtime (fun _ => true) request_without_url).
  intros properties url Hbody Hfound.
  injection Hbody as <-. discriminate Hfound.
Defined.

(** C5: isolation of a failure.  Two instances differ at most in the
    analyzer of one category, which throws on the document in the second.
    Both runs return; in the second the category has score 0 and
    contributes neither issue nor recommendation, and every other category
    has the score it has in the first. *)
Theorem C5_failure_is_isolated :
  forall (analyzers analyzers' : AEOCategory -> option Analyzer)
         (failed : AEOCategory) (analyzer : Analyzer) (message : string)
         (scrapedData : ScrapedData.t) (options : AnalysisOptions.t),
    (forall c, c <> failed -> analyzers' c = analyzers c) ->
    analyzers' failed = Some analyzer ->
    analyzer scrapedData (AnalysisOptions.quick options) = JS.Thrown message ->
    exists result result',
      analyzeWebpage analyzers scrapedData options = JS.Returned result
      /\ analyzeWebpage analyzers' scrapedData options = JS.Returned result'
      /\ AnalysisResult.status result' = COMPLETED
      /\ score_of (AnalysisResult.categoryScores result') failed = 0%Q
      /\ (forall i, In i (AnalysisResult.issues result') ->
                    CategoryIssue.category i <> failed)
      /\ (forall x, In x (AnalysisResult.recommendations result') ->
                    CategoryRecommendation.category x <> failed)
      /\ (forall c, c <> failed ->
                    score_of (AnalysisResult.categoryScores result') c
                    = score_of (AnalysisResult.categoryScores result) c).
Proof.
  intros analyzers analyzers' failed analyzer message scrapedData options
    Hsame Hfailed Hthrow.
  rewrite !analyzeWebpage_returns. do 2 eexists.
  split; [reflexivity|]. split; [reflexivity|]. split; [reflexivity|].
  cbn [AnalysisResult.categoryScores AnalysisResult.issues
         AnalysisResult.recommendations].
  assert (Hrec : recorded analyzers' scrapedData options failed = Some 0%Q).
  { unfold recorded. now rewrite Hfailed, Hthrow. }
  split; [|split; [|split]].
  - destruct (in_dec AEOCategory_eq_dec failed (categoriesToAnalyze options)).
    + now apply final_score_recorded.
    + apply final_score_skipped. now left.
  - intros i. apply silent_category_issues.
    unfold emitted_issues. now rewrite Hfailed, Hthrow.
  - intros x. apply silent_category_recommendations.
    unfold emitted_recommendations. rewrite Hfailed, Hthrow.
    now destruct (AnalysisOptions.includeRecommendations options) as [[|]|].
  - intros c Hc.
    assert (Heq : recorded analyzers' scrapedData options c
                  = recorded analyzers scrapedData options c).
    { unfold recorded. now rewrite (Hsame c Hc). }
    destruct (in_dec AEOCategory_eq_dec c (categoriesToAnalyze options)) as [Hin|Hout].
    + destruct (recorded analyzers scrapedData options c) as [s|] eqn:Hs.
      * rewrite (final_score_recorded analyzers' _ _ c s Hin Heq).
        now rewrite (final_score_recorded analyzers _ _ c s Hin Hs).
      * rewrite !final_score_skipped; auto.
    + rewrite !final_score_skipped; auto.
Qed.

(** The witness of C5: on a page whose FAQ block holds a single question
    where a list is read, the FAQ analyzer of the constructor throws; the
    other instance has a constant analyzer in its place. *)
Lemma C5_failure_is_isolated_witness :
  exists result result',
    analyzeWebpage
      (replaced (constructor sample_runtime) FAQ_SCHEMA (Some (constant_analyzer 70%Q)))
      (with_schemas [faq_block (question "What is an answer engine?" twenty_words)])
      no_options = JS.Returned result
    /\ analyzeWebpage (constructor sample_runtime)
         (with_schemas [faq_block (question "What is an answer engine?" twenty_words)])
         no_options = JS.Returned result'
    /\ AnalysisResult.status result' = COMPLETED
    /\ score_of (AnalysisResult.categoryScores result') FAQ_SCHEMA = 0%Q
    /\ (forall i, In i (AnalysisResult.issues result') ->
                  CategoryIssue.category i <> FAQ_SCHEMA)
    /\ (forall x, In x (AnalysisResult.recommendations result') ->
                  CategoryRecommendation.category x <> FAQ_SCHEMA)
    /\ (forall c, c <> FAQ_SCHEMA ->
                  score_of (AnalysisResult.categoryScores result') c
                  = score_of (AnalysisResult.categoryScores result) c).
Proof.
  apply (C5_failure_is_isolated
           (replaced (constructor sample_runtime) FAQ_SCHEMA
              (Some (constant_analyzer 70%Q)))
           (constructor sample_runtime) FAQ_SCHEMA
           (FAQSchemaAnalyzer.analyze sample_runtime)
           "TypeError: faqEntries is not iterable").
  - intros c Hc. destruct c; try reflexivity. now elim Hc.
  - reflexivity.
  - vm_compute. reflexivity.
Defined.

(** C10: a category without analyzer.  [getCategorySummary] throws, while
    [analyzeWebpage] returns a completed result in which the category has
    score 0 and no issue or recommendation. *)
Theorem C10_missing_analyzer :
  forall (analyzers : AEOCategory -> option Analyzer)
         (scrapedData : ScrapedData.t) (category : AEOCategory),
    analyzers category = None ->
    getCategorySummary analyzers scrapedData category
    = JS.Thrown (JS.template ["No analyzer found for category: ";
                              category_value category])
    /\ forall options,
       exists result,
         analyzeWebpage analyzers scrapedData options = JS.Returned result
         /\ AnalysisResult.status result = COMPLETED
         /\ score_of (AnalysisResult.categoryScores result) category = 0%Q
         /\ (forall i, In i (AnalysisResult.issues result) ->
                       CategoryIssue.category i <> category)
         /\ (forall x, In x (AnalysisResult.recommendations result) ->
                       CategoryRecommendation.category x <> category).
Proof.
  intros analyzers scrapedData category Hnone. split.
  - unfold getCategorySummary. now rewrite Hnone.
  - intros options. rewrite analyzeWebpage_returns. eexists.
    split; [reflexivity|]. split; [reflexivity|].
    cbn [AnalysisResult.categoryScores AnalysisResult.issues
           AnalysisResult.recommendations].
    split; [|split].
    + apply final_score_skipped. right. unfold recorded. now rewrite Hnone.
    + intros i. apply silent_category_issues.
      unfold emitted_issues. now rewrite Hnone.
    + intros x. apply silent_category_recommendations.
      unfold emitted_recommendations. now rewrite Hnone.
Qed.

(** The witness of C10: the instance of the constructor without its voice
    search analyzer, on the test page. *)
Lemma C10_missing_analyzer_witness :
  getCategorySummary (replaced (constructor sample_runtime) VOICE_SEARCH None)
    testData VOICE_SEARCH
  = JS.Thrown "No analyzer found for category: voice_search"
  /\ forall options,
     exists result,
       analyzeWebpage (replaced (constructor sample_runtime) VOICE_SEARCH None)
         testData options = JS.Returned result
       /\ AnalysisResult.status result = COMPLETED
       /\ score_of (AnalysisResult.categoryScores result) VOICE_SEARCH = 0%Q
       /\ (forall i, In i (AnalysisResult.issues result) ->
                     CategoryIssue.category i <> VOICE_SEARCH)
       /\ (forall x, In x (AnalysisResult.recommendations result) ->
                     CategoryRecommendation.category x <> VOICE_SEARCH).
Proof.
  apply (C10_missing_analyzer
           (replaced (constructor sample_runtime) VOICE_SEARCH None)
           testData VOICE_SEARCH).
  reflexivity.
Defined.

(** ** Order of the issues and recommendations *)



(** ** The heading hierarchy *)

Lemma skips_level_short (h : Heading.t) : ~ skips_level [h].
Proof.
  intros (before & previous & current & after & Heq & _).
  apply (f_equal (@List.length _)) in Heq.
  rewrite length_app in Heq. simpl in Heq. lia.
Qed.

Lemma skips_level_cons (previous current : Heading.t) (rest : list Heading.t) :
  skips_level (previous :: current :: rest)
  <-> Heading.level current > Heading.level previous + 1
      \/ skips_level (current :: rest).
Proof.
  split.
  - intros (before & p & c & after & Heq & Hjump).
    destruct before as [|b before]; simpl in Heq.
    + injection Heq as -> -> _. now left.
    + injection Heq as -> Heq. right.
      exists before, p, c, after. now split.
  - intros [Hjump | (before & p & c & after & Heq & Hjump)].
    + exists [], previous, current, rest. now split.
    + exists (previous :: before), p, c, after. simpl. now rewrite Heq.
Qed.

(** The loop ends with [isValid] false when it was false already or some
    heading skips a level. *)
Lemma check_hierarchy_invalid (rest : list Heading.t) :
  forall (previous : Heading.t) (state : bool * list string),
    fst (BaseAnalyzer.check_hierarchy previous rest state) = false
    <-> fst state = false \/ skips_level (previous :: rest).
Proof.
  induction rest as [|current rest IH]; intros previous state; simpl.
  - split; [now left | intros [Hs|Hs]; [exact Hs | now apply skips_level_short in Hs]].
  - rewrite IH, skips_level_cons.
    destruct (Z.gtb_spec (Heading.level current) (Heading.level previous + 1));
      simpl; split.
    + intros _. right. left. lia.
    + intros _. now left.
    + intros [Hs|Hs]; [now left | right; now right].
    + intros [Hs|[Hs|Hs]]; [now left | lia | now right].
Qed.

Lemma h1_count_nonneg (headings : list Heading.t) : 0 <= h1_count headings.
Proof. unfold h1_count. lia. Qed.

(** C4, refuted as stated: a single level-2 heading meets none of the three
    listed conditions and is reported invalid. *)
Lemma C4_missing_h1_is_invalid :
  fst (BaseAnalyzer.validateHeadingStructure [heading 2 "Overview"]) = false
  /\ ~ listed_condition [heading 2 "Overview"].
Proof.
  split; [reflexivity|].
  intros [Hc | [Hc | Hc]].
  - discriminate Hc.
  - vm_compute in Hc. discriminate Hc.
  - exact (skips_level_short _ Hc).
Qed.

(** C4, amended: the validator returns invalid exactly when there is no
    heading, no level-1 heading, more than one level-1 heading, or a heading
    whose level exceeds that of the heading before it by more than 1.  The
    sequence H1,H3 is invalid and H1,H2,H2,H3 is valid. *)
Theorem C4_invalid_hierarchy :
  (forall headings,
     fst (BaseAnalyzer.validateHeadingStructure headings) = false
     <-> headings = [] \/ h1_count headings = 0 \/ h1_count headings > 1
         \/ skips_level headings)
  /\ (forall a b,
        fst (BaseAnalyzer.validateHeadingStructure [heading 1 a; heading 3 b])
        = false)
  /\ (forall a b c d,
        fst (BaseAnalyzer.validateHeadingStructure
               [heading 1 a; heading 2 b; heading 2 c; heading 3 d])
        = true).
Proof.
  split; [|split; reflexivity].
  intros headings. destruct headings as [|first rest].
  - simpl. split; [now left | reflexivity].
  - unfold BaseAnalyzer.validateHeadingStructure.
    fold (h1_count (first :: rest)).
    pose proof (h1_count_nonneg (first :: rest)) as Hcount.
    rewrite check_hierarchy_invalid.
    destruct (Z.eqb_spec (h1_count (first :: rest)) 0) as [H0|H0]; simpl.
    + split; [intros _; right; now left | intros _; now left].
    + destruct (Z.gtb_spec (h1_count (first :: rest)) 1) as [H1|H1]; simpl.
      * split; [intros _; right; right; left; lia | intros _; now left].
      * split.
        -- intros [Hs|Hs]; [discriminate Hs | now repeat right].
        -- intros [Hs|[Hs|[Hs|Hs]]]; [discriminate Hs | lia | lia | now right].
Qed.

(** ** The length checks of the meta-tags analyzer *)

Lemma trimStart_blank (s : string) : blank s = true -> JS.trimStart s = EmptyString.
Proof.
  induction s as [|c s IH]; [reflexivity|]. simpl.
  destruct (JS.isWhiteSpace c); [exact IH | discriminate].
Qed.

Lemma trimStart_not_blank (s : string) :
  blank s = false ->
  exists c t, JS.trimStart s = String c t /\ JS.isWhiteSpace c = false.
Proof.
  induction s as [|c s IH]; [discriminate|]. simpl.
  destruct (JS.isWhiteSpace c) eqn:Hc; [exact IH|].
  intros _. now exists c, s.
Qed.

Lemma trimEnd_keeps_head (c : ascii) (t : string) :
  JS.isWhiteSpace c = false -> JS.trimEnd (String c t) <> EmptyString.
Proof.
  intros Hc. simpl. rewrite Hc. now destruct (JS.trimEnd t).
Qed.

(** The guard of the title and description checks,
    [!text || text.trim().length === 0], holds of the blank texts. *)
Lemma missing_blank (text : string) : MetaTagsAnalyzer.missing text = blank text.
Proof.
  unfold MetaTagsAnalyzer.missing, JS.trim.
  destruct (blank text) eqn:Hblank.
  - rewrite (trimStart_blank text Hblank). apply orb_true_r.
  - destruct (trimStart_not_blank text Hblank) as (c & t & -> & Hc).
    pose proof (trimEnd_keeps_head c t Hc) as Hkept.
    destruct text as [|d text]; [discriminate Hblank|].
    destruct (JS.trimEnd (String c t)) as [|e rest]; [now elim Hkept|].
    reflexivity.
Qed.

(** The length checks include their bounds. *)
Lemma length_branch_edges :
  MetaTagsAnalyzer.title_length_branch 29 = MetaTagsAnalyzer.TooShort
  /\ MetaTagsAnalyzer.title_length_branch 30 = MetaTagsAnalyzer.GoodLength
  /\ MetaTagsAnalyzer.title_length_branch 60 = MetaTagsAnalyzer.GoodLength
  /\ MetaTagsAnalyzer.title_length_branch 61 = MetaTagsAnalyzer.TooLong
  /\ MetaTagsAnalyzer.description_length_branch 119 = MetaTagsAnalyzer.TooShort
  /\ MetaTagsAnalyzer.description_length_branch 120 = MetaTagsAnalyzer.GoodLength
  /\ MetaTagsAnalyzer.description_length_branch 160 = MetaTagsAnalyzer.GoodLength
  /\ MetaTagsAnalyzer.description_length_branch 161 = MetaTagsAnalyzer.TooLong.
Proof. repeat split. Qed.

(** C9, refuted as stated: a title of 55 characters that are all spaces is
    treated as a missing title and never reaches the length check. *)
Lemma C9_blank_title_is_missing :
  JS.length blank_55 = 55
  /\ MetaTagsAnalyzer.analyzeTitleTag blank_55 []
     = (0, [AnalyzerIssue.make CRITICAL "Missing Title Tag"
              "No title tag found on the page"
              "Severely impacts search engine rankings and click-through rates"
              true])
  /\ MetaTagsAnalyzer.analyzeTitleTag blank_55 []
     <> MetaTagsAnalyzer.title_after_length blank_55 (50 + 20) [].
Proof.
  split; [reflexivity|]. split; [reflexivity|].
  vm_compute. intros H. discriminate H.
Qed.

(** C9, amended: a title of exactly 55 characters that is not blank takes
    the good-length branch of the title check: the score goes from 50 to 70
    and no issue is pushed there.  A description of exactly 155 characters
    that is not blank takes the good-length branch of the description check:
    the score goes from 50 to 75 and no issue is pushed there. *)
Theorem C9_good_length_branches :
  (forall title issues,
     blank title = false ->
     JS.length title = 55 ->
     MetaTagsAnalyzer.title_length_branch (JS.length title)
     = MetaTagsAnalyzer.GoodLength
     /\ MetaTagsAnalyzer.analyzeTitleTag title issues
        = MetaTagsAnalyzer.title_after_length title (50 + 20) issues)
  /\ (forall description issues,
        blank description = false ->
        JS.length description = 155 ->
        MetaTagsAnalyzer.description_length_branch (JS.length description)
        = MetaTagsAnalyzer.GoodLength
        /\ MetaTagsAnalyzer.analyzeMetaDescription description issues
           = MetaTagsAnalyzer.description_after_length description (50 + 25) issues).
Proof.
  split.
  - intros title issues Hthere Hlength.
    unfold MetaTagsAnalyzer.analyzeTitleTag.
    rewrite missing_blank, Hthere, Hlength. split; reflexivity.
  - intros description issues Hthere Hlength.
    unfold MetaTagsAnalyzer.analyzeMetaDescription.
    rewrite missing_blank, Hthere, Hlength. split; reflexivity.
Qed.

(** The witness of C9: a title of 55 characters and a description of 155. *)
Lemma C9_good_length_branches_witness :
  (MetaTagsAnalyzer.title_length_branch (JS.length title_55)
   = MetaTagsAnalyzer.GoodLength
   /\ MetaTagsAnalyzer.analyzeTitleTag title_55 []
      = MetaTagsAnalyzer.title_after_length title_55 (50 + 20) [])
  /\ (MetaTagsAnalyzer.description_length_branch (JS.length description_155)
      = MetaTagsAnalyzer.GoodLength
      /\ MetaTagsAnalyzer.analyzeMetaDescription description_155 []
         = MetaTagsAnalyzer.description_after_length description_155 (50 + 25) []).
Proof.
  split.
  - apply (proj1 C9_good_length_branches title_55 []); reflexivity.
  - apply (proj2 C9_good_length_branches description_155 []); reflexivity.
Defined.

(** ** The FAQ analyzer *)








(** The pieces of a text without white space at its end are not empty,
    the first apart when the text starts with white space. *)
Lemma split_whitespace_pieces (s : string) :
  JS.trimEnd s = s -> s <> EmptyString ->
  List.Forall (fun piece => BaseAnalyzer.nonempty piece = true)
    (JS.split_runs JS.isWhiteSpace true s)
  /\ List.Forall (fun piece => BaseAnalyzer.nonempty piece = true)
       (List.tl (JS.split_runs JS.isWhiteSpace false s))
  /\ (JS.trimStart s = s ->
      List.Forall (fun piece => BaseAnalyzer.nonempty piece = true)
        (JS.split_runs JS.isWhiteSpace false s)).
Proof.
  induction s as [|c s IH]; intros Hend Hsome; [now elim Hsome|].
  assert (Hcases : (s = EmptyString /\ JS.isWhiteSpace c = false)
                   \/ (JS.trimEnd s = s /\ s <> EmptyString)).
  { simpl in Hend. destruct (JS.trimEnd s) as [|d t] eqn:Htrim.
    - destruct (JS.isWhiteSpace c); [discriminate Hend|].
      injection Hend as <-. now left.
    - injection Hend as <-. right. split; [reflexivity | discriminate]. }
  destruct Hcases as [[-> Hc]|[Hend' Hsome']].
  - simpl. rewrite Hc. repeat split; repeat constructor.
  - destruct (IH Hend' Hsome') as (Hrun & Htail & _).
    cbn [JS.split_runs JS.trimStart].
    destruct (JS.isWhiteSpace c) eqn:Hc.
    + repeat split; [exact Hrun | exact Hrun|].
      intros Hstart. exfalso.
      assert (Hshort : (String.length (JS.trimStart s) <= String.length s)%nat).
      { clear. induction s as [|d s IH]; simpl; [lia|].
        destruct (JS.isWhiteSpace d); simpl; lia. }
      rewrite Hstart in Hshort. simpl in Hshort. lia.
    + destruct (JS.split_runs JS.isWhiteSpace false s) as [|piece pieces];
        cbn [List.tl] in *.
      * repeat split; repeat constructor.
      * repeat split; try (constructor; [reflexivity | exact Htail]).
        exact Htail.
Qed.

(** For a text without white space at its start or its end, the pieces the
    FAQ analyzer counts are the words [countWords] counts. *)
Lemma answer_words_unpadded (text : string) :
  unpadded text -> text <> EmptyString ->
  answer_words text = BaseAnalyzer.countWords text.
Proof.
  intros [Hstart Hend] Hsome.
  unfold answer_words, BaseAnalyzer.countWords, JS.trim.
  rewrite Hstart, Hend. unfold JS.split_whitespace.
  destruct (split_whitespace_pieces text Hend Hsome) as (_ & _ & Hall).
  specialize (Hall Hstart).
  induction Hall as [|piece pieces Hpiece _ IH]; [reflexivity|].
  cbn [List.filter]. rewrite Hpiece. cbn [List.length]. lia.
Qed.





(** ** The range of the scores of the analyzers *)

Lemma Math_min_100_in_range (x : JS.number) :
  (0 <= x)%Q -> in_range (JS.Math_min 100 x).
Proof.
  intros Hx. unfold in_range, JS.Math_min. split.
  - apply Q.min_glb; [lra | exact Hx].
  - apply Q.le_min_l.
Qed.

Lemma of_int_nonneg (z : Z) : 0 <= z -> (0 <= JS.of_int z)%Q.
Proof. intros Hz. unfold JS.of_int, Qle. simpl. lia. Qed.

Lemma sum_numbers_nonneg (xs : list JS.number) :
  List.Forall (fun x => 0 <= x)%Q xs -> (0 <= BaseAnalyzer.sum_numbers xs)%Q.
Proof.
  unfold BaseAnalyzer.sum_numbers.
  assert (H : forall acc, (0 <= acc)%Q ->
                          List.Forall (fun x => 0 <= x)%Q xs ->
                          (0 <= List.fold_left Qplus xs acc)%Q).
  { induction xs as [|x xs IH]; intros acc Hacc Hxs; simpl; [exact Hacc|].
    inversion Hxs as [|? ? Hx Hrest]; subst. apply IH; [lra | exact Hrest]. }
  apply H. lra.
Qed.

Lemma Math_round_nonneg (x : JS.number) : (0 <= x)%Q -> 0 <= JS.Math_round x.
Proof.
  intros Hx. unfold JS.Math_round.
  change 0 with (Qfloor 0). apply Qfloor_resp_le. lra.
Qed.

(** A blend of scores that are not negative, with weights that are not
    negative, is not negative. *)
Lemma calculateScore_nonneg (factors : list (JS.number * JS.number)) :
  List.Forall (fun f => 0 <= fst f /\ 0 <= snd f)%Q factors ->
  0 <= BaseAnalyzer.calculateScore factors.
Proof.
  intros Hfactors. unfold BaseAnalyzer.calculateScore.
  set (totalWeight := BaseAnalyzer.sum_numbers (List.map fst factors)).
  set (weightedSum := BaseAnalyzer.sum_numbers _).
  destruct (JS.gtb totalWeight 0) eqn:Hpositive; [|lia].
  apply Math_round_nonneg.
  assert (Hweight : (0 < totalWeight)%Q).
  { unfold JS.gtb, JS.ltb in Hpositive.
    apply negb_true_iff in Hpositive.
    destruct (Qlt_le_dec 0 totalWeight) as [Hlt|Hle]; [exact Hlt|].
    apply Qle_bool_iff in Hle. congruence. }
  assert (Hsum : (0 <= weightedSum)%Q).
  { apply sum_numbers_nonneg. rewrite List.Forall_map.
    eapply List.Forall_impl; [|exact Hfactors].
    intros f [Hw Hs]. simpl. now apply Qmult_le_0_compat. }
  apply Qle_shift_div_l; [exact Hweight | lra].
Qed.

Ltac constant_score :=
  intros scrapedData quick result Hrun;
  injection Hrun as <-; cbn [AnalyzerResult.score];
  repeat match goal with |- context [if ?b then _ else _] => destruct b end;
  unfold in_range; split; lra.

Lemma SemanticHTMLAnalyzer_bounded : bounded SemanticHTMLAnalyzer.analyze.
Proof. unfold bounded, SemanticHTMLAnalyzer.analyze. constant_score. Qed.

Lemma VoiceSearchAnalyzer_bounded : bounded VoiceSearchAnalyzer.analyze.
Proof. unfold bounded, VoiceSearchAnalyzer.analyze. constant_score. Qed.

Lemma FeaturedSnippetsAnalyzer_bounded : bounded FeaturedSnippetsAnalyzer.analyze.
Proof. unfold bounded, FeaturedSnippetsAnalyzer.analyze. constant_score. Qed.

Lemma KnowledgeGraphAnalyzer_bounded : bounded KnowledgeGraphAnalyzer.analyze.
Proof. unfold bounded, KnowledgeGraphAnalyzer.analyze. constant_score. Qed.

Lemma EntityOptimizationAnalyzer_bounded (rt : JS.Runtime) :
  bounded (EntityOptimizationAnalyzer.analyze rt).
Proof. unfold bounded, EntityOptimizationAnalyzer.analyze. constant_score. Qed.

Lemma TechnicalSEOAnalyzer_bounded (rt : JS.Runtime) :
  bounded (TechnicalSEOAnalyzer.analyze rt).
Proof.
  unfold bounded, TechnicalSEOAnalyzer.analyze.
  intros scrapedData quick result Hrun.
  injection Hrun as <-. cbn [AnalyzerResult.score].
  destruct (JS.gtb (PerformanceMetrics.loadTime _) 3000),
    (JS.gtb (PerformanceMetrics.pageSize _) 3000000),
    (match PerformanceMetrics.coreWebVitals _ with Some _ => _ | None => _ end);
    unfold in_range; split; lra.
Qed.

Lemma ContentStructureAnalyzer_bounded (rt : JS.Runtime) :
  bounded (ContentStructureAnalyzer.analyze rt).
Proof.
  unfold bounded, ContentStructureAnalyzer.analyze.
  intros scrapedData quick result Hrun.
  unfold ContentStructureAnalyzer.analyzeHeadingStructure,
    ContentStructureAnalyzer.analyzeContentReadability,
    ContentStructureAnalyzer.analyzeContentStructure in Hrun.
  destruct (negb (fst (BaseAnalyzer.validateHeadingStructure _))),
    (JS.ltb (BaseAnalyzer.Readability.score _) 60),
    (BaseAnalyzer.countWords _ <? 300);
    injection Hrun as <-; cbn [AnalyzerResult.score];
    vm_compute; split; discriminate.
Qed.

Lemma count_present_nonneg (map : gmap string string) (important : list string) :
  0 <= MetaTagsAnalyzer.count_present map important.
Proof. unfold MetaTagsAnalyzer.count_present. lia. Qed.

Lemma analyzeTitleTag_nonneg (title : string) (issues : list AnalyzerIssue.t) :
  0 <= fst (MetaTagsAnalyzer.analyzeTitleTag title issues).
Proof.
  unfold MetaTagsAnalyzer.analyzeTitleTag, MetaTagsAnalyzer.title_after_length.
  destruct (MetaTagsAnalyzer.missing title); [simpl; lia|].
  destruct (MetaTagsAnalyzer.title_length_branch _); simpl; lia.
Qed.

Lemma analyzeMetaDescription_nonneg (description : string)
  (issues : list AnalyzerIssue.t) :
  0 <= fst (MetaTagsAnalyzer.analyzeMetaDescription description issues).
Proof.
  unfold MetaTagsAnalyzer.analyzeMetaDescription,
    MetaTagsAnalyzer.description_after_length.
  destruct (MetaTagsAnalyzer.missing description); [simpl; lia|].
  destruct (MetaTagsAnalyzer.description_length_branch _); simpl; lia.
Qed.

Lemma analyzeMetaTags_nonneg (tags : list MetaTag.t) (issues : list AnalyzerIssue.t) :
  0 <= fst (MetaTagsAnalyzer.analyzeMetaTags tags issues).
Proof.
  unfold MetaTagsAnalyzer.analyzeMetaTags. cbn [fst].
  match goal with
  | |- context [MetaTagsAnalyzer.count_present ?m ?l] =>
      pose proof (count_present_nonneg m l)
  end.
  lia.
Qed.

(** An [og:image] tag is one of the important tags, so the penalty of an
    invalid image never outweighs the points of the tags found. *)
Lemma og_image_counted (map : gmap string string) :
  MetaTagsAnalyzer.has map "og:image" = true ->
  1 <= MetaTagsAnalyzer.count_present map MetaTagsAnalyzer.IMPORTANT_OG_TAGS.
Proof.
  intros Himage.
  unfold MetaTagsAnalyzer.count_present, MetaTagsAnalyzer.IMPORTANT_OG_TAGS.
  cbn [List.filter]. rewrite Himage.
  destruct (MetaTagsAnalyzer.has map "og:title"),
    (MetaTagsAnalyzer.has map "og:description"),
    (MetaTagsAnalyzer.has map "og:url"),
    (MetaTagsAnalyzer.has map "og:type"); cbn [List.length]; lia.
Qed.

Lemma analyzeOpenGraphTags_nonneg (rt : JS.Runtime) (tags : list OpenGraphTag.t)
  (issues : list AnalyzerIssue.t) :
  0 <= fst (MetaTagsAnalyzer.analyzeOpenGraphTags rt tags issues).
Proof.
  unfold MetaTagsAnalyzer.analyzeOpenGraphTags.
  destruct (Z.of_nat (List.length tags) =? 0); [simpl; lia|].
  cbn [fst].
  match goal with
  | |- context [MetaTagsAnalyzer.count_present ?m ?l] =>
      pose proof (count_present_nonneg m l) as Hcount;
      pose proof (og_image_counted m) as Himage;
      unfold MetaTagsAnalyzer.has in Himage;
      destruct (m !! "og:image") as [imageUrl|]
  end.
  - destruct (negb (BaseAnalyzer.isValidUrl rt imageUrl));
      specialize (Himage eq_refl); lia.
  - lia.
Qed.

Lemma analyzeTwitterTags_nonneg (tags : list MetaTag.t) (issues : list AnalyzerIssue.t) :
  0 <= fst (MetaTagsAnalyzer.analyzeTwitterTags tags issues).
Proof.
  unfold MetaTagsAnalyzer.analyzeTwitterTags.
  match goal with |- context [if ?b then _ else _] => destruct b end;
    cbn [fst]; [lia|].
  match goal with
  | |- context [MetaTagsAnalyzer.count_present ?m ?l] =>
      pose proof (count_present_nonneg m l)
  end.
  lia.
Qed.

Lemma MetaTagsAnalyzer_bounded (rt : JS.Runtime) : bounded (MetaTagsAnalyzer.analyze rt).
Proof.
  unfold bounded, MetaTagsAnalyzer.analyze.
  intros scrapedData quick result Hrun.
  pose proof (analyzeTitleTag_nonneg (ScrapedData.title scrapedData) []) as Htitle.
  destruct (MetaTagsAnalyzer.analyzeTitleTag _ _) as [titleScore issues1].
  pose proof (analyzeMetaDescription_nonneg
                (ScrapedData.metaDescription scrapedData) issues1) as Hdescription.
  destruct (MetaTagsAnalyzer.analyzeMetaDescription _ _)
    as [descriptionScore issues2].
  pose proof (analyzeMetaTags_nonneg (ScrapedData.metaTags scrapedData) issues2)
    as Htags.
  destruct (MetaTagsAnalyzer.analyzeMetaTags _ _) as [metaTagsScore issues3].
  pose proof (analyzeOpenGraphTags_nonneg rt
                (ScrapedData.openGraphTags scrapedData) issues3) as Hog.
  destruct (MetaTagsAnalyzer.analyzeOpenGraphTags _ _ _) as [ogScore issues4].
  pose proof (analyzeTwitterTags_nonneg (ScrapedData.metaTags scrapedData) issues4)
    as Htwitter.
  destruct (MetaTagsAnalyzer.analyzeTwitterTags _ _) as [twitterScore issues5].
  cbn [fst] in *.
  injection Hrun as <-. cbn [AnalyzerResult.score].
  apply Math_min_100_in_range, of_int_nonneg, calculateScore_nonneg.
  repeat constructor; cbn [fst snd]; try lra; now apply of_int_nonneg.
Qed.

(** The quality score only grows along the entries. *)
Lemma evaluate_entries_grows (rt : JS.Runtime) (entries : list JS.value) :
  forall q q',
    FAQSchemaAnalyzer.evaluate_entries rt q entries = JS.Returned q' -> (q <= q')%Q.
Proof.
  induction entries as [|entry entries IH]; intros q q' Hrun.
  - injection Hrun as <-. lra.
  - cbn [FAQSchemaAnalyzer.evaluate_entries] in Hrun.
    destruct (FAQSchemaAnalyzer.evaluate_entry rt q entry) as [q1|] eqn:Hentry;
      [|discriminate Hrun].
    cbn [JS.bind] in Hrun. apply IH in Hrun.
    assert (Hstep : (q <= q1)%Q).
    { unfold FAQSchemaAnalyzer.evaluate_entry in Hentry.
      destruct (JS.get entry "name"); [|discriminate Hentry].
      cbn [JS.bind] in Hentry.
      destruct (FAQSchemaAnalyzer.acceptedAnswer_text entry); [|discriminate Hentry].
      cbn [JS.bind] in Hentry.
      destruct (FAQSchemaAnalyzer.isGoodQuestion rt _) as [goodQuestion|];
        [|discriminate Hentry].
      cbn [JS.bind] in Hentry.
      destruct (FAQSchemaAnalyzer.isGoodAnswer _) as [goodAnswer|];
        [|discriminate Hentry].
      cbn [JS.bind] in Hentry. injection Hentry as <-.
      destruct goodQuestion, goodAnswer; lra. }
    lra.
Qed.

Lemma validate_quality_nonneg (rt : JS.Runtime) (faqData : list (string * JS.value))
  (score : JS.number) (issues : list AnalyzerIssue.t)
  (recommendations : list AnalyzerRecommendation.t) :
  FAQSchemaAnalyzer.validate_quality rt faqData
  = JS.Returned (score, issues, recommendations) ->
  (0 <= score)%Q.
Proof.
  unfold FAQSchemaAnalyzer.validate_quality.
  set (mainEntity := match JS.lookup_property "mainEntity" faqData with
                     | Some v => _
                     | None => _
                     end).
  destruct (JS.strict_equal _ 0); [intros H; injection H as <- _ _; lra|].
  destruct (JS.less_than rt _ 3); [intros H; injection H as <- _ _; lra|].
  unfold FAQSchemaAnalyzer.evaluateFAQQuality.
  destruct (FAQSchemaAnalyzer.iterate mainEntity) as [entries|]; [|discriminate].
  cbn [JS.bind].
  destruct (FAQSchemaAnalyzer.evaluate_entries rt 70%Q entries) as [q|] eqn:Hq;
    [|discriminate].
  cbn [JS.bind]. intros H. injection H as <- _ _.
  apply evaluate_entries_grows in Hq.
  apply Math_min_100_in_range. lra.
Qed.

Lemma FAQSchemaAnalyzer_bounded (rt : JS.Runtime) :
  bounded (FAQSchemaAnalyzer.analyze rt).
Proof.
  unfold bounded, FAQSchemaAnalyzer.analyze.
  intros scrapedData quick result Hrun.
  destruct (JS.filterM _ _) as [faqSchemas|]; [|discriminate Hrun].
  cbn [JS.bind] in Hrun.
  match type of Hrun with
  | JS.bind ?m _ = _ => destruct m as [[[score issues] recommendations]|] eqn:Hinner
  end; [|discriminate Hrun].
  cbn [JS.bind] in Hrun. injection Hrun as <-. cbn [AnalyzerResult.score].
  apply Math_min_100_in_range.
  destruct faqSchemas as [|schema faqSchemas].
  - injection Hinner as <- _ _. lra.
  - destruct (List.filter SchemaMarkup.isValid (schema :: faqSchemas)) as [|first rest].
    + injection Hinner as <- _ _. lra.
    + eapply validate_quality_nonneg, Hinner.
Qed.

Lemma points_nonneg (data : list (string * JS.value)) (table : list (string * Z)) :
  List.Forall (fun entry => 0 <= snd entry) table ->
  0 <= SchemaMarkupAnalyzer.points data table.
Proof.
  unfold SchemaMarkupAnalyzer.points.
  assert (H : forall score, 0 <= score ->
                            List.Forall (fun entry => 0 <= snd entry) table ->
                            0 <= List.fold_left
                                   (fun score entry =>
                                      if SchemaMarkupAnalyzer.present data (fst entry)
                                      then score + snd entry else score)
                                   table score).
  { induction table as [|entry table IH]; intros score Hscore Htable; simpl;
      [exact Hscore|].
    inversion Htable as [|? ? Hentry Hrest]; subst.
    apply IH; [|exact Hrest].
    destruct (SchemaMarkupAnalyzer.present data (fst entry)); lia. }
  apply H. lia.
Qed.

Lemma schemaScore_nonneg (schema : SchemaMarkup.t) :
  0 <= SchemaMarkupAnalyzer.schemaScore schema.
Proof.
  unfold SchemaMarkupAnalyzer.schemaScore,
    SchemaMarkupAnalyzer.evaluateArticleSchema,
    SchemaMarkupAnalyzer.evaluateOrganizationSchema,
    SchemaMarkupAnalyzer.evaluateLocalBusinessSchema,
    SchemaMarkupAnalyzer.evaluateProductSchema,
    SchemaMarkupAnalyzer.evaluateGenericSchema.
  repeat match goal with |- context [if ?b then _ else _] => destruct b end;
    try (apply points_nonneg; repeat constructor; simpl; lia).
  match goal with
  | |- context [SchemaMarkupAnalyzer.points ?d ?t] =>
      assert (0 <= SchemaMarkupAnalyzer.points d t)
        by (apply points_nonneg; repeat constructor; simpl; lia)
  end.
  lia.
Qed.

Lemma evaluateSchemaCompleteness_nonneg (schemas : list SchemaMarkup.t) :
  (0 <= SchemaMarkupAnalyzer.evaluateSchemaCompleteness schemas)%Q.
Proof.
  unfold SchemaMarkupAnalyzer.evaluateSchemaCompleteness.
  set (total := List.fold_left _ schemas 0).
  assert (Htotal : 0 <= total).
  { subst total.
    assert (H : forall acc, 0 <= acc ->
                0 <= List.fold_left
                       (fun total schema =>
                          total + SchemaMarkupAnalyzer.schemaScore schema)
                       schemas acc).
    { induction schemas as [|schema schemas IH]; intros acc Hacc; simpl;
        [exact Hacc|].
      apply IH. pose proof (schemaScore_nonneg schema). lia. }
    apply H. lia. }
  unfold JS.Math_min. apply Q.min_glb; [lra|].
  unfold Qdiv. apply Qmult_le_0_compat; [now apply of_int_nonneg|].
  apply Qinv_le_0_compat, of_int_nonneg. lia.
Qed.

Lemma calculateSchemaScore_nonneg (schemas : list SchemaMarkup.t)
  (scrapedData : ScrapedData.t) :
  (0 <= SchemaMarkupAnalyzer.calculateSchemaScore schemas scrapedData)%Q.
Proof.
  unfold SchemaMarkupAnalyzer.calculateSchemaScore.
  pose proof (evaluateSchemaCompleteness_nonneg schemas) as Hcomplete.
  set (uniqueTypes := SchemaMarkupAnalyzer.types_of schemas).
  set (base := if List.existsb _ schemas then _ else _).
  assert (Hbase : (0 <= JS.of_int base)%Q).
  { apply of_int_nonneg. subst base.
    destruct (List.existsb _ schemas); lia. }
  apply Math_min_100_in_range. lra.
Qed.

Lemma SchemaMarkupAnalyzer_bounded (rt : JS.Runtime) :
  bounded (SchemaMarkupAnalyzer.analyze rt).
Proof.
  unfold bounded, SchemaMarkupAnalyzer.analyze.
  intros scrapedData quick result Hrun.
  destruct (Z.of_nat (List.length (ScrapedData.schemas scrapedData)) =? 0).
  - injection Hrun as <-. cbn [AnalyzerResult.score]. unfold in_range. split; lra.
  - injection Hrun as <-. cbn [AnalyzerResult.score].
    apply Math_min_100_in_range.
    destruct (Z.of_nat (List.length _) =? 0); [lra|].
    apply calculateSchemaScore_nonneg.
Qed.

(** Every analyzer the constructor registers is bounded. *)
Lemma constructor_bounded (rt : JS.Runtime) (c : AEOCategory) (analyzer : Analyzer) :
  constructor rt c = Some analyzer -> bounded analyzer.
Proof.
  intros Hc. injection Hc as <-. destruct c.
  - apply FAQSchemaAnalyzer_bounded.
  - apply SchemaMarkupAnalyzer_bounded.
  - apply ContentStructureAnalyzer_bounded.
  - apply FeaturedSnippetsAnalyzer_bounded.
  - apply EntityOptimizationAnalyzer_bounded.
  - apply MetaTagsAnalyzer_bounded.
  - apply SemanticHTMLAnalyzer_bounded.
  - apply VoiceSearchAnalyzer_bounded.
  - apply KnowledgeGraphAnalyzer_bounded.
  - apply TechnicalSEOAnalyzer_bounded.
Qed.

(** ** Coverage of the score card *)


(** * Further properties *)

(** ** What the orchestrator returns *)

(** X1: the sort neither drops nor invents anything.  The issues of a
    result are a rearrangement of the issues the analyzers returned, each
    tagged with its category, once for every time the category is listed;
    likewise the recommendations. *)
Theorem issues_are_conserved :
  forall (analyzers : AEOCategory -> option Analyzer)
         (scrapedData : ScrapedData.t) (options : AnalysisOptions.t),
  exists result,
    analyzeWebpage analyzers scrapedData options = JS.Returned result
    /\ Permutation (AnalysisResult.issues result)
         (List.flat_map (emitted_issues analyzers scrapedData options)
            (categoriesToAnalyze options))
    /\ Permutation (AnalysisResult.recommendations result)
         (List.flat_map (emitted_recommendations analyzers scrapedData options)
            (categoriesToAnalyze options)).
Proof.
  intros analyzers scrapedData options.
  rewrite analyzeWebpage_returns. eexists. split; [reflexivity|].
  cbn [AnalysisResult.issues AnalysisResult.recommendations].
  rewrite <- gathered_issues, <- gathered_recommendations.
  split.
  - apply (sort_perm severity_rank).
  - apply (sort_perm CategoryRecommendation.priority).
Qed.

Lemma CategoryScores_ext (a b : CategoryScores) :
  (forall c, score_of a c = score_of b c) -> a = b.
Proof.
  intros H. destruct a, b.
  pose proof (H FAQ_SCHEMA). pose proof (H SCHEMA_MARKUP).
  pose proof (H CONTENT_STRUCTURE). pose proof (H FEATURED_SNIPPETS).
  pose proof (H ENTITY_OPTIMIZATION). pose proof (H META_TAGS).
  pose proof (H SEMANTIC_HTML). pose proof (H VOICE_SEARCH).
  pose proof (H KNOWLEDGE_GRAPH). pose proof (H TECHNICAL_SEO).
  simpl in *. congruence.
Qed.

(** The score of a category on the score card, in one formula. *)
Lemma final_score (analyzers : AEOCategory -> option Analyzer)
  (scrapedData : ScrapedData.t) (options : AnalysisOptions.t) (c : AEOCategory) :
  score_of
    (fillMissingScores (Collected.categoryScores (gathered analyzers scrapedData options)))
    c
  = if in_dec AEOCategory_eq_dec c (categoriesToAnalyze options)
    then match recorded analyzers scrapedData options c with
         | Some s => s
         | None => 0%Q
         end
    else 0%Q.
Proof.
  destruct (in_dec AEOCategory_eq_dec c (categoriesToAnalyze options)) as [Hin|Hout].
  - destruct (recorded analyzers scrapedData options c) as [s|] eqn:Hrec.
    + now apply final_score_recorded.
    + apply final_score_skipped. now right.
  - apply final_score_skipped. now left.
Qed.

(** X2: the score card and the overall score depend on which categories are
    requested, not on their order, on how often each is listed, or on
    whether recommendations are asked for. *)
Theorem scores_depend_on_the_set_of_categories :
  forall (analyzers : AEOCategory -> option Analyzer) (scrapedData : ScrapedData.t)
         (first second : list AEOCategory) (quick : option bool)
         (with_first with_second : option bool),
    (forall c, In c first <-> In c second) ->
    exists result result',
      analyzeWebpage analyzers scrapedData
        (AnalysisOptions.make (Some first) quick with_first) = JS.Returned result
      /\ analyzeWebpage analyzers scrapedData
           (AnalysisOptions.make (Some second) quick with_second) = JS.Returned result'
      /\ AnalysisResult.categoryScores result = AnalysisResult.categoryScores result'
      /\ AnalysisResult.overallScore result = AnalysisResult.overallScore result'.
Proof.
  intros analyzers scrapedData first second quick with_first with_second Hsame.
  rewrite !analyzeWebpage_returns. do 2 eexists.
  split; [reflexivity|]. split; [reflexivity|].
  cbn [AnalysisResult.categoryScores AnalysisResult.overallScore].
  assert (Hcard : fillMissingScores
                    (Collected.categoryScores
                       (gathered analyzers scrapedData
                          (AnalysisOptions.make (Some first) quick with_first)))
                  = fillMissingScores
                      (Collected.categoryScores
                         (gathered analyzers scrapedData
                            (AnalysisOptions.make (Some second) quick with_second)))).
  { apply CategoryScores_ext. intros c. rewrite !final_score.
    cbn [categoriesToAnalyze AnalysisOptions.categories].
    unfold recorded. cbn [AnalysisOptions.quick].
    destruct (in_dec AEOCategory_eq_dec c first) as [H1|H1],
      (in_dec AEOCategory_eq_dec c second) as [H2|H2];
      try reflexivity; exfalso; [apply H2 | apply H1]; now apply Hsame. }
  now rewrite Hcard.
Qed.

(** The witness of X2: one category twice and two in the other order. *)
Lemma scores_depend_on_the_set_of_categories_witness :
  exists result result',
    analyzeWebpage (constructor sample_runtime) testData
      (AnalysisOptions.make (Some [META_TAGS; VOICE_SEARCH; META_TAGS]) None None)
    = JS.Returned result
    /\ analyzeWebpage (constructor sample_runtime) testData
         (AnalysisOptions.make (Some [VOICE_SEARCH; META_TAGS]) None (Some true))
       = JS.Returned result'
    /\ AnalysisResult.categoryScores result = AnalysisResult.categoryScores result'
    /\ AnalysisResult.overallScore result = AnalysisResult.overallScore result'.
Proof.
  apply (scores_depend_on_the_set_of_categories (constructor sample_runtime) testData
           [META_TAGS; VOICE_SEARCH; META_TAGS] [VOICE_SEARCH; META_TAGS]
           None None (Some true)).
  intros c. simpl. tauto.
Defined.

Lemma flat_map_nothing {A B} (f : A -> list B) (l : list A) :
  (forall x, f x = []) -> List.flat_map f l = [].
Proof.
  intros H. induction l as [|x l IH]; simpl; [reflexivity|].
  now rewrite H, IH.
Qed.

(** X3: recommendations are returned only on request.  Unless
    [includeRecommendations] is true the result has none, whatever the
    analyzers return; so [quickAnalyze] never returns any. *)
Theorem recommendations_only_on_request :
  (forall (analyzers : AEOCategory -> option Analyzer) (scrapedData : ScrapedData.t)
          (options : AnalysisOptions.t),
     AnalysisOptions.includeRecommendations options <> Some true ->
     exists result,
       analyzeWebpage analyzers scrapedData options = JS.Returned result
       /\ AnalysisResult.recommendations result = [])
  /\ (forall (analyzers : AEOCategory -> option Analyzer) (scrapedData : ScrapedData.t),
      exists result,
        quickAnalyze analyzers scrapedData = JS.Returned result
        /\ AnalysisResult.recommendations result = []).
Proof.
  assert (Hgeneral :
            forall analyzers scrapedData options,
              AnalysisOptions.includeRecommendations options <> Some true ->
              exists result,
                analyzeWebpage analyzers scrapedData options = JS.Returned result
                /\ AnalysisResult.recommendations result = []).
  { intros analyzers scrapedData options Hoff.
    rewrite analyzeWebpage_returns. eexists. split; [reflexivity|].
    cbn [AnalysisResult.recommendations].
    rewrite gathered_recommendations, flat_map_nothing; [reflexivity|].
    intros c. unfold emitted_recommendations.
    destruct (analyzers c); [|reflexivity].
    destruct (AnalysisOptions.includeRecommendations options) as [[|]|];
      [now elim Hoff | reflexivity | reflexivity]. }
  split; [exact Hgeneral|].
  intros analyzers scrapedData. unfold quickAnalyze.
  apply Hgeneral. discriminate.
Qed.

(** The witness of X3: the default options on the test page. *)
Lemma recommendations_only_on_request_witness :
  exists result,
    analyzeWebpage (constructor sample_runtime) testData no_options
    = JS.Returned result
    /\ AnalysisResult.recommendations result = [].
Proof.
  apply (proj1 recommendations_only_on_request (constructor sample_runtime)
           testData no_options).
  discriminate.
Defined.

(** X4: [analyzeCategoriesOnly] stays within its list.  Every issue and every
    recommendation of the result carries a category of the list, and every
    category outside the list has score 0. *)
Theorem analyzeCategoriesOnly_stays_within_the_list :
  forall (analyzers : AEOCategory -> option Analyzer) (scrapedData : ScrapedData.t)
         (categories : list AEOCategory),
  exists result,
    analyzeCategoriesOnly analyzers scrapedData categories = JS.Returned result
    /\ (forall i, In i (AnalysisResult.issues result) ->
                  In (CategoryIssue.category i) categories)
    /\ (forall x, In x (AnalysisResult.recommendations result) ->
                  In (CategoryRecommendation.category x) categories)
    /\ (forall c, ~ In c categories ->
                  score_of (AnalysisResult.categoryScores result) c = 0%Q).
Proof.
  intros analyzers scrapedData categories. unfold analyzeCategoriesOnly.
  rewrite analyzeWebpage_returns. eexists. split; [reflexivity|].
  cbn [AnalysisResult.issues AnalysisResult.recommendations
         AnalysisResult.categoryScores].
  split; [|split].
  - intros i Hin.
    apply (Permutation_in _ (sort_perm severity_rank _)) in Hin.
    rewrite gathered_issues, in_flat_map in Hin.
    destruct Hin as (c & Hc & Hi).
    now rewrite (emitted_issue_category _ _ _ _ _ Hi).
  - intros x Hin.
    apply (Permutation_in _ (sort_perm CategoryRecommendation.priority _)) in Hin.
    rewrite gathered_recommendations, in_flat_map in Hin.
    destruct Hin as (c & Hc & Hx).
    now rewrite (emitted_recommendation_category _ _ _ _ _ Hx).
  - intros c Hout. apply final_score_skipped. now left.
Qed.

(** ** The instance of the constructor *)

Lemma constructor_default_quick (rt : JS.Runtime) (c : AEOCategory) (analyzer : Analyzer)
  (scrapedData : ScrapedData.t) :
  constructor rt c = Some analyzer ->
  analyzer scrapedData None = analyzer scrapedData (Some false).
Proof. intros Hc. injection Hc as <-. destruct c; reflexivity. Qed.

(** X5: the drill-down agrees with the batch.  When [getCategorySummary]
    returns for a category, [analyzeCategoriesOnly] on that category alone
    returns the same score for it and 0 for the nine others; the severity of
    the summary is the one [getSeverityFromScore] gives the score; the batch
    returns the issues and recommendations of the summary, sorted. *)
Theorem summary_agrees_with_batch :
  forall (rt : JS.Runtime) (scrapedData : ScrapedData.t) (category : AEOCategory)
         (summary : CategorySummary.t),
    getCategorySummary (constructor rt) scrapedData category = JS.Returned summary ->
    exists result,
      analyzeCategoriesOnly (constructor rt) scrapedData [category] = JS.Returned result
      /\ score_of (AnalysisResult.categoryScores result) category
         = CategorySummary.score summary
      /\ (forall c, c <> category ->
                    score_of (AnalysisResult.categoryScores result) c = 0%Q)
      /\ CategorySummary.severity summary
         = getSeverityFromScore (CategorySummary.score summary)
      /\ AnalysisResult.issues result
         = JS.sort (fun a b => severity_rank a - severity_rank b)
             (CategorySummary.issues summary)
      /\ AnalysisResult.recommendations result
         = JS.sort (fun a b => CategoryRecommendation.priority a
                               - CategoryRecommendation.priority b)
             (CategorySummary.recommendations summary).
Proof.
  intros rt scrapedData category summary Hsummary.
  unfold getCategorySummary in Hsummary.
  destruct (constructor rt category) as [analyzer|] eqn:Hc; [|discriminate Hsummary].
  destruct (analyzer scrapedData (Some false)) as [r|] eqn:Hrun;
    [|discriminate Hsummary].
  cbn [JS.bind] in Hsummary. injection Hsummary as <-.
  unfold analyzeCategoriesOnly. rewrite analyzeWebpage_returns.
  eexists. split; [reflexivity|].
  cbn [AnalysisResult.categoryScores AnalysisResult.issues
         AnalysisResult.recommendations CategorySummary.score
         CategorySummary.severity CategorySummary.issues
         CategorySummary.recommendations].
  pose proof (constructor_default_quick rt category analyzer scrapedData Hc) as Hquick.
  split; [|split; [|split; [reflexivity|split]]].
  - apply final_score_recorded; [now left|].
    unfold recorded. cbn [AnalysisOptions.quick]. now rewrite Hc, Hquick, Hrun.
  - intros c Hne. apply final_score_skipped. left.
    intros [Heq|[]]. now apply Hne.
  - rewrite gathered_issues. cbn [categoriesToAnalyze AnalysisOptions.categories
                                    List.flat_map].
    unfold emitted_issues. cbn [AnalysisOptions.quick].
    now rewrite Hc, Hquick, Hrun, app_nil_r.
  - rewrite gathered_recommendations.
    cbn [categoriesToAnalyze AnalysisOptions.categories List.flat_map].
    unfold emitted_recommendations.
    cbn [AnalysisOptions.quick AnalysisOptions.includeRecommendations].
    now rewrite Hc, Hquick, Hrun, app_nil_r.
Qed.

(** The witness of X5: the meta-tags summary of the test page. *)
Lemma summary_agrees_with_batch_witness :
  exists summary result,
    getCategorySummary (constructor sample_runtime) testData META_TAGS
    = JS.Returned summary
    /\ analyzeCategoriesOnly (constructor sample_runtime) testData [META_TAGS]
       = JS.Returned result
    /\ score_of (AnalysisResult.categoryScores result) META_TAGS
       = CategorySummary.score summary
    /\ CategorySummary.score summary = 19%Q
    /\ CategorySummary.severity summary = CRITICAL.
Proof.
  eexists.
  destruct (summary_agrees_with_batch sample_runtime testData META_TAGS _ eq_refl)
    as (result & Hbatch & Hscore & _ & Hseverity & _).
  exists result. split; [reflexivity|]. split; [exact Hbatch|].
  split; [exact Hscore|]. split; reflexivity.
Defined.

(** X6: the health check of a fresh instance reports every category healthy,
    whatever the runtime: no analyzer throws on the test page. *)
Theorem fresh_instance_is_healthy :
  forall (rt : JS.Runtime) (category : AEOCategory),
    getHealthStatus (constructor rt) category = Some true.
Proof. intros rt category. destruct category; reflexivity. Qed.

(** ** Ceilings of the scores *)

Ltac at_most_constant :=
  intros scrapedData quick result Hrun;
  injection Hrun as <-; cbn [AnalyzerResult.score];
  repeat match goal with |- context [if ?b then _ else _] => destruct b end;
  lra.

Lemma of_int_le (a b : Z) : a <= b -> (JS.of_int a <= JS.of_int b)%Q.
Proof. intros H. unfold JS.of_int. now rewrite <- Zle_Qle. Qed.

Lemma Math_round_at_most (x : JS.number) (n : Z) :
  (x < inject_Z n + (1 # 2))%Q -> JS.Math_round x <= n.
Proof.
  intros Hx. unfold JS.Math_round.
  assert (Hlt : (inject_Z (Qfloor (x + (1 # 2))) < inject_Z (n + 1))%Q).
  { eapply Qle_lt_trans; [apply Qfloor_le|].
    rewrite inject_Z_plus. change (inject_Z 1) with 1%Q. lra. }
  rewrite <- Zlt_Qlt in Hlt. lia.
Qed.

Lemma analyzeTitleTag_at_most (title : string) (issues : list AnalyzerIssue.t) :
  fst (MetaTagsAnalyzer.analyzeTitleTag title issues) <= 80.
Proof.
  unfold MetaTagsAnalyzer.analyzeTitleTag, MetaTagsAnalyzer.title_after_length.
  destruct (MetaTagsAnalyzer.missing title); [simpl; lia|].
  destruct (MetaTagsAnalyzer.title_length_branch _); cbn [fst];
    repeat match goal with |- context [if ?b then _ else _] => destruct b end; lia.
Qed.

Lemma analyzeMetaDescription_at_most (description : string)
  (issues : list AnalyzerIssue.t) :
  fst (MetaTagsAnalyzer.analyzeMetaDescription description issues) <= 90.
Proof.
  unfold MetaTagsAnalyzer.analyzeMetaDescription,
    MetaTagsAnalyzer.description_after_length.
  destruct (MetaTagsAnalyzer.missing description); [simpl; lia|].
  destruct (MetaTagsAnalyzer.description_length_branch _); cbn [fst];
    repeat match goal with |- context [if ?b then _ else _] => destruct b end; lia.
Qed.

Lemma count_present_at_most (map : gmap string string) (important : list string) :
  MetaTagsAnalyzer.count_present map important <= Z.of_nat (List.length important).
Proof.
  unfold MetaTagsAnalyzer.count_present.
  apply inj_le, List.filter_length_le.
Qed.

Lemma analyzeMetaTags_at_most (tags : list MetaTag.t) (issues : list AnalyzerIssue.t) :
  fst (MetaTagsAnalyzer.analyzeMetaTags tags issues) <= 75.
Proof.
  unfold MetaTagsAnalyzer.analyzeMetaTags. cbn [fst].
  match goal with
  | |- context [MetaTagsAnalyzer.count_present ?m ?l] =>
      pose proof (count_present_at_most m l) as Hcount
  end.
  cbn [MetaTagsAnalyzer.IMPORTANT_META_TAGS List.length] in Hcount. lia.
Qed.

Lemma analyzeOpenGraphTags_at_most (rt : JS.Runtime) (tags : list OpenGraphTag.t)
  (issues : list AnalyzerIssue.t) :
  fst (MetaTagsAnalyzer.analyzeOpenGraphTags rt tags issues) <= 100.
Proof.
  unfold MetaTagsAnalyzer.analyzeOpenGraphTags.
  destruct (Z.of_nat (List.length tags) =? 0); cbn [fst]; lia.
Qed.

Lemma analyzeTwitterTags_at_most (tags : list MetaTag.t) (issues : list AnalyzerIssue.t) :
  fst (MetaTagsAnalyzer.analyzeTwitterTags tags issues) <= 100.
Proof.
  unfold MetaTagsAnalyzer.analyzeTwitterTags.
  match goal with |- context [if ?b then _ else _] => destruct b end;
    cbn [fst]; lia.
Qed.

(** The blend of the meta-tags analyzer, written out. *)
Lemma meta_tags_blend (t d m o w : Z) :
  BaseAnalyzer.calculateScore
    [(30%Q, JS.of_int t); (25%Q, JS.of_int d); (20%Q, JS.of_int m);
     (15%Q, JS.of_int o); (10%Q, JS.of_int w)]
  = JS.Math_round
      ((30 * JS.of_int t + 25 * JS.of_int d + 20 * JS.of_int m
        + 15 * JS.of_int o + 10 * JS.of_int w) / 100)%Q.
Proof.
  unfold BaseAnalyzer.calculateScore, BaseAnalyzer.sum_numbers.
  cbn [List.map List.fold_left fst snd].
  replace (JS.gtb (0 + 30 + 25 + 20 + 15 + 10) 0) with true by reflexivity.
  unfold JS.Math_round. apply Qfloor_comp. field.
Qed.

Lemma MetaTagsAnalyzer_at_most (rt : JS.Runtime) (scrapedData : ScrapedData.t)
  (quick : option bool) (result : AnalyzerResult.t) :
  MetaTagsAnalyzer.analyze rt scrapedData quick = JS.Returned result ->
  (AnalyzerResult.score result <= 87)%Q.
Proof.
  unfold MetaTagsAnalyzer.analyze. intros Hrun.
  pose proof (analyzeTitleTag_at_most (ScrapedData.title scrapedData) []) as Htitle.
  destruct (MetaTagsAnalyzer.analyzeTitleTag _ _) as [titleScore issues1].
  pose proof (analyzeMetaDescription_at_most
                (ScrapedData.metaDescription scrapedData) issues1) as Hdescription.
  destruct (MetaTagsAnalyzer.analyzeMetaDescription _ _)
    as [descriptionScore issues2].
  pose proof (analyzeMetaTags_at_most (ScrapedData.metaTags scrapedData) issues2)
    as Htags.
  destruct (MetaTagsAnalyzer.analyzeMetaTags _ _) as [metaTagsScore issues3].
  pose proof (analyzeOpenGraphTags_at_most rt
                (ScrapedData.openGraphTags scrapedData) issues3) as Hog.
  destruct (MetaTagsAnalyzer.analyzeOpenGraphTags _ _ _) as [ogScore issues4].
  pose proof (analyzeTwitterTags_at_most (ScrapedData.metaTags scrapedData) issues4)
    as Htwitter.
  destruct (MetaTagsAnalyzer.analyzeTwitterTags _ _) as [twitterScore issues5].
  cbn [fst] in *.
  injection Hrun as <-. cbn [AnalyzerResult.score].
  rewrite meta_tags_blend.
  eapply Qle_trans; [apply Q.le_min_r|].
  change 87%Q with (JS.of_int 87). apply of_int_le, Math_round_at_most.
  apply of_int_le in Htitle, Hdescription, Htags, Hog, Htwitter.
  unfold JS.of_int in *.
  change (inject_Z 80) with 80%Q in Htitle.
  change (inject_Z 90) with 90%Q in Hdescription.
  change (inject_Z 75) with 75%Q in Htags.
  change (inject_Z 100) with 100%Q in Hog, Htwitter.
  change (inject_Z 87) with 87%Q.
  apply Qlt_shift_div_r; lra.
Qed.

Lemma ContentStructureAnalyzer_at_most (rt : JS.Runtime) (scrapedData : ScrapedData.t)
  (quick : option bool) (result : AnalyzerResult.t) :
  ContentStructureAnalyzer.analyze rt scrapedData quick = JS.Returned result ->
  (AnalyzerResult.score result <= 77)%Q.
Proof.
  unfold ContentStructureAnalyzer.analyze. intros Hrun.
  unfold ContentStructureAnalyzer.analyzeHeadingStructure,
    ContentStructureAnalyzer.analyzeContentReadability,
    ContentStructureAnalyzer.analyzeContentStructure in Hrun.
  destruct (negb (fst (BaseAnalyzer.validateHeadingStructure _))),
    (JS.ltb (BaseAnalyzer.Readability.score _) 60),
    (BaseAnalyzer.countWords _ <? 300);
    injection Hrun as <-; cbn [AnalyzerResult.score];
    vm_compute; discriminate.
Qed.

(** The score an analyzer of the constructor returns is at most the ceiling
    of its category. *)
Lemma constructor_ceiling (rt : JS.Runtime) (category : AEOCategory)
  (analyzer : Analyzer) (scrapedData : ScrapedData.t) (quick : option bool)
  (result : AnalyzerResult.t) :
  constructor rt category = Some analyzer ->
  analyzer scrapedData quick = JS.Returned result ->
  (AnalyzerResult.score result <= ceiling category)%Q.
Proof.
  intros Hc.
  injection Hc as <-. destruct category; cbn [ceiling].
  - intros Hrun. exact (proj2 (FAQSchemaAnalyzer_bounded rt _ _ _ Hrun)).
  - intros Hrun. exact (proj2 (SchemaMarkupAnalyzer_bounded rt _ _ _ Hrun)).
  - apply ContentStructureAnalyzer_at_most.
  - revert scrapedData quick result.
    unfold FeaturedSnippetsAnalyzer.analyze. at_most_constant.
  - revert scrapedData quick result.
    unfold EntityOptimizationAnalyzer.analyze. at_most_constant.
  - apply MetaTagsAnalyzer_at_most.
  - revert scrapedData quick result.
    unfold SemanticHTMLAnalyzer.analyze. at_most_constant.
  - revert scrapedData quick result.
    unfold VoiceSearchAnalyzer.analyze. at_most_constant.
  - revert scrapedData quick result.
    unfold KnowledgeGraphAnalyzer.analyze. at_most_constant.
  - unfold TechnicalSEOAnalyzer.analyze. intros Hrun.
    injection Hrun as <-. cbn [AnalyzerResult.score].
    destruct (JS.gtb (PerformanceMetrics.loadTime _) 3000),
      (JS.gtb (PerformanceMetrics.pageSize _) 3000000),
      (match PerformanceMetrics.coreWebVitals _ with Some _ => _ | None => _ end);
      lra.
Qed.

(** X7: every analyzer has a ceiling.  Whatever the document, the runtime and
    the mode, the score an analyzer of the constructor returns is at least 0
    and at most 100 for the FAQ and schema analyzers, 87 for meta tags, 77
    for content structure, 70 for voice search, 60 for featured snippets,
    semantic HTML and technical SEO, and 50 for entities and the knowledge
    graph. *)
Theorem scores_have_ceilings :
  forall (rt : JS.Runtime) (category : AEOCategory) (analyzer : Analyzer)
         (scrapedData : ScrapedData.t) (quick : option bool)
         (result : AnalyzerResult.t),
    constructor rt category = Some analyzer ->
    analyzer scrapedData quick = JS.Returned result ->
    (0 <= AnalyzerResult.score result <= ceiling category)%Q.
Proof.
  intros rt category analyzer scrapedData quick result Hc Hrun. split.
  - exact (proj1 (constructor_bounded rt category analyzer Hc _ _ _ Hrun)).
  - exact (constructor_ceiling rt category analyzer _ _ _ Hc Hrun).
Qed.

(** The witness of X7: the meta-tags analyzer on the test page. *)
Lemma scores_have_ceilings_witness :
  exists result,
    MetaTagsAnalyzer.analyze sample_runtime testData None = JS.Returned result
    /\ (0 <= AnalyzerResult.score result <= ceiling META_TAGS)%Q.
Proof.
  eexists. split; [reflexivity|].
  apply (scores_have_ceilings sample_runtime META_TAGS
           (MetaTagsAnalyzer.analyze sample_runtime) testData None);
    reflexivity.
Defined.

(** The score card of the instance of the constructor: every score between 0
    and the ceiling of its category. *)
Lemma constructor_card (rt : JS.Runtime) (scrapedData : ScrapedData.t)
  (options : AnalysisOptions.t) (c : AEOCategory) :
  (0 <= score_of
          (fillMissingScores
             (Collected.categoryScores (gathered (constructor rt) scrapedData options)))
          c
   <= ceiling c)%Q.
Proof.
  rewrite final_score.
  assert (Hzero : (0 <= 0 <= ceiling c)%Q) by (destruct c; cbn [ceiling]; lra).
  destruct (in_dec _ _ _); [|exact Hzero].
  unfold recorded.
  destruct (constructor rt c) as [analyzer|] eqn:Hc; [|exact Hzero].
  destruct (analyzer scrapedData (AnalysisOptions.quick options)) as [r|] eqn:Hrun;
    [|exact Hzero].
  split.
  - exact (proj1 (constructor_bounded rt c analyzer Hc _ _ _ Hrun)).
  - exact (constructor_ceiling rt c analyzer _ _ _ Hc Hrun).
Qed.

(** ** The overall score of the instance *)

Lemma Math_round_at_least_0 (x : JS.number) : (0 <= x)%Q -> 0 <= JS.Math_round x.
Proof.
  intros Hx. unfold JS.Math_round.
  change 0 with (Qfloor 0). apply Qfloor_resp_le. lra.
Qed.

Lemma overall_of_constructor (rt : JS.Runtime) (scrapedData : ScrapedData.t)
  (options : AnalysisOptions.t) :
  0 <= calculateOverallScore
         (fillMissingScores
            (Collected.categoryScores (gathered (constructor rt) scrapedData options)))
    <= 7.
Proof.
  rewrite calculateOverallScore_unweighted.
  pose proof (constructor_card rt scrapedData options) as Hcard.
  pose proof (Hcard FAQ_SCHEMA) as H1. pose proof (Hcard SCHEMA_MARKUP) as H2.
  pose proof (Hcard CONTENT_STRUCTURE) as H3. pose proof (Hcard FEATURED_SNIPPETS) as H4.
  pose proof (Hcard ENTITY_OPTIMIZATION) as H5. pose proof (Hcard META_TAGS) as H6.
  pose proof (Hcard SEMANTIC_HTML) as H7. pose proof (Hcard VOICE_SEARCH) as H8.
  pose proof (Hcard KNOWLEDGE_GRAPH) as H9. pose proof (Hcard TECHNICAL_SEO) as H10.
  cbn [score_of ceiling] in *. clear Hcard.
  split.
  - apply Math_round_at_least_0. apply Qle_shift_div_l; lra.
  - apply Math_round_at_most. change (inject_Z 7) with 7%Q.
    apply Qlt_shift_div_r; lra.
Qed.

(** X8: the overall score of the instance of the constructor never exceeds 7.
    Every weight falls back to 1 while the sum is divided by the total weight
    of the table, 100, and the ceilings of the ten analyzers add up to 714:
    whatever the document, the options and the runtime, the overall score of
    a result is between 0 and 7. *)
Theorem overall_score_is_at_most_7 :
  forall (rt : JS.Runtime) (scrapedData : ScrapedData.t) (options : AnalysisOptions.t)
         (result : AnalysisResult.t),
    analyzeWebpage (constructor rt) scrapedData options = JS.Returned result ->
    0 <= AnalysisResult.overallScore result <= 7.
Proof.
  intros rt scrapedData options result. rewrite analyzeWebpage_returns.
  intros Hresult. injection Hresult as <-. cbn [AnalysisResult.overallScore].
  apply overall_of_constructor.
Qed.

(** The witness of X8: the test page with the default options. *)
Lemma overall_score_is_at_most_7_witness :
  exists result,
    analyzeWebpage (constructor sample_runtime) testData no_options = JS.Returned result
    /\ 0 <= AnalysisResult.overallScore result <= 7.
Proof.
  eexists. split; [apply analyzeWebpage_returns|].
  apply (overall_score_is_at_most_7 sample_runtime testData no_options).
  apply analyzeWebpage_returns.
Defined.

Lemma out_of_range_false (score : JS.number) :
  (0 <= score <= 100)%Q -> out_of_range score = false.
Proof.
  intros [Hlo Hhi]. unfold out_of_range, JS.ltb, JS.gtb, JS.ltb.
  apply Qle_bool_iff in Hlo, Hhi. now rewrite Hlo, Hhi.
Qed.

(** X9: every result of the instance of the constructor passes
    [validateAnalysisResult], whatever the document, the options and the
    runtime. *)
Theorem results_of_the_instance_are_valid :
  forall (rt : JS.Runtime) (scrapedData : ScrapedData.t) (options : AnalysisOptions.t)
         (result : AnalysisResult.t),
    analyzeWebpage (constructor rt) scrapedData options = JS.Returned result ->
    validateAnalysisResult result = true.
Proof.
  intros rt scrapedData options result. rewrite analyzeWebpage_returns.
  intros Hresult. injection Hresult as <-.
  unfold validateAnalysisResult.
  cbn [AnalysisResult.overallScore AnalysisResult.categoryScores].
  pose proof (overall_of_constructor rt scrapedData options) as [Hlo Hhi].
  rewrite out_of_range_false.
  2:{ unfold JS.of_int. change 0%Q with (inject_Z 0). change 100%Q with (inject_Z 100).
      rewrite <- !Zle_Qle. lia. }
  assert (Hcard : forall c,
             out_of_range
               (score_of
                  (fillMissingScores
                     (Collected.categoryScores
                        (gathered (constructor rt) scrapedData options))) c) = false).
  { intros c. apply out_of_range_false.
    pose proof (constructor_card rt scrapedData options c) as [Hc0 Hc1].
    split; [exact Hc0|]. eapply Qle_trans; [exact Hc1|].
    destruct c; cbn [ceiling]; lra. }
  pose proof (Hcard FAQ_SCHEMA) as H1. pose proof (Hcard SCHEMA_MARKUP) as H2.
  pose proof (Hcard CONTENT_STRUCTURE) as H3. pose proof (Hcard FEATURED_SNIPPETS) as H4.
  pose proof (Hcard ENTITY_OPTIMIZATION) as H5. pose proof (Hcard META_TAGS) as H6.
  pose proof (Hcard SEMANTIC_HTML) as H7. pose proof (Hcard VOICE_SEARCH) as H8.
  pose proof (Hcard KNOWLEDGE_GRAPH) as H9. pose proof (Hcard TECHNICAL_SEO) as H10.
  cbn [score_of] in *.
  cbn [Object_entries List.map List.existsb snd].
  rewrite H1, H2, H3, H4, H5, H6, H7, H8, H9, H10. reflexivity.
Qed.

(** The witness of X9: the test page with the default options. *)
Lemma results_of_the_instance_are_valid_witness :
  exists result,
    analyzeWebpage (constructor sample_runtime) testData no_options = JS.Returned result
    /\ validateAnalysisResult result = true.
Proof.
  eexists. split; [apply analyzeWebpage_returns|].
  apply (results_of_the_instance_are_valid sample_runtime testData no_options).
  apply analyzeWebpage_returns.
Defined.

(** ** The helpers of the analyzers *)

Lemma check_hierarchy_agrees (rest : list Heading.t) :
  forall (previous : Heading.t) (state : bool * list string),
    (fst state = true <-> snd state = []) ->
    (fst (BaseAnalyzer.check_hierarchy previous rest state) = true
     <-> snd (BaseAnalyzer.check_hierarchy previous rest state) = []).
Proof.
  induction rest as [|current rest IH]; intros previous state Hstate; simpl.
  - exact Hstate.
  - apply IH. destruct (_ >? _); [|exact Hstate]. simpl. split; [discriminate|].
    intros Hnil. now destruct (snd state).
Qed.

(** X10: the verdict of the heading validation and its list of issues
    agree: the structure is reported valid exactly when no issue is
    listed. *)
Theorem heading_verdict_matches_issues :
  forall headings : list Heading.t,
    fst (BaseAnalyzer.validateHeadingStructure headings) = true
    <-> snd (BaseAnalyzer.validateHeadingStructure headings) = [].
Proof.
  intros [|first rest]; [simpl; split; discriminate|].
  unfold BaseAnalyzer.validateHeadingStructure.
  apply check_hierarchy_agrees.
  destruct (_ =? 0); [simpl; split; discriminate|].
  destruct (_ >? 1); simpl; split; try discriminate; reflexivity.
Qed.

Lemma split_runs_nonempty (sep : ascii -> bool) (s : string) :
  forall in_run, JS.split_runs sep in_run s <> [].
Proof.
  induction s as [|c s IH]; intros in_run; simpl; [discriminate|].
  destruct (sep c).
  - destruct in_run; [apply IH | discriminate].
  - destruct (JS.split_runs sep false s); discriminate.
Qed.

Lemma split_runs_head (sep : ascii -> bool) (c : ascii) (t : string) :
  sep c = false ->
  exists piece pieces,
    JS.split_runs sep false (String c t) = String c piece :: pieces.
Proof.
  intros Hc. simpl. rewrite Hc.
  destruct (JS.split_runs sep false t) as [|piece pieces]; eauto.
Qed.

Lemma trimEnd_head (c : ascii) (t : string) :
  JS.isWhiteSpace c = false -> exists t', JS.trimEnd (String c t) = String c t'.
Proof.
  intros Hc. simpl. rewrite Hc. destruct (JS.trimEnd t); eauto.
Qed.

(** X11: [countWords] counts no word exactly in the texts made of white
    space only (the empty text included). *)
Theorem countWords_is_zero_on_blank_texts_only :
  forall text : string,
    BaseAnalyzer.countWords text = 0 <-> blank text = true.
Proof.
  intros text. unfold BaseAnalyzer.countWords, JS.trim.
  destruct (blank text) eqn:Hblank.
  - rewrite (trimStart_blank text Hblank). simpl. split; reflexivity.
  - destruct (trimStart_not_blank text Hblank) as (c & t & -> & Hc).
    destruct (trimEnd_head c t Hc) as (t' & ->).
    destruct (split_runs_head JS.isWhiteSpace c t' Hc) as (piece & pieces & Hsplit).
    unfold JS.split_whitespace. rewrite Hsplit. simpl.
    split; [lia | discriminate].
Qed.

Lemma keyword_matches_at_most (text keyword : string) :
  (BaseAnalyzer.keyword_matches text keyword
   <= List.length (JS.split_whitespace (JS.toLowerCase text)))%nat.
Proof.
  unfold BaseAnalyzer.keyword_matches.
  eapply Nat.le_trans; [apply List.filter_length_le|].
  rewrite List.length_seq.
  pose proof (split_runs_nonempty JS.isWhiteSpace (JS.toLowerCase keyword) false)
    as Hkeyword.
  unfold JS.split_whitespace.
  destruct (JS.split_runs JS.isWhiteSpace false (JS.toLowerCase keyword));
    [now elim Hkeyword|].
  simpl List.length. lia.
Qed.

(** X12: the keyword density is a percentage: between 0 and 100 for every
    text and every keyword. *)
Theorem keyword_density_is_a_percentage :
  forall text keyword : string,
    (0 <= BaseAnalyzer.calculateKeywordDensity text keyword <= 100)%Q.
Proof.
  intros text keyword. unfold BaseAnalyzer.calculateKeywordDensity.
  pose proof (keyword_matches_at_most text keyword) as Hmatches.
  destruct (Z.gtb_spec
              (Z.of_nat (List.length (JS.split_whitespace (JS.toLowerCase text)))) 0)
    as [Hwords|_]; [|lra].
  set (m := Z.of_nat (BaseAnalyzer.keyword_matches text keyword)).
  set (n := Z.of_nat (List.length (JS.split_whitespace (JS.toLowerCase text)))) in *.
  assert (Hm : 0 <= m <= n) by lia.
  unfold JS.of_int.
  assert (Hn : (0 < inject_Z n)%Q) by (change 0%Q with (inject_Z 0); rewrite <- Zlt_Qlt; lia).
  assert (Hm0 : (0 <= inject_Z m)%Q) by (change 0%Q with (inject_Z 0); rewrite <- Zle_Qle; lia).
  assert (Hmn : (inject_Z m <= inject_Z n)%Q) by (rewrite <- Zle_Qle; lia).
  assert (Hlo : (0 <= inject_Z m / inject_Z n)%Q) by (apply Qle_shift_div_l; lra).
  assert (Hhi : (inject_Z m / inject_Z n <= 1)%Q) by (apply Qle_shift_div_r; lra).
  lra.
Qed.

Lemma sums_between (lo hi : JS.number) (factors : list (JS.number * JS.number)) :
  List.Forall (fun f => 0 < fst f /\ lo <= snd f <= hi)%Q factors ->
  forall a b : JS.number,
    (lo * a <= b <= hi * a)%Q ->
    (lo * List.fold_left Qplus (List.map fst factors) a
     <= List.fold_left Qplus (List.map (fun f => snd f * fst f) factors) b
     <= hi * List.fold_left Qplus (List.map fst factors) a)%Q
    /\ (a <= List.fold_left Qplus (List.map fst factors) a)%Q
    /\ (factors <> [] -> a < List.fold_left Qplus (List.map fst factors) a)%Q.
Proof.
  induction 1 as [|[w s] factors [Hw [Hlo Hhi]] _ IH]; intros a b [Hb1 Hb2]; simpl.
  - repeat split; try assumption; [lra | now intros []].
  - cbn [fst snd] in *.
    assert (Hlow : (lo * w <= s * w)%Q) by (apply Qmult_le_compat_r; lra).
    assert (Hhiw : (s * w <= hi * w)%Q) by (apply Qmult_le_compat_r; lra).
    destruct (IH (a + w)%Q (b + s * w)%Q) as (Hsum & Hge & _); [split; lra|].
    repeat split; try apply Hsum; [lra | intros _; lra].
Qed.

(** Over exact numbers the blend stays between its factors: when every
    weight is positive and every factor score lies between two integers, so
    does the rounded mean. *)
Lemma blend_between (lo hi : Z) (factors : list (JS.number * JS.number)) :
  factors <> [] ->
  List.Forall (fun f => 0 < fst f /\ inject_Z lo <= snd f <= inject_Z hi)%Q factors ->
  lo <= BaseAnalyzer.calculateScore factors <= hi.
Proof.
  intros Hsome Hfactors.
  destruct (sums_between (inject_Z lo) (inject_Z hi) factors Hfactors 0%Q 0%Q)
    as ((Hlo & Hhi) & _ & Hpos); [split; lra|].
  specialize (Hpos Hsome).
  unfold BaseAnalyzer.calculateScore, BaseAnalyzer.sum_numbers.
  set (W := List.fold_left Qplus (List.map fst factors) 0%Q) in *.
  set (S := List.fold_left Qplus (List.map (fun f => (snd f * fst f)%Q) factors) 0%Q) in *.
  replace (JS.gtb W 0) with true.
  2:{ symmetry. unfold JS.gtb, JS.ltb. apply negb_true_iff, not_true_is_false.
      intros Hle. apply Qle_bool_iff in Hle. lra. }
  assert (Hq1 : (inject_Z lo <= S / W)%Q) by (apply Qle_shift_div_l; lra).
  assert (Hq2 : (S / W <= inject_Z hi)%Q) by (apply Qle_shift_div_r; lra).
  split.
  - unfold JS.Math_round. rewrite <- (Qfloor_Z lo). apply Qfloor_resp_le. lra.
  - apply Math_round_at_most. lra.
Qed.

(** X13: the blend of [calculateScore] stays between its factors, on the
    whole weights and scores the analyzers pass: when every weight is a whole
    number from 1 to 100 and every factor score a whole number between [lo]
    and [hi], with [0 <= lo] and [hi <= 100], the score returned lies between
    [lo] and [hi].  On these inputs every product and every sum of the source
    is a whole number below 2^53 (an array has fewer than 2^32 elements),
    which its numbers hold exactly. *)
Theorem calculateScore_stays_between_its_factors :
  forall (lo hi : Z) (factors : list (Z * Z)),
    factors <> [] ->
    0 <= lo -> hi <= 100 ->
    List.Forall (fun f => 1 <= fst f <= 100 /\ lo <= snd f <= hi) factors ->
    lo <= BaseAnalyzer.calculateScore
            (List.map (fun f => (JS.of_int (fst f), JS.of_int (snd f))) factors)
       <= hi.
Proof.
  intros lo hi factors Hsome _ _ Hfactors.
  apply blend_between.
  - destruct factors; [now elim Hsome | discriminate].
  - apply List.Forall_map.
    eapply List.Forall_impl; [|exact Hfactors].
    intros [weight score] [[Hweight _] [Hlo Hhi]]. cbn [fst snd] in *.
    unfold JS.of_int. repeat split.
    + change 0%Q with (inject_Z 0). rewrite <- Zlt_Qlt. lia.
    + now rewrite <- Zle_Qle.
    + now rewrite <- Zle_Qle.
Qed.

(** The witness of X13: the blend of the content-structure analyzer. *)
Lemma calculateScore_stays_between_its_factors_witness :
  20 <= BaseAnalyzer.calculateScore
          (List.map (fun f => (JS.of_int (fst f), JS.of_int (snd f)))
             [(40, 80); (30, 40); (30, 20)])
     <= 80.
Proof.
  apply (calculateScore_stays_between_its_factors 20 80
           [(40, 80); (30, 40); (30, 20)]).
  - discriminate.
  - lia.
  - lia.
  - repeat constructor; cbn; lia.
Defined.

(** ** The helpers of [shared/src/utils] *)

Lemma geb_true (x y : JS.number) : JS.geb x y = true <-> (y <= x)%Q.
Proof. apply Qle_bool_iff. Qed.

Lemma geb_false (x y : JS.number) : JS.geb x y = false <-> (x < y)%Q.
Proof.
  unfold JS.geb. split.
  - intros Hb. apply Qnot_le_lt. intros Hle. apply Qle_bool_iff in Hle. congruence.
  - intros Hlt. apply not_true_is_false. intros Hb. apply Qle_bool_iff in Hb. lra.
Qed.

(** X14: a higher score never gets a more severe label, the analyzers and
    the shared helpers label alike, and the colour of a score depends on its
    label only. *)
Theorem severity_follows_the_score :
  forall a b : JS.number,
    BaseAnalyzer.getSeverityFromScore a = getSeverityFromScore a
    /\ ((a <= b)%Q ->
        getSeverityPriority (getSeverityFromScore a)
        <= getSeverityPriority (getSeverityFromScore b))
    /\ (getSeverityFromScore a = getSeverityFromScore b ->
        getScoreColor a = getScoreColor b).
Proof.
  intros a b. split; [reflexivity|].
  unfold getSeverityFromScore, getScoreColor.
  destruct (JS.geb a 80) eqn:Ha80, (JS.geb a 60) eqn:Ha60, (JS.geb a 40) eqn:Ha40;
    destruct (JS.geb b 80) eqn:Hb80, (JS.geb b 60) eqn:Hb60, (JS.geb b 40) eqn:Hb40;
    (split; [intros Hab | intros Hsame; try reflexivity; try discriminate Hsame]);
    cbn [getSeverityPriority]; try lia;
    repeat match goal with
           | H : JS.geb _ _ = true |- _ => apply geb_true in H
           | H : JS.geb _ _ = false |- _ => apply geb_false in H
           end; lra.
Qed.

(** The witness of X14: the scores 35 and 85. *)
Lemma severity_follows_the_score_witness :
  getSeverityPriority (getSeverityFromScore 35%Q)
  <= getSeverityPriority (getSeverityFromScore 85%Q).
Proof.
  refine (proj1 (proj2 (severity_follows_the_score 35%Q 85%Q)) _).
  unfold Qle. simpl. lia.
Defined.

Lemma substring_0_length (s : string) :
  forall n : nat,
    String.length (String.substring 0 n s) = Nat.min n (String.length s).
Proof.
  induction s as [|c s IH]; intros [|n]; simpl; try reflexivity.
  now rewrite IH.
Qed.

Lemma append_length (s t : string) :
  String.length (s ++ t) = (String.length s + String.length t)%nat.
Proof. induction s as [|c s IH]; simpl; [reflexivity | now rewrite IH]. Qed.

Lemma ellipsis_length (s : string) :
  JS.length (JS.template [s; "..."]) = JS.length s + 3.
Proof.
  unfold JS.template, JS.length. cbn [String.concat].
  rewrite append_length. simpl String.length. lia.
Qed.

(** X15: [truncateText] keeps its promise from 3 characters on: for
    [maxLength >= 3] the result has the length of the text or [maxLength],
    whichever is smaller, the three dots included. *)
Theorem truncateText_fits :
  forall (text : string) (maxLength : Z),
    3 <= maxLength ->
    JS.length (truncateText text maxLength) = Z.min (JS.length text) maxLength.
Proof.
  intros text maxLength Hmax. unfold truncateText.
  destruct (Z.leb_spec (JS.length text) maxLength) as [Hshort|Hlong]; [lia|].
  rewrite ellipsis_length. unfold JS.substr_0, JS.length in *.
  rewrite substring_0_length. lia.
Qed.

(** The witness of X15: a text of 55 characters cut to 20. *)
Lemma truncateText_fits_witness :
  JS.length (truncateText title_55 20) = Z.min (JS.length title_55) 20.
Proof. apply (truncateText_fits title_55 20). lia. Defined.

(** X16: [truncateContent] of the fix generator overshoots: a content longer
    than [maxLength] comes back [maxLength + 3] characters long. *)
Theorem truncateContent_overshoots :
  forall (content : string) (maxLength : Z),
    0 <= maxLength < JS.length content ->
    JS.length (CodeFixGenerator.truncateContent content maxLength) = maxLength + 3.
Proof.
  intros content maxLength [Hlo Hhi]. unfold CodeFixGenerator.truncateContent.
  destruct (Z.gtb_spec (JS.length content) maxLength) as [_|Hle]; [|lia].
  rewrite ellipsis_length. unfold JS.substring_0, JS.length in *.
  rewrite substring_0_length. lia.
Qed.

(** The witness of X16: a text of 55 characters cut to 20. *)
Lemma truncateContent_overshoots_witness :
  JS.length (CodeFixGenerator.truncateContent title_55 20) = 20 + 3.
Proof.
  apply (truncateContent_overshoots title_55 20). split; [lia | reflexivity].
Defined.

(** X17: the estimate of the implementation time is between 15 and 150
    minutes, and neither a more severe issue nor a more complex fix gets a
    shorter one. *)
Theorem estimateImplementationTime_is_monotone :
  forall (severity severity' : Severity) (complexity : Complexity.t),
    15 <= estimateImplementationTime severity complexity <= 150
    /\ (getSeverityPriority severity' <= getSeverityPriority severity ->
        estimateImplementationTime severity complexity
        <= estimateImplementationTime severity' complexity)
    /\ (estimateImplementationTime severity Complexity.simple
        <= estimateImplementationTime severity Complexity.medium
        <= estimateImplementationTime severity Complexity.complex).
Proof.
  intros severity severity' complexity.
  destruct severity, severity', complexity; vm_compute; intuition discriminate.
Qed.

(** The witness of X17: a critical issue against a low one. *)
Lemma estimateImplementationTime_is_monotone_witness :
  estimateImplementationTime LOW Complexity.medium
  <= estimateImplementationTime CRITICAL Complexity.medium.
Proof.
  refine (proj1 (proj2 (estimateImplementationTime_is_monotone
                          LOW CRITICAL Complexity.medium)) _).
  vm_compute. discriminate.
Defined.

(** ** What a score says *)

Ltac settle_verdict :=
  split; intros Hverdict;
  first [ reflexivity
        | discriminate Hverdict
        | vm_compute in Hverdict; discriminate Hverdict ].

(** X18: for the seven rule-based analyzers (content structure, featured
    snippets, entities, semantic HTML, voice search, knowledge graph and
    technical SEO) a result lists no issue exactly when its score is the
    ceiling of the category: every point below the ceiling is explained by
    an issue, and every issue costs points. *)
Theorem no_issue_exactly_at_the_ceiling :
  forall (rt : JS.Runtime) (category : AEOCategory) (analyzer : Analyzer)
         (scrapedData : ScrapedData.t) (quick : option bool)
         (result : AnalyzerResult.t),
    constructor rt category = Some analyzer ->
    category <> FAQ_SCHEMA -> category <> SCHEMA_MARKUP -> category <> META_TAGS ->
    analyzer scrapedData quick = JS.Returned result ->
    (AnalyzerResult.issues result = []
     <-> (AnalyzerResult.score result == ceiling category)%Q).
Proof.
  intros rt category analyzer scrapedData quick result Hc Hfaq Hschema Hmeta.
  injection Hc as <-.
  destruct category; try (now elim Hfaq); try (now elim Hschema);
    try (now elim Hmeta); clear Hfaq Hschema Hmeta; cbn [ceiling]; intros Hrun.
  - unfold ContentStructureAnalyzer.analyze,
      ContentStructureAnalyzer.analyzeHeadingStructure,
      ContentStructureAnalyzer.analyzeContentReadability,
      ContentStructureAnalyzer.analyzeContentStructure in Hrun.
    destruct (negb (fst (BaseAnalyzer.validateHeadingStructure _))),
      (JS.ltb (BaseAnalyzer.Readability.score _) 60),
      (BaseAnalyzer.countWords _ <? 300);
      injection Hrun as <-;
      cbn [AnalyzerResult.issues AnalyzerResult.score app]; settle_verdict.
  - unfold FeaturedSnippetsAnalyzer.analyze in Hrun. injection Hrun as <-.
    cbn [AnalyzerResult.issues AnalyzerResult.score].
    destruct (BaseAnalyzer.findSnippetCandidates _); cbn; settle_verdict.
  - unfold EntityOptimizationAnalyzer.analyze in Hrun. injection Hrun as <-.
    cbn [AnalyzerResult.issues AnalyzerResult.score].
    destruct (negb _); settle_verdict.
  - unfold SemanticHTMLAnalyzer.analyze in Hrun. injection Hrun as <-.
    cbn [AnalyzerResult.issues AnalyzerResult.score].
    destruct (negb _); settle_verdict.
  - unfold VoiceSearchAnalyzer.analyze in Hrun. injection Hrun as <-.
    cbn [AnalyzerResult.issues AnalyzerResult.score].
    destruct (BaseAnalyzer.answersCommonQuestions _); cbn [negb]; settle_verdict.
  - unfold KnowledgeGraphAnalyzer.analyze in Hrun. injection Hrun as <-.
    cbn [AnalyzerResult.issues AnalyzerResult.score].
    destruct (negb _); settle_verdict.
  - unfold TechnicalSEOAnalyzer.analyze in Hrun. injection Hrun as <-.
    cbn [AnalyzerResult.issues AnalyzerResult.score].
    destruct (JS.gtb (PerformanceMetrics.loadTime _) 3000),
      (JS.gtb (PerformanceMetrics.pageSize _) 3000000),
      (match PerformanceMetrics.coreWebVitals _ with
       | Some cwv => if TechnicalSEOAnalyzer.poor_lcp (PerformanceMetrics.lcp cwv)
                     then PerformanceMetrics.lcp cwv else None
       | None => None
       end);
      cbn [app]; settle_verdict.
Qed.

(** The witness of X18: the technical analyzer on the test page, which has
    no issue and the score 60. *)
Lemma no_issue_exactly_at_the_ceiling_witness :
  exists result,
    TechnicalSEOAnalyzer.analyze sample_runtime testData None = JS.Returned result
    /\ (AnalyzerResult.issues result = []
        <-> (AnalyzerResult.score result == ceiling TECHNICAL_SEO)%Q).
Proof.
  eexists. split; [reflexivity|].
  apply (no_issue_exactly_at_the_ceiling sample_runtime TECHNICAL_SEO
           (TechnicalSEOAnalyzer.analyze sample_runtime) testData None);
    try reflexivity; discriminate.
Defined.

Lemma Math_min_100_twice (x : JS.number) :
  (JS.Math_min 100 (JS.Math_min 100 x) == JS.Math_min 100 x)%Q.
Proof. unfold JS.Math_min. apply Q.min_r, Q.le_min_l. Qed.

Lemma Math_min_100_small (x : JS.number) : (x <= 100 -> JS.Math_min 100 x == x)%Q.
Proof. intros Hx. unfold JS.Math_min. now apply Q.min_r. Qed.

(** X19: the score of the FAQ analyzer tells what it found: 0 without any
    FAQ block, 20 with FAQ blocks none of which is valid, and with a valid
    one 30, 50 or a score between 70 and 100. *)
Theorem faq_score_bands :
  forall (rt : JS.Runtime) (scrapedData : ScrapedData.t) (quick : option bool)
         (result : AnalyzerResult.t),
    FAQSchemaAnalyzer.analyze rt scrapedData quick = JS.Returned result ->
    exists faqSchemas,
      JS.filterM FAQSchemaAnalyzer.isFAQSchema (ScrapedData.schemas scrapedData)
      = JS.Returned faqSchemas
      /\ match faqSchemas, List.filter SchemaMarkup.isValid faqSchemas with
         | [], _ => AnalyzerResult.score result == 0
         | _ :: _, [] => AnalyzerResult.score result == 20
         | _ :: _, _ :: _ =>
             AnalyzerResult.score result == 30
             \/ AnalyzerResult.score result == 50
             \/ 70 <= AnalyzerResult.score result <= 100
         end%Q.
Proof.
  intros rt scrapedData quick result. unfold FAQSchemaAnalyzer.analyze.
  destruct (JS.filterM _ _) as [faqSchemas|]; [|discriminate].
  cbn [JS.bind]. intros Hrun. exists faqSchemas. split; [reflexivity|].
  match type of Hrun with
  | JS.bind ?m _ = _ => destruct m as [[[score issues] recommendations]|] eqn:Hinner
  end; [|discriminate Hrun].
  cbn [JS.bind] in Hrun. injection Hrun as <-. cbn [AnalyzerResult.score].
  destruct faqSchemas as [|schema faqSchemas].
  - injection Hinner as <- _ _. reflexivity.
  - destruct (List.filter SchemaMarkup.isValid (schema :: faqSchemas)) as [|first rest].
    + injection Hinner as <- _ _. reflexivity.
    + unfold FAQSchemaAnalyzer.validate_quality in Hinner.
      destruct (JS.strict_equal _ 0);
        [injection Hinner as <- _ _; left; reflexivity|].
      destruct (JS.less_than rt _ 3);
        [injection Hinner as <- _ _; right; left; reflexivity|].
      unfold FAQSchemaAnalyzer.evaluateFAQQuality in Hinner.
      destruct (FAQSchemaAnalyzer.iterate _) as [entries|]; [|discriminate Hinner].
      cbn [JS.bind] in Hinner.
      destruct (FAQSchemaAnalyzer.evaluate_entries rt 70%Q entries) as [q|] eqn:Hq;
        [|discriminate Hinner].
      cbn [JS.bind] in Hinner. injection Hinner as <- _ _.
      apply evaluate_entries_grows in Hq.
      right; right. rewrite Math_min_100_twice. unfold JS.Math_min. split.
      * apply Q.min_glb; lra.
      * apply Q.le_min_l.
Qed.

(** The witness of X19: the test page, which has no FAQ block. *)
Lemma faq_score_bands_witness :
  exists result,
    FAQSchemaAnalyzer.analyze sample_runtime testData None = JS.Returned result
    /\ (AnalyzerResult.score result == 0)%Q.
Proof.
  eexists. split; [reflexivity|].
  destruct (faq_score_bands sample_runtime testData None _ eq_refl)
    as (faqSchemas & Hfound & Hband).
  injection Hfound as <-. exact Hband.
Defined.

(** X20: a FAQ block whose [mainEntity] is a single question, not a list,
    makes the FAQ analyzer throw: when the first valid FAQ block of the page
    has an object without [length] as its [mainEntity], the analyzer throws
    a TypeError in either mode, and the analysis of the page returns with the
    FAQ score 0 and not one FAQ issue. *)
Theorem single_question_breaks_the_faq_analyzer :
  forall (rt : JS.Runtime) (scrapedData : ScrapedData.t) (options : AnalysisOptions.t)
         (faqSchemas : list SchemaMarkup.t) (first : SchemaMarkup.t)
         (rest : list SchemaMarkup.t) (properties : list (string * JS.value)),
    JS.filterM FAQSchemaAnalyzer.isFAQSchema (ScrapedData.schemas scrapedData)
    = JS.Returned faqSchemas ->
    List.filter SchemaMarkup.isValid faqSchemas = first :: rest ->
    JS.lookup_property "mainEntity" (SchemaMarkup.data first)
    = Some (JS.Object properties) ->
    JS.lookup_property "length" properties = None ->
    (forall quick,
        FAQSchemaAnalyzer.analyze rt scrapedData quick
        = JS.Thrown "TypeError: faqEntries is not iterable")
    /\ exists result,
        analyzeWebpage (constructor rt) scrapedData options = JS.Returned result
        /\ score_of (AnalysisResult.categoryScores result) FAQ_SCHEMA = 0%Q
        /\ (forall i, In i (AnalysisResult.issues result) ->
                      CategoryIssue.category i <> FAQ_SCHEMA).
Proof.
  intros rt scrapedData options faqSchemas first rest properties
    Hfound Hvalid Hentity Hlength.
  assert (Hthrows : forall quick,
             FAQSchemaAnalyzer.analyze rt scrapedData quick
             = JS.Thrown "TypeError: faqEntries is not iterable").
  { intros quick. unfold FAQSchemaAnalyzer.analyze. rewrite Hfound.
    cbn [JS.bind].
    destruct faqSchemas as [|schema faqSchemas]; [discriminate Hvalid|].
    rewrite Hvalid. unfold FAQSchemaAnalyzer.validate_quality.
    rewrite Hentity. cbn [JS.truthy JS.get_length]. rewrite Hlength.
    reflexivity. }
  split; [exact Hthrows|].
  rewrite analyzeWebpage_returns. eexists. split; [reflexivity|].
  cbn [AnalysisResult.categoryScores AnalysisResult.issues]. split.
  - destruct (in_dec AEOCategory_eq_dec FAQ_SCHEMA (categoriesToAnalyze options))
      as [Hin|Hout].
    + apply final_score_recorded; [exact Hin|].
      unfold recorded. cbn [constructor]. now rewrite Hthrows.
    + apply final_score_skipped. now left.
  - intros i. apply silent_category_issues.
    unfold emitted_issues. cbn [constructor]. now rewrite Hthrows.
Qed.

(** The witness of X20: a page whose FAQ block holds one question. *)
Lemma single_question_breaks_the_faq_analyzer_witness :
  FAQSchemaAnalyzer.analyze sample_runtime
    (with_schemas [faq_block (question "What is an answer engine?" twenty_words)])
    None
  = JS.Thrown "TypeError: faqEntries is not iterable".
Proof.
  refine (proj1 (single_question_breaks_the_faq_analyzer sample_runtime
                   (with_schemas
                      [faq_block (question "What is an answer engine?" twenty_words)])
                   no_options
                   [faq_block (question "What is an answer engine?" twenty_words)]
                   (faq_block (question "What is an answer engine?" twenty_words))
                   []
                   [("@type", JS.Str "Question");
                    ("name", JS.Str "What is an answer engine?");
                    ("acceptedAnswer",
                     JS.Object [("@type", JS.Str "Answer");
                                ("text", JS.Str twenty_words)])]
                   _ _ _ _) None);
    reflexivity.
Defined.

Lemma types_of_size (schema : SchemaMarkup.t) (schemas : list SchemaMarkup.t) :
  1 <= Z.of_nat (size (SchemaMarkupAnalyzer.types_of (schema :: schemas))).
Proof.
  assert (Hsize : size (SchemaMarkupAnalyzer.types_of (schema :: schemas)) <> 0%nat).
  { apply size_non_empty_iff. unfold SchemaMarkupAnalyzer.types_of.
    cbn [List.map list_to_set]. set_solver. }
  lia.
Qed.

Lemma calculateSchemaScore_at_least (schema : SchemaMarkup.t)
  (schemas : list SchemaMarkup.t) (data : ScrapedData.t) :
  (40 <= SchemaMarkupAnalyzer.calculateSchemaScore (schema :: schemas) data)%Q.
Proof.
  unfold SchemaMarkupAnalyzer.calculateSchemaScore.
  pose proof (types_of_size schema schemas) as Hsize.
  pose proof (evaluateSchemaCompleteness_nonneg (schema :: schemas)) as Hcomplete.
  set (size_ := Z.of_nat (size (SchemaMarkupAnalyzer.types_of (schema :: schemas)))) in *.
  set (complete := SchemaMarkupAnalyzer.evaluateSchemaCompleteness (schema :: schemas))
    in *.
  unfold JS.Math_min. apply Q.min_glb; [lra|].
  assert (Hbase : (40 <= JS.of_int
                           (if List.existsb
                                 (fun s => SchemaMarkupAnalyzer.is_in
                                             SchemaMarkupAnalyzer.IMPORTANT_SCHEMA_TYPES
                                             (SchemaMarkup.type s))
                                 (schema :: schemas)
                            then 30 + Z.min 30 (size_ * 10) + 20
                            else 30 + Z.min 30 (size_ * 10)))%Q).
  { change 40%Q with (JS.of_int 40). apply of_int_le.
    destruct (List.existsb _ _); lia. }
  lra.
Qed.

(** X21: the score of the schema analyzer tells what it found: 0 on a page
    without structured data, 10 when no block is valid, and at least 40 as
    soon as one block is valid. *)
Theorem schema_score_bands :
  forall (rt : JS.Runtime) (scrapedData : ScrapedData.t) (quick : option bool)
         (result : AnalyzerResult.t),
    SchemaMarkupAnalyzer.analyze rt scrapedData quick = JS.Returned result ->
    match ScrapedData.schemas scrapedData,
          List.filter SchemaMarkup.isValid (ScrapedData.schemas scrapedData) with
    | [], _ => AnalyzerResult.score result == 0
    | _ :: _, [] => AnalyzerResult.score result == 10
    | _ :: _, _ :: _ => 40 <= AnalyzerResult.score result <= 100
    end%Q.
Proof.
  intros rt scrapedData quick result. unfold SchemaMarkupAnalyzer.analyze.
  destruct (ScrapedData.schemas scrapedData) as [|schema schemas].
  - intros Hrun. injection Hrun as <-. reflexivity.
  - change (Z.of_nat (List.length (schema :: schemas)) =? 0) with false.
    cbv iota.
    destruct (List.filter SchemaMarkup.isValid (schema :: schemas))
      as [|valid valids]; intros Hrun; injection Hrun as <-;
      cbn [AnalyzerResult.score].
    + reflexivity.
    + change (Z.of_nat (List.length (valid :: valids)) =? 0) with false.
      cbv iota. unfold JS.Math_min. split; [|apply Q.le_min_l].
      apply Q.min_glb; [lra|]. apply calculateSchemaScore_at_least.
Qed.

(** The witness of X21: the test page, which has no structured data. *)
Lemma schema_score_bands_witness :
  exists result,
    SchemaMarkupAnalyzer.analyze sample_runtime testData None = JS.Returned result
    /\ (AnalyzerResult.score result == 0)%Q.
Proof.
  eexists. split; [reflexivity|].
  exact (schema_score_bands sample_runtime testData None _ eq_refl).
Defined.

(** ** The dispatch of the fixes *)

Lemma score_key_gets_the_fallbacks (c : AEOCategory) :
  CodeFixGenerator.getFixTypesForCategory (getCategoryScoreKey c) = [TECHNICAL_FIX]
  /\ CodeFixGenerator.determineSeverity (getCategoryScoreKey c) = MEDIUM
  /\ forall fixType,
      CodeFixGenerator.estimateImpact (getCategoryScoreKey c) fixType = 15.
Proof.
  split; [|split]; [now destruct c | now destruct c|].
  intros fixType. destruct c, fixType; reflexivity.
Qed.

Lemma criticalCategories_are_score_keys (categoryScores : CategoryScores)
  (key : string) :
  In key (AnalysisRoute.criticalCategories categoryScores) ->
  exists c, key = getCategoryScoreKey c
            /\ JS.ltb (score_of categoryScores c) 60 = true.
Proof.
  unfold AnalysisRoute.criticalCategories. rewrite in_map_iff.
  intros ([k s] & <- & Hin). apply List.filter_In in Hin.
  destruct Hin as [Hin Hlow]. cbn [fst snd] in *.
  unfold Object_entries in Hin. cbn [In] in Hin.
  repeat match type of Hin with
         | _ \/ _ => destruct Hin as [Hin|Hin]
         end; try (now elim Hin); injection Hin as <- <-.
  - now exists FAQ_SCHEMA.
  - now exists SCHEMA_MARKUP.
  - now exists CONTENT_STRUCTURE.
  - now exists FEATURED_SNIPPETS.
  - now exists ENTITY_OPTIMIZATION.
  - now exists META_TAGS.
  - now exists SEMANTIC_HTML.
  - now exists VOICE_SEARCH.
  - now exists KNOWLEDGE_GRAPH.
  - now exists TECHNICAL_SEO.
Qed.

Lemma firstn_In {A} (n : nat) (xs : list A) (x : A) :
  In x (List.firstn n xs) -> In x xs.
Proof.
  intros Hin. rewrite <- (List.firstn_skipn n xs). apply in_or_app. now left.
Qed.

(** X22: the fixes are dispatched under the keys of the score card, which
    are not the values of [AEOCategory] the fix generator looks up.  For
    every score card at most three categories are dispatched, each with a
    score below 60, and for each of them the generator falls back to the one
    fix type [technical_fix], the severity medium and the impact 15. *)
Theorem fixes_fall_back_to_technical_fix :
  forall (categoryScores : CategoryScores) (key : string) (fixTypes : list FixType),
    In (key, fixTypes) (AnalysisRoute.dispatched categoryScores) ->
    (List.length (AnalysisRoute.dispatched categoryScores) <= 3)%nat
    /\ (exists c, key = getCategoryScoreKey c
                  /\ (score_of categoryScores c < 60)%Q)
    /\ fixTypes = [TECHNICAL_FIX]
    /\ CodeFixGenerator.determineSeverity key = MEDIUM
    /\ forall fixType, CodeFixGenerator.estimateImpact key fixType = 15.
Proof.
  intros categoryScores key fixTypes Hin. split.
  - unfold AnalysisRoute.dispatched. rewrite List.length_map.
    apply List.firstn_le_length.
  - unfold AnalysisRoute.dispatched in Hin. rewrite in_map_iff in Hin.
    destruct Hin as (k & Hpair & Hin). injection Hpair as -> <-.
    apply firstn_In, criticalCategories_are_score_keys in Hin.
    destruct Hin as (c & -> & Hlow).
    destruct (score_key_gets_the_fallbacks c) as (Htypes & Hseverity & Himpact).
    split; [|now repeat split].
    exists c. split; [reflexivity|].
    unfold JS.ltb in Hlow. apply negb_true_iff in Hlow.
    apply Qnot_le_lt. intros Hle. apply Qle_bool_iff in Hle. congruence.
Qed.

(** The witness of X22: the score card of a page where nothing was
    analyzed. *)
Lemma fixes_fall_back_to_technical_fix_witness :
  In ("faqSchema", [TECHNICAL_FIX]) (AnalysisRoute.dispatched (fillMissingScores ∅))
  /\ CodeFixGenerator.determineSeverity "faqSchema" = MEDIUM.
Proof.
  split; [now left|].
  apply (fixes_fall_back_to_technical_fix (fillMissingScores ∅) "faqSchema"
           [TECHNICAL_FIX]).
  now left.
Defined.

Lemma ltb_below (x y z : JS.number) : (x <= y)%Q -> (y < z)%Q -> JS.ltb x z = true.
Proof.
  intros Hxy Hyz. unfold JS.ltb. apply negb_true_iff, not_true_is_false.
  intros Hle. apply Qle_bool_iff in Hle. lra.
Qed.

Lemma two_low_scores (categoryScores : CategoryScores) :
  JS.ltb (entityOptimization categoryScores) 60 = true ->
  JS.ltb (knowledgeGraph categoryScores) 60 = true ->
  (2 <= List.length (AnalysisRoute.dispatched categoryScores))%nat.
Proof.
  intros Hentity Hgraph.
  unfold AnalysisRoute.dispatched, AnalysisRoute.criticalCategories, Object_entries.
  rewrite List.length_map, List.length_firstn, List.length_map.
  cbn [List.filter snd]. rewrite Hentity, Hgraph.
  repeat match goal with
         | |- context [if ?b then _ else _] => destruct b
         end; cbn [List.length]; lia.
Qed.

(** X23: every analysis asks for fixes.  The entity and knowledge-graph
    analyzers never score above 50, below the threshold of 60, so for every
    result of the instance of the constructor at least two categories are
    dispatched to the fix generator, however good the page. *)
Theorem every_analysis_asks_for_fixes :
  forall (rt : JS.Runtime) (scrapedData : ScrapedData.t) (options : AnalysisOptions.t)
         (result : AnalysisResult.t),
    analyzeWebpage (constructor rt) scrapedData options = JS.Returned result ->
    (2 <= List.length (AnalysisRoute.dispatched (AnalysisResult.categoryScores result))
     <= 3)%nat.
Proof.
  intros rt scrapedData options result. rewrite analyzeWebpage_returns.
  intros Hresult. injection Hresult as <-. cbn [AnalysisResult.categoryScores].
  split.
  - apply two_low_scores.
    + pose proof (constructor_card rt scrapedData options ENTITY_OPTIMIZATION)
        as [_ Hhigh].
      cbn [score_of ceiling] in Hhigh. eapply ltb_below; [exact Hhigh | lra].
    + pose proof (constructor_card rt scrapedData options KNOWLEDGE_GRAPH)
        as [_ Hhigh].
      cbn [score_of ceiling] in Hhigh. eapply ltb_below; [exact Hhigh | lra].
  - unfold AnalysisRoute.dispatched. rewrite List.length_map.
    apply List.firstn_le_length.
Qed.

(** The witness of X23: the test page with the default options. *)
Lemma every_analysis_asks_for_fixes_witness :
  exists result,
    analyzeWebpage (constructor sample_runtime) testData no_options = JS.Returned result
    /\ (2 <= List.length (AnalysisRoute.dispatched (AnalysisResult.categoryScores result))
        <= 3)%nat.
Proof.
  eexists. split; [apply analyzeWebpage_returns|].
  apply (every_analysis_asks_for_fixes sample_runtime testData no_options).
  apply analyzeWebpage_returns.
Defined.

(** ** Issues and recommendations of the meta-tags analyzer *)

(** X24: the length checks and the recommendations of the meta-tags analyzer
    use different bounds.  A title of 30 to 49 characters that is not blank
    passes the length check of the title, with its bonus and no issue pushed
    there, and the full analysis still recommends to optimize the title to 50
    to 60 characters; likewise a description of 120 to 149 characters. *)
Theorem good_lengths_are_still_recommended_for_optimization :
  forall (rt : JS.Runtime) (scrapedData : ScrapedData.t) (result : AnalyzerResult.t),
    MetaTagsAnalyzer.analyze rt scrapedData None = JS.Returned result ->
    (blank (ScrapedData.title scrapedData) = false ->
     30 <= JS.length (ScrapedData.title scrapedData) < 50 ->
     (forall issues,
         MetaTagsAnalyzer.analyzeTitleTag (ScrapedData.title scrapedData) issues
         = MetaTagsAnalyzer.title_after_length (ScrapedData.title scrapedData)
             (50 + 20) issues)
     /\ In (AnalyzerRecommendation.make 1 "Optimize Title Tag"
              "Create compelling 50-60 character title with target keywords" 25 10)
           (AnalyzerResult.recommendations result))
    /\ (blank (ScrapedData.metaDescription scrapedData) = false ->
        120 <= JS.length (ScrapedData.metaDescription scrapedData) < 150 ->
        (forall issues,
            MetaTagsAnalyzer.analyzeMetaDescription
              (ScrapedData.metaDescription scrapedData) issues
            = MetaTagsAnalyzer.description_after_length
                (ScrapedData.metaDescription scrapedData) (50 + 25) issues)
        /\ In (AnalyzerRecommendation.make 1 "Optimize Meta Description"
                 "Write compelling 150-160 character description with call-to-action"
                 20 15)
              (AnalyzerResult.recommendations result)).
Proof.
  intros rt scrapedData result Hrun.
  unfold MetaTagsAnalyzer.analyze in Hrun.
  destruct (MetaTagsAnalyzer.analyzeTitleTag _ _) as [titleScore issues1].
  destruct (MetaTagsAnalyzer.analyzeMetaDescription _ _) as [descriptionScore issues2].
  destruct (MetaTagsAnalyzer.analyzeMetaTags _ _) as [metaTagsScore issues3].
  destruct (MetaTagsAnalyzer.analyzeOpenGraphTags _ _ _) as [ogScore issues4].
  destruct (MetaTagsAnalyzer.analyzeTwitterTags _ _) as [twitterScore issues5].
  injection Hrun as <-.
  cbn [AnalyzerResult.recommendations default_false negb].
  unfold MetaTagsAnalyzer.addRecommendations.
  split.
  - intros Hthere [Hlow Hhigh]. split.
    + intros issues. unfold MetaTagsAnalyzer.analyzeTitleTag.
      rewrite missing_blank, Hthere.
      unfold MetaTagsAnalyzer.title_length_branch.
      destruct (Z.ltb_spec (JS.length (ScrapedData.title scrapedData)) 30); [lia|].
      destruct (Z.gtb_spec (JS.length (ScrapedData.title scrapedData)) 60); [lia|].
      reflexivity.
    + assert (Houtside : MetaTagsAnalyzer.outside (ScrapedData.title scrapedData) 50 60
                         = true).
      { unfold MetaTagsAnalyzer.outside.
        destruct (Z.ltb_spec (JS.length (ScrapedData.title scrapedData)) 50); [|lia].
        now rewrite orb_true_r. }
      rewrite Houtside.
      repeat match goal with
             | |- context [if ?b then _ else _] => destruct b
             end; cbn; auto 10.
  - intros Hthere [Hlow Hhigh]. split.
    + intros issues. unfold MetaTagsAnalyzer.analyzeMetaDescription.
      rewrite missing_blank, Hthere.
      unfold MetaTagsAnalyzer.description_length_branch.
      destruct (Z.ltb_spec (JS.length (ScrapedData.metaDescription scrapedData)) 120);
        [lia|].
      destruct (Z.gtb_spec (JS.length (ScrapedData.metaDescription scrapedData)) 160);
        [lia|].
      reflexivity.
    + assert (Houtside : MetaTagsAnalyzer.outside
                           (ScrapedData.metaDescription scrapedData) 150 160 = true).
      { unfold MetaTagsAnalyzer.outside.
        destruct (Z.ltb_spec (JS.length (ScrapedData.metaDescription scrapedData)) 150);
          [|lia].
        now rewrite orb_true_r. }
      rewrite Houtside.
      repeat match goal with
             | |- context [if ?b then _ else _] => destruct b
             end; cbn; auto 10.
Qed.

(** The witness of X24: a page whose title has 33 characters. *)
Lemma good_lengths_are_still_recommended_for_optimization_witness :
  exists result,
    MetaTagsAnalyzer.analyze sample_runtime
      (ScrapedData.make "https://example.com" "Answer engines for small business"
         "Test description" [] "Test content" [] [] [] [] []
         (PerformanceMetrics.make 0%Q 0%Q None))
      None = JS.Returned result
    /\ In (AnalyzerRecommendation.make 1 "Optimize Title Tag"
             "Create compelling 50-60 character title with target keywords" 25 10)
          (AnalyzerResult.recommendations result).
Proof.
  eexists. split; [reflexivity|].
  refine (proj2 (proj1 (good_lengths_are_still_recommended_for_optimization
                          sample_runtime
                          (ScrapedData.make "https://example.com"
                             "Answer engines for small business"
                             "Test description" [] "Test content" [] [] [] [] []
                             (PerformanceMetrics.make 0%Q 0%Q None))
                          _ eq_refl) _ _)).
  - reflexivity.
  - split; [apply Z.leb_le | apply Z.ltb_lt]; reflexivity.
Defined.

(** ** Letter case *)

Lemma lower_unit_idempotent (c : ascii) :
  JS.lower_unit (JS.lower_unit c) = JS.lower_unit c.
Proof. destruct c as [[] [] [] [] [] [] [] []]; reflexivity. Qed.

Lemma toLowerCase_idempotent (s : string) :
  JS.toLowerCase (JS.toLowerCase s) = JS.toLowerCase s.
Proof.
  induction s as [|c s IH]; simpl; [reflexivity|].
  now rewrite lower_unit_idempotent, IH.
Qed.

Lemma existsb_map {A B} (f : B -> bool) (g : A -> B) (xs : list A) :
  List.existsb f (List.map g xs) = List.existsb (fun x => f (g x)) xs.
Proof. induction xs as [|x xs IH]; simpl; [reflexivity | now rewrite IH]. Qed.

(** X25: the keyword tests ignore the case of the letters: putting the text
    and the keywords in lower case changes neither [containsKeywords] nor
    [answersCommonQuestions]. *)
Theorem keyword_tests_ignore_case :
  forall (text : string) (keywords : list string),
    BaseAnalyzer.containsKeywords (JS.toLowerCase text)
      (List.map JS.toLowerCase keywords)
    = BaseAnalyzer.containsKeywords text keywords
    /\ BaseAnalyzer.answersCommonQuestions (JS.toLowerCase text)
       = BaseAnalyzer.answersCommonQuestions text.
Proof.
  intros text keywords. split.
  - unfold BaseAnalyzer.containsKeywords.
    rewrite existsb_map, toLowerCase_idempotent.
    induction keywords as [|keyword keywords IH]; simpl; [reflexivity|].
    now rewrite toLowerCase_idempotent, IH.
  - unfold BaseAnalyzer.answersCommonQuestions.
    now rewrite toLowerCase_idempotent.
Qed.
